(** * Daily Motion: the statistics and streak core

    A shallow embedding of the client-side activity context
    (getDailyStats, getWeeklyStats, getMonthlyStats, updateStreak, addLog,
    deleteLog, generateWeeklyInsights, generateMonthlySuggestions) and of
    the log handlers of the server, with the properties the specification
    states about them.

    Conventions of the model:
    - a JavaScript [Date] that the code only truncates to a day or
      compares by day is kept at the granularity of a calendar day;
    - the clock is an argument: [now] is the day it shows when the code
      reads it.  Where the code computes with the instant itself (the
      streak transition of the client subtracts 86400000 ms from it), the
      clock is the instant [nowMs] in milliseconds since the epoch,
      together with the time zone [zone] of the browser, which gives the
      local calendar day an instant falls on; a local day may last 23 or
      25 hours.  The server prints its days in UTC, where every day lasts
      24 hours;
    - minute counts are integers ([Z]); the percentages, which the code
      computes in floating point, are exact rationals ([Q]);
    - an object used as a dictionary is an association list in insertion
      order, and [JsObject.entries] follows the enumeration order of
      JavaScript (array-index keys first, ascending, then the others);
      its keys are activity-type ids, none of which names a property
      inherited from [Object.prototype];
    - identifiers drawn at random ([randomUUID]) are arguments. *)

From Stdlib Require Import ZArith QArith Qround List String Ascii Bool Lia.
From Stdlib Require Import Sorted Permutation.
Import ListNotations.

Local Open Scope Z_scope.

(** ** Calendar days (the part of [Date] and date-fns the code uses) *)

Module Calendar.

Record Date := mkDate { year : Z; month : Z; day : Z }.

Definition is_leap (y : Z) : bool :=
  ((y mod 4 =? 0) && negb (y mod 100 =? 0)) || (y mod 400 =? 0).

Definition days_in_month (y m : Z) : Z :=
  if m =? 2 then (if is_leap y then 29 else 28)
  else if (m =? 4) || (m =? 6) || (m =? 9) || (m =? 11) then 30
  else 31.

(** Every [Date] object of JavaScript is normalised; this is the
    invariant of the representation. *)
Definition valid_date (d : Date) : Prop :=
  1 <= month d <= 12 /\ 1 <= day d <= days_in_month (year d) (month d).

(** [setDate(getDate() + 1)] and [setDate(getDate() - 1)]. *)
Definition next_day (d : Date) : Date :=
  if day d <? days_in_month (year d) (month d)
  then mkDate (year d) (month d) (day d + 1)
  else if month d <? 12 then mkDate (year d) (month d + 1) 1
  else mkDate (year d + 1) 1 1.

Definition prev_day (d : Date) : Date :=
  if 1 <? day d then mkDate (year d) (month d) (day d - 1)
  else if 1 <? month d
  then mkDate (year d) (month d - 1) (days_in_month (year d) (month d - 1))
  else mkDate (year d - 1) 12 31.

(** Days elapsed since 1970-01-01: the time value of the date divided by
    the length of a day. *)
Definition day_number (d : Date) : Z :=
  let y := if month d <=? 2 then year d - 1 else year d in
  let mp := (month d + 9) mod 12 in
  365 * y + y / 4 - y / 100 + y / 400 + (153 * mp + 2) / 5 + day d - 1 - 719468.

(** [getDay()]: 0 is Sunday; 1970-01-01 was a Thursday. *)
Definition getDay (d : Date) : Z := (day_number d + 4) mod 7.

Definition addDays (d : Date) (n : Z) : Date :=
  if 0 <=? n then Nat.iter (Z.to_nat n) next_day d
  else Nat.iter (Z.to_nat (- n)) prev_day d.

(** date-fns [startOfWeek] and [endOfWeek] with the option
    [weekStartsOn]. *)
Definition startOfWeek (d : Date) (weekStartsOn : Z) : Date :=
  let dow := getDay d in
  let diff := (if dow <? weekStartsOn then 7 else 0) + dow - weekStartsOn in
  addDays d (- diff).

Definition endOfWeek (d : Date) (weekStartsOn : Z) : Date :=
  let dow := getDay d in
  let diff := (if dow <? weekStartsOn then -7 else 0) + 6 - (dow - weekStartsOn) in
  addDays d diff.

Definition subWeeks (d : Date) (n : Z) : Date := addDays d (- (7 * n)).

Definition startOfMonth (d : Date) : Date := mkDate (year d) (month d) 1.

Definition endOfMonth (d : Date) : Date :=
  mkDate (year d) (month d) (days_in_month (year d) (month d)).

(** [eachDayOfInterval]: the loop pushes the current day and advances it
    by one day while it is not after the end. *)
Fixpoint days_from (n : nat) (d : Date) : list Date :=
  match n with
  | O => []
  | S k => d :: days_from k (next_day d)
  end.

Definition eachDayOfInterval (s e : Date) : list Date :=
  days_from (Z.to_nat (day_number e - day_number s + 1)) s.

(** [format(d, "yyyy-MM-dd")] and [format(d, "yyyy-MM")]. *)
Definition digit (n : Z) : ascii := ascii_of_nat (48 + Z.to_nat (n mod 10)).

Definition pad2 (n : Z) : string :=
  String (digit (n / 10)) (String (digit n) EmptyString).

Definition pad4 (n : Z) : string :=
  String (digit (n / 1000)) (String (digit (n / 100)) (pad2 n)).

Definition format_month (d : Date) : string :=
  (pad4 (year d) ++ "-" ++ pad2 (month d))%string.

Definition format_date (d : Date) : string :=
  (format_month d ++ "-" ++ pad2 (day d))%string.

End Calendar.

Import Calendar.

(** ** JavaScript values used by the code *)

(** [reduce((sum, x) => sum + f(x), 0)]. *)
Definition sum_by {A : Type} (f : A -> Z) (l : list A) : Z :=
  fold_left (fun sum x => sum + f x) l 0.

(** [xs.map(f).filter(x => x)] for an [f] that may yield [undefined]. *)
Fixpoint map_defined {A B : Type} (f : A -> option B) (l : list A) : list B :=
  match l with
  | [] => []
  | x :: r =>
      match f x with
      | Some y => y :: map_defined f r
      | None => map_defined f r
      end
  end.

(** [Array.prototype.sort(cmp)]: the sort is stable, and for a consistent
    comparator its result is the one of a stable insertion sort.  An
    element moves behind another one only when [cmp] is positive. *)
Section Sort.
Context {A : Type} (cmp : A -> A -> Z).

Fixpoint insert (x : A) (l : list A) : list A :=
  match l with
  | [] => [x]
  | y :: r => if 0 <? cmp x y then y :: insert x r else x :: y :: r
  end.

Definition sort (l : list A) : list A := fold_right insert [] l.
End Sort.

(** An object literal used as a dictionary from strings to numbers. *)
Module JsObject.

Definition t := list (string * Z).

Definition empty : t := [].

Fixpoint get (o : t) (k : string) : option Z :=
  match o with
  | [] => None
  | (k', v) :: r => if String.eqb k' k then Some v else get r k
  end.

Fixpoint set (o : t) (k : string) (v : Z) : t :=
  match o with
  | [] => [(k, v)]
  | (k', v') :: r =>
      if String.eqb k' k then (k', v) :: r else (k', v') :: set r k v
  end.

(** [o[k] || 0] *)
Definition get_or_zero (o : t) (k : string) : Z :=
  match get o k with
  | Some v => v
  | None => 0
  end.

(** [o[k] = (o[k] || 0) + n] *)
Definition add (o : t) (k : string) (n : Z) : t :=
  set o k (get_or_zero o k + n).

(** A key is an array index when it is the canonical decimal form of an
    integer below 2^32 - 1. *)
Definition is_digit (c : ascii) : bool :=
  ((48 <=? nat_of_ascii c) && (nat_of_ascii c <=? 57))%nat.

Fixpoint digits_value (acc : Z) (s : string) : option Z :=
  match s with
  | EmptyString => Some acc
  | String c r =>
      if is_digit c
      then digits_value (10 * acc + Z.of_nat (nat_of_ascii c - 48)) r
      else None
  end.

Definition array_index (s : string) : option Z :=
  match s with
  | EmptyString => None
  | String c r =>
      if Ascii.eqb c "0" && negb (String.eqb r EmptyString) then None
      else match digits_value 0 s with
           | Some n => if n <? 4294967295 then Some n else None
           | None => None
           end
  end.

Definition is_index (kv : string * Z) : bool :=
  match array_index (fst kv) with Some _ => true | None => false end.

Definition index_of (kv : string * Z) : Z :=
  match array_index (fst kv) with Some n => n | None => 0 end.

(** [Object.entries(o)]: array-index keys in ascending numeric order,
    then the other keys in insertion order. *)
Definition entries (o : t) : list (string * Z) :=
  sort (fun a b => index_of a - index_of b) (filter is_index o)
  ++ filter (fun kv => negb (is_index kv)) o.

End JsObject.

(** [parseISO] on the calendar-date form "YYYY-MM-DD" (the form of every
    date the application stores); any other string is an invalid date. *)
Definition digit_value (c : ascii) : Z := Z.of_nat (nat_of_ascii c - 48).

Definition parseISO_ymd (s : string) : option Date :=
  match s with
  | String y1 (String y2 (String y3 (String y4 (String s1
      (String m1 (String m2 (String s2
        (String d1 (String d2 EmptyString))))))))) =>
      if forallb JsObject.is_digit [y1; y2; y3; y4; m1; m2; d1; d2]
         && Ascii.eqb s1 "-" && Ascii.eqb s2 "-"
      then
        let y := 1000 * digit_value y1 + 100 * digit_value y2
                 + 10 * digit_value y3 + digit_value y4 in
        let m := 10 * digit_value m1 + digit_value m2 in
        let d := 10 * digit_value d1 + digit_value d2 in
        if (1 <=? m) && (m <=? 12) && (1 <=? d) && (d <=? days_in_month y m)
        then Some (mkDate y m d)
        else None
      else None
  | _ => None
  end.

(** Decimal form of an integer, as [String(n)] prints it. *)
Fixpoint pos_digits (fuel : nat) (n : Z) (acc : string) : string :=
  match fuel with
  | O => acc
  | S f =>
      let acc' := String (digit n) acc in
      if n <? 10 then acc' else pos_digits f (n / 10) acc'
  end.

Definition string_of_Z (n : Z) : string :=
  if n <? 0
  then String "-" (pos_digits (S (Z.to_nat (Z.log2 (- n)))) (- n) EmptyString)
  else pos_digits (S (Z.to_nat (Z.log2 n))) n EmptyString.

(** [s || null] on an optional string: the empty string is falsy. *)
Definition or_null (s : option string) : option string :=
  match s with
  | Some EmptyString => None
  | _ => s
  end.

Definition option_eqb_string (a b : option string) : bool :=
  match a, b with
  | Some x, Some y => String.eqb x y
  | None, None => true
  | _, _ => false
  end.

(** Comparison of numbers, on rationals. *)
Definition Qlt_bool (a b : Q) : bool := negb (Qle_bool b a).

(** ** Data model (shared schema) *)

Record ActivityType := mkActivityType {
  at_id : string;
  at_userId : option string;
  at_name : string;
  at_icon : string;
  at_color : string;
  at_category : string;
  at_isDefault : bool
}.

Record ActivityLog := mkActivityLog {
  log_id : string;
  log_userId : option string;
  log_activityTypeId : string;
  log_date : string;
  log_minutes : Z;
  log_notes : option string;
  log_createdAt : Z
}.

Record Streak := mkStreak {
  currentStreak : Z;
  longestStreak : Z;
  lastActiveDate : option string
}.

Record DailyActivity := mkDailyActivity {
  da_activityType : ActivityType;
  da_minutes : Z;
  da_percentage : Q
}.

Record DailyStats := mkDailyStats {
  ds_date : string;
  ds_totalMinutes : Z;
  ds_activities : list DailyActivity;
  ds_productiveMinutes : Z;
  ds_leisureMinutes : Z
}.

Record WeeklyActivity := mkWeeklyActivity {
  wa_activityType : ActivityType;
  wa_minutes : Z;
  wa_previousWeekMinutes : Z;
  wa_changePercentage : Q
}.

Record WeeklyStats := mkWeeklyStats {
  ws_startDate : string;
  ws_endDate : string;
  ws_totalMinutes : Z;
  ws_dailyBreakdown : list DailyStats;
  ws_activityBreakdown : list WeeklyActivity;
  ws_insights : list string
}.

Record HeatmapEntry := mkHeatmapEntry {
  hm_date : string;
  hm_minutes : Z
}.

Record TopActivity := mkTopActivity {
  ta_activityType : ActivityType;
  ta_minutes : Z
}.

Record MonthlyStats := mkMonthlyStats {
  ms_month : string;
  ms_totalMinutes : Z;
  ms_dailyHeatmap : list HeatmapEntry;
  ms_mostProductiveDay : string;
  ms_leastProductiveDay : string;
  ms_topActivities : list TopActivity;
  ms_suggestions : list string
}.

(** ** Client: the activity context *)

(** The state held by [ActivityProvider]. *)
Record ClientState := mkClientState {
  activities : list ActivityType;
  logs : list ActivityLog;
  streak : Streak
}.

Definition initialStreak : Streak := mkStreak 0 0 None.

(** [updateStreak(date)].  [nowMs] is the instant at which the state
    update runs, in milliseconds since the epoch, and [zone] the time zone
    of the browser: [zone t] is the local calendar day of the instant [t],
    the day that [format(new Date(t), "yyyy-MM-dd")] prints.  [today] is
    the local day of [new Date()] and [yesterday] the local day of the
    instant [Date.now() - 86400000]. *)
Definition updateStreak (zone : Z -> Date) (nowMs : Z) (date : string)
    (prev : Streak) : Streak :=
  let today := format_date (zone nowMs) in
  let yesterday := format_date (zone (nowMs - 86400000)) in
  if option_eqb_string (lastActiveDate prev) (Some today) then prev
  else
    let newStreak :=
      if option_eqb_string (lastActiveDate prev) (Some yesterday)
         || option_eqb_string (lastActiveDate prev) None
      then currentStreak prev + 1
      else if negb (option_eqb_string (lastActiveDate prev) (Some today))
      then 1
      else currentStreak prev in
    mkStreak newStreak (Z.max newStreak (longestStreak prev)) (Some today).

(** [addLog(log)]: [nowMs] is [Date.now()], [userId] is [user?.id];
    [zone] and [updateMs] are the time zone and the instant at which the
    update of the streak runs. *)
Definition addLog (nowMs : Z) (zone : Z -> Date) (updateMs : Z)
    (userId : option string) (activityTypeId date : string) (minutes : Z)
    (notes : option string) (st : ClientState) : ClientState :=
  let newLog :=
    mkActivityLog ("log-" ++ string_of_Z nowMs) (or_null userId)
      activityTypeId date minutes notes nowMs in
  mkClientState (activities st) (logs st ++ [newLog])
    (updateStreak zone updateMs date (streak st)).

(** [deleteLog(logId)] *)
Definition deleteLog (logId : string) (st : ClientState) : ClientState :=
  mkClientState (activities st)
    (filter (fun log => negb (String.eqb (log_id log) logId)) (logs st))
    (streak st).

Section Stats.
(** The snapshot the callbacks close over. *)
Variable activities_ : list ActivityType.
Variable logs_ : list ActivityLog.

Definition getActivityById (id : string) : option ActivityType :=
  find (fun a => String.eqb (at_id a) id) activities_.

Definition percentage (minutes totalMinutes : Z) : Q :=
  if 0 <? totalMinutes
  then (inject_Z minutes / inject_Z totalMinutes) * 100
  else 0%Q.

Definition getDailyStats (date : string) : DailyStats :=
  let dayLogs := filter (fun log => String.eqb (log_date log) date) logs_ in
  let totalMinutes := sum_by log_minutes dayLogs in
  let activityBreakdown :=
    fold_left
      (fun o log => JsObject.add o (log_activityTypeId log) (log_minutes log))
      dayLogs JsObject.empty in
  let activitiesWithTime :=
    map_defined
      (fun '(activityTypeId, minutes) =>
         match getActivityById activityTypeId with
         | Some activityType =>
             Some (mkDailyActivity activityType minutes
                     (percentage minutes totalMinutes))
         | None => None
         end)
      (JsObject.entries activityBreakdown) in
  let productiveMinutes :=
    sum_by da_minutes
      (filter
         (fun a => String.eqb (at_category (da_activityType a)) "productive")
         activitiesWithTime) in
  let leisureMinutes :=
    sum_by da_minutes
      (filter
         (fun a => String.eqb (at_category (da_activityType a)) "leisure")
         activitiesWithTime) in
  mkDailyStats date totalMinutes activitiesWithTime productiveMinutes
    leisureMinutes.

Definition changePercentage (minutes previousWeekMinutes : Z) : Q :=
  if 0 <? previousWeekMinutes
  then (inject_Z (minutes - previousWeekMinutes)
        / inject_Z previousWeekMinutes) * 100
  else if 0 <? minutes then 100%Q else 0%Q.

(** [Math.round] *)
Definition round (x : Q) : Z := Qfloor (x + (1 # 2)).

Definition generateWeeklyInsights (activityBreakdown : list WeeklyActivity)
    (totalMinutes : Z) : list string :=
  let insights :=
    flat_map
      (fun activity =>
         if Qlt_bool 20 (wa_changePercentage activity)
         then ["You spent "
               ++ string_of_Z (round (wa_changePercentage activity))
               ++ "% more time on " ++ at_name (wa_activityType activity)
               ++ " compared to last week."]
         else if Qlt_bool (wa_changePercentage activity) (-20)
         then ["You reduced " ++ at_name (wa_activityType activity)
               ++ " by "
               ++ string_of_Z (Z.abs (round (wa_changePercentage activity)))
               ++ "% from last week."]
         else [])%string
      activityBreakdown in
  let leisureTotal :=
    sum_by wa_minutes
      (filter
         (fun a => String.eqb (at_category (wa_activityType a)) "leisure")
         activityBreakdown) in
  let insights :=
    if Qlt_bool (inject_Z totalMinutes * (4 # 10)) (inject_Z leisureTotal)
    then insights ++
         ["You're spending a lot of time on leisure activities. Consider balancing with productive tasks."%string]
    else insights in
  let healthTotal :=
    sum_by wa_minutes
      (filter
         (fun a => String.eqb (at_category (wa_activityType a)) "health")
         activityBreakdown) in
  let insights :=
    if healthTotal <? 180
    then insights ++
         ["Try to add more health-focused activities like exercise or meditation."%string]
    else insights in
  let insights :=
    if (List.length insights =? 0)%nat
    then insights ++ ["Great job maintaining a balanced week!"%string]
    else insights in
  firstn 3 insights.

(** [parseISO] of date-fns is a parameter: [None] stands for an invalid
    date, which compares false with everything. *)
Variable parseISO : string -> option Date.

Definition in_interval (d s e : Date) : bool :=
  (day_number s <=? day_number d) && (day_number d <=? day_number e).

Definition weekByActivity (weekStart weekEnd prevWeekStart prevWeekEnd : Date)
    : JsObject.t * JsObject.t :=
  fold_left
    (fun '(currentWeekByActivity, prevWeekByActivity) log =>
       match parseISO (log_date log) with
       | None => (currentWeekByActivity, prevWeekByActivity)
       | Some logDate =>
           if in_interval logDate weekStart weekEnd
           then (JsObject.add currentWeekByActivity
                   (log_activityTypeId log) (log_minutes log),
                 prevWeekByActivity)
           else if in_interval logDate prevWeekStart prevWeekEnd
           then (currentWeekByActivity,
                 JsObject.add prevWeekByActivity
                   (log_activityTypeId log) (log_minutes log))
           else (currentWeekByActivity, prevWeekByActivity)
       end)
    logs_ (JsObject.empty, JsObject.empty).

Definition getWeeklyStats (date : Date) : WeeklyStats :=
  let weekStart := startOfWeek date 1 in
  let weekEnd := endOfWeek date 1 in
  let prevWeekStart := subWeeks weekStart 1 in
  let prevWeekEnd := subWeeks weekEnd 1 in
  let daysInWeek := eachDayOfInterval weekStart weekEnd in
  let dailyBreakdown :=
    map (fun day => getDailyStats (format_date day)) daysInWeek in
  let totalMinutes := sum_by ds_totalMinutes dailyBreakdown in
  let '(currentWeekByActivity, prevWeekByActivity) :=
    weekByActivity weekStart weekEnd prevWeekStart prevWeekEnd in
  let activityBreakdown :=
    sort (fun a b => wa_minutes b - wa_minutes a)
      (map_defined
         (fun '(activityTypeId, minutes) =>
            let previousWeekMinutes :=
              JsObject.get_or_zero prevWeekByActivity activityTypeId in
            match getActivityById activityTypeId with
            | Some activityType =>
                Some (mkWeeklyActivity activityType minutes
                        previousWeekMinutes
                        (changePercentage minutes previousWeekMinutes))
            | None => None
            end)
         (JsObject.entries currentWeekByActivity)) in
  let insights := generateWeeklyInsights activityBreakdown totalMinutes in
  mkWeeklyStats (format_date weekStart) (format_date weekEnd) totalMinutes
    dailyBreakdown activityBreakdown insights.
End Stats.

(** [generateMonthlySuggestions(topActivities, totalMinutes)] *)
Definition limit_message (name : string) : string :=
  ("You spent too much time on " ++ name
   ++ ". Try limiting it to improve productivity.")%string.

Definition sleep_message : string :=
  "Try sleeping earlier. Aim for 7-8 hours for better focus.".

Definition exercise_message : string :=
  "Add 30 minutes of exercise daily for better balance and energy.".

Definition productive_message : string :=
  "Great work on staying productive! Keep up the momentum.".

Definition generic_message : string :=
  "You're doing great! Keep maintaining your healthy routine.".

Definition is_leisure_name (a : TopActivity) : bool :=
  String.eqb (at_name (ta_activityType a)) "Social Media"
  || String.eqb (at_name (ta_activityType a)) "Gaming".

Definition has_name (name : string) (a : TopActivity) : bool :=
  String.eqb (at_name (ta_activityType a)) name.

Definition generateMonthlySuggestions (topActivities : list TopActivity)
    (totalMinutes : Z) : list string :=
  let suggestions : list string := [] in
  let leisureActivity := find is_leisure_name topActivities in
  let suggestions :=
    match leisureActivity with
    | Some la =>
        if Qlt_bool (inject_Z totalMinutes * (25 # 100)) (inject_Z (ta_minutes la))
        then suggestions ++ [limit_message (at_name (ta_activityType la))]
        else suggestions
    | None => suggestions
    end in
  let sleepActivity := find (has_name "Sleep") topActivities in
  let avgSleepPerDay :=
    match sleepActivity with
    | Some sa => inject_Z (ta_minutes sa) / 30
    | None => 0
    end%Q in
  let suggestions :=
    if Qlt_bool avgSleepPerDay 420 then suggestions ++ [sleep_message]
    else suggestions in
  let exerciseActivity := find (has_name "Exercise") topActivities in
  let suggestions :=
    match exerciseActivity with
    | Some ea =>
        if ta_minutes ea <? 600 then suggestions ++ [exercise_message]
        else suggestions
    | None => suggestions ++ [exercise_message]
    end in
  let productiveActivities :=
    filter
      (fun a => String.eqb (at_category (ta_activityType a)) "productive")
      topActivities in
  let productiveTotal := sum_by ta_minutes productiveActivities in
  let suggestions :=
    if Qlt_bool (inject_Z totalMinutes * (5 # 10)) (inject_Z productiveTotal)
    then suggestions ++ [productive_message]
    else suggestions in
  let suggestions :=
    if (List.length suggestions =? 0)%nat
    then suggestions ++ [generic_message]
    else suggestions in
  firstn 4 suggestions.

Section Monthly.
Variable activities_ : list ActivityType.
Variable logs_ : list ActivityLog.

Definition heatmapEntry (day : Date) : HeatmapEntry :=
  let dateStr := format_date day in
  let dayLogs := filter (fun log => String.eqb (log_date log) dateStr) logs_ in
  let minutes := sum_by log_minutes dayLogs in
  mkHeatmapEntry dateStr minutes.

Definition getMonthlyStats (date : Date) : MonthlyStats :=
  let monthStart := startOfMonth date in
  let monthEnd := endOfMonth date in
  let month := format_month date in
  let daysInMonth := eachDayOfInterval monthStart monthEnd in
  let dailyHeatmap := map heatmapEntry daysInMonth in
  let totalMinutes := sum_by hm_minutes dailyHeatmap in
  let sortedByMinutes :=
    sort (fun a b => hm_minutes b - hm_minutes a)
      (filter (fun d => 0 <? hm_minutes d) dailyHeatmap) in
  let mostProductiveDay := hd ""%string (map hm_date sortedByMinutes) in
  let leastProductiveDay := last (map hm_date sortedByMinutes) ""%string in
  let activityTotals :=
    fold_left
      (fun o log => JsObject.add o (log_activityTypeId log) (log_minutes log))
      (filter (fun log => String.prefix month (log_date log)) logs_)
      JsObject.empty in
  let topActivities :=
    firstn 5
      (sort (fun a b => ta_minutes b - ta_minutes a)
         (map_defined
            (fun '(activityTypeId, minutes) =>
               match getActivityById activities_ activityTypeId with
               | Some activityType => Some (mkTopActivity activityType minutes)
               | None => None
               end)
            (JsObject.entries activityTotals))) in
  let suggestions := generateMonthlySuggestions topActivities totalMinutes in
  mkMonthlyStats month totalMinutes dailyHeatmap mostProductiveDay
    leastProductiveDay topActivities suggestions.
End Monthly.

(** ** Server: the in-memory store and the log handlers *)

Module Server.

Record StoredStreak := mkStoredStreak {
  ss_id : string;
  ss_userId : string;
  ss_currentStreak : Z;
  ss_longestStreak : Z;
  ss_lastActiveDate : option string
}.

(** The maps of [MemStorage] that the log handlers reach (a [Map] keeps
    its keys in insertion order). *)
Record MemStorage := mkMemStorage {
  activityTypes : list (string * ActivityType);
  activityLogs : list (string * ActivityLog);
  streaks : list (string * StoredStreak)
}.

(** [Map.prototype.set] and [Map.prototype.delete] *)
Fixpoint map_set {V : Type} (m : list (string * V)) (k : string) (v : V)
    : list (string * V) :=
  match m with
  | [] => [(k, v)]
  | (k', v') :: r =>
      if String.eqb k' k then (k', v) :: r else (k', v') :: map_set r k v
  end.

Definition map_has {V : Type} (m : list (string * V)) (k : string) : bool :=
  existsb (fun kv => String.eqb (fst kv) k) m.

Definition map_delete {V : Type} (m : list (string * V)) (k : string)
    : bool * list (string * V) :=
  (map_has m k, filter (fun kv => negb (String.eqb (fst kv) k)) m).

Definition getStreak (st : MemStorage) (userId : string) : option StoredStreak :=
  find (fun s => String.eqb (ss_userId s) userId) (map snd (streaks st)).

(** [createOrUpdateStreak]; [newId] is the value of [randomUUID()]. *)
Definition createOrUpdateStreak (newId userId : string)
    (currentStreak_ longestStreak_ : Z) (lastActiveDate_ : string)
    (st : MemStorage) : MemStorage :=
  match getStreak st userId with
  | Some s =>
      let s' := mkStoredStreak (ss_id s) (ss_userId s) currentStreak_
                  longestStreak_ (Some lastActiveDate_) in
      mkMemStorage (activityTypes st) (activityLogs st)
        (map_set (streaks st) (ss_id s) s')
  | None =>
      let s' := mkStoredStreak newId userId currentStreak_ longestStreak_
                  (Some lastActiveDate_) in
      mkMemStorage (activityTypes st) (activityLogs st)
        (map_set (streaks st) newId s')
  end.

(** The streak computed by [POST /api/logs] once [data.date === today]
    holds: the new [currentStreak] and [longestStreak]. *)
Definition streakUpdate (now : Date) (streak : option StoredStreak) : Z * Z :=
  let today := format_date now in
  let yesterday := format_date (prev_day now) in
  let currentStreak_ :=
    match streak with
    | Some s =>
        if option_eqb_string (ss_lastActiveDate s) (Some today)
        then ss_currentStreak s
        else if option_eqb_string (ss_lastActiveDate s) (Some yesterday)
        then ss_currentStreak s + 1
        else 1
    | None => 1
    end in
  let longestStreak_ :=
    match streak with Some s => ss_longestStreak s | None => 0 end in
  (currentStreak_, Z.max currentStreak_ longestStreak_).

(** [POST /api/logs] after validation: [logId] and [streakId] are the
    identifiers drawn by [randomUUID()], [now] the UTC day of the clock. *)
Definition postLog (logId streakId : string) (nowMs : Z) (now : Date)
    (userId activityTypeId date : string) (minutes : Z)
    (notes : option string) (st : MemStorage) : MemStorage :=
  let newLog :=
    mkActivityLog logId (Some userId) activityTypeId date minutes
      (or_null notes) nowMs in
  let st :=
    mkMemStorage (activityTypes st) (map_set (activityLogs st) logId newLog)
      (streaks st) in
  let today := format_date now in
  if String.eqb date today
  then
    let '(currentStreak_, longestStreak_) :=
      streakUpdate now (getStreak st userId) in
    createOrUpdateStreak streakId userId currentStreak_ longestStreak_ today st
  else st.

(** [getActivityTypes(userId)] and [getActivityLogsByDate(userId, date)] *)
Definition getActivityTypes (st : MemStorage) (userId : string)
    : list ActivityType :=
  filter
    (fun activity =>
       at_isDefault activity
       || option_eqb_string (at_userId activity) (Some userId))
    (map snd (activityTypes st)).

Definition getActivityLogsByDate (st : MemStorage) (userId date : string)
    : list ActivityLog :=
  filter
    (fun log =>
       option_eqb_string (log_userId log) (Some userId)
       && String.eqb (log_date log) date)
    (map snd (activityLogs st)).

(** [GET /api/activity/daily] for a given [date] parameter. *)
Definition dailyRoute (st : MemStorage) (userId date : string) : DailyStats :=
  let logs_ := getActivityLogsByDate st userId date in
  let activities_ := getActivityTypes st userId in
  let totalMinutes := sum_by log_minutes logs_ in
  let activityBreakdown :=
    fold_left
      (fun o log => JsObject.add o (log_activityTypeId log) (log_minutes log))
      logs_ JsObject.empty in
  let activitiesWithTime :=
    map_defined
      (fun '(activityTypeId, minutes) =>
         match find (fun a => String.eqb (at_id a) activityTypeId) activities_ with
         | Some activityType =>
             Some (mkDailyActivity activityType minutes
                     (percentage minutes totalMinutes))
         | None => None
         end)
      (JsObject.entries activityBreakdown) in
  let productiveMinutes :=
    sum_by da_minutes
      (filter
         (fun a => String.eqb (at_category (da_activityType a)) "productive")
         activitiesWithTime) in
  let leisureMinutes :=
    sum_by da_minutes
      (filter
         (fun a => String.eqb (at_category (da_activityType a)) "leisure")
         activitiesWithTime) in
  mkDailyStats date totalMinutes activitiesWithTime productiveMinutes
    leisureMinutes.

(** [deleteActivityLog(id)] and [DELETE /api/logs/:id]: the answer is the
    HTTP status. *)
Definition deleteActivityLog (id : string) (st : MemStorage)
    : bool * MemStorage :=
  let '(deleted, logs') := map_delete (activityLogs st) id in
  (deleted, mkMemStorage (activityTypes st) logs' (streaks st)).

Definition deleteLogRoute (id : string) (st : MemStorage) : Z * MemStorage :=
  let '(deleted, st') := deleteActivityLog id st in
  if deleted then (200, st') else (404, st').

(** [generateSuggestions] of the monthly route. *)
Definition generateSuggestions (topActivities : list TopActivity)
    (totalMinutes : Z) : list string :=
  let suggestions : list string := [] in
  let leisureActivity := find is_leisure_name topActivities in
  let suggestions :=
    match leisureActivity with
    | Some la =>
        if Qlt_bool (inject_Z totalMinutes * (25 # 100)) (inject_Z (ta_minutes la))
        then suggestions ++ [limit_message (at_name (ta_activityType la))]
        else suggestions
    | None => suggestions
    end in
  let sleepActivity := find (has_name "Sleep") topActivities in
  let avgSleepPerDay :=
    match sleepActivity with
    | Some sa => inject_Z (ta_minutes sa) / 30
    | None => 0
    end%Q in
  let suggestions :=
    if Qlt_bool avgSleepPerDay 420 then suggestions ++ [sleep_message]
    else suggestions in
  let exerciseActivity := find (has_name "Exercise") topActivities in
  let suggestions :=
    match exerciseActivity with
    | Some ea =>
        if ta_minutes ea <? 600 then suggestions ++ [exercise_message]
        else suggestions
    | None => suggestions ++ [exercise_message]
    end in
  let suggestions :=
    if (List.length suggestions =? 0)%nat
    then suggestions ++ [generic_message]
    else suggestions in
  firstn 4 suggestions.

End Server.

(** The streak after a sequence of calls of [updateStreak] in the time
    zone [zone], each with the instant at which it runs and the date of
    the log. *)
Definition run_updates (zone : Z -> Date) (events : list (Z * string))
    (s : Streak) : Streak :=
  fold_left (fun st ev => updateStreak zone (fst ev) (snd ev) st) events s.

(** Dates whose year prints with four digits. *)
Definition civil_date (d : Date) : Prop :=
  valid_date d /\ 0 <= year d <= 9999.

(** Time zones.  [fixed_zone offset] is the zone whose clocks are
    [offset] minutes ahead of UTC at all times (UTC itself for 0);
    [switching_zone before after switch] changes its offset once, at the
    instant [switch], as a zone does at the start or at the end of
    daylight saving time. *)
Definition fixed_zone (offset : Z) (t : Z) : Date :=
  addDays (mkDate 1970 1 1) ((t + offset * 60000) / 86400000).

Definition switching_zone (before after switch : Z) (t : Z) : Date :=
  fixed_zone (if t <? switch then before else after) t.

(** The instant 24 hours before [t] falls on the calendar day before the
    one of [t]. *)
Definition regular_day (zone : Z -> Date) (t : Z) : Prop :=
  zone (t - 86400000) = prev_day (zone t).

(** ** Further code of the client *)

(** [addActivity(activity)]: [nowMs] is [Date.now()], [userId] is
    [user?.id]. *)
Definition addActivity (nowMs : Z) (userId : option string)
    (name icon color category : string) (st : ClientState) : ClientState :=
  let newActivity :=
    mkActivityType ("custom-" ++ string_of_Z nowMs) (or_null userId) name icon
      color category false in
  mkClientState (activities st ++ [newActivity]) (logs st) (streak st).

(** [getTodayMinutes()] *)
Definition getTodayMinutes (now : Date) (logs_ : list ActivityLog) : Z :=
  let today := format_date now in
  sum_by log_minutes
    (filter (fun log => String.eqb (log_date log) today) logs_).

(** The form of the page that adds a log: the time steppers, the schema
    of the form and the submit handler. *)
Module AddActivityPage.

Record FormValues := mkFormValues {
  activityTypeId : string;
  hours : Z;
  minutes : Z;
  notes : option string
}.

Definition setTime (f : FormValues) (h m : Z) : FormValues :=
  mkFormValues (activityTypeId f) h m (notes f).

Definition incrementHours (f : FormValues) : FormValues :=
  if hours f <? 24 then setTime f (hours f + 1) (minutes f) else f.

Definition decrementHours (f : FormValues) : FormValues :=
  if 0 <? hours f then setTime f (hours f - 1) (minutes f) else f.

Definition incrementMinutes (f : FormValues) : FormValues :=
  if minutes f <? 55 then setTime f (hours f) (minutes f + 5)
  else if hours f <? 24 then setTime f (hours f + 1) 0
  else f.

Definition decrementMinutes (f : FormValues) : FormValues :=
  if 5 <=? minutes f then setTime f (hours f) (minutes f - 5)
  else if 0 <? hours f then setTime f (hours f - 1) 55
  else f.

Definition setQuickTime (h m : Z) (f : FormValues) : FormValues :=
  setTime f h m.

(** [activitySchema] *)
Definition activitySchema (f : FormValues) : bool :=
  (1 <=? String.length (activityTypeId f))%nat
  && (0 <=? hours f) && (hours f <=? 24)
  && (0 <=? minutes f) && (minutes f <=? 59).

(** [onSubmit(data)]: [today] is the date string of the last render,
    [nowMs] the clock when the handler runs, [zone] and [updateMs] the
    time zone and the instant at which the update of the streak runs. *)
Definition onSubmit (today : string) (nowMs : Z) (zone : Z -> Date)
    (updateMs : Z) (userId : option string) (data : FormValues)
    (st : ClientState) : ClientState :=
  let totalMinutes := hours data * 60 + minutes data in
  if totalMinutes =? 0 then st
  else addLog nowMs zone updateMs userId (activityTypeId data) today
         totalMinutes (or_null (notes data)) st.

(** [form.handleSubmit(onSubmit)]: the handler runs on values that pass
    the schema. *)
Definition handleSubmit (today : string) (nowMs : Z) (zone : Z -> Date)
    (updateMs : Z) (userId : option string) (data : FormValues)
    (st : ClientState) : ClientState :=
  if activitySchema data
  then onSubmit today nowMs zone updateMs userId data st
  else st.

End AddActivityPage.

(** ** Further code of the server *)

Module Storage.
Import Server.

(** [createActivityLog(log)]; [id] is the value of [randomUUID()]. *)
Definition createActivityLog (id : string) (nowMs : Z)
    (userId activityTypeId date : string) (minutes : Z)
    (notes : option string) (st : MemStorage) : ActivityLog * MemStorage :=
  let newLog :=
    mkActivityLog id (Some userId) activityTypeId date minutes
      (or_null notes) nowMs in
  (newLog,
   mkMemStorage (activityTypes st) (map_set (activityLogs st) id newLog)
     (streaks st)).

Definition getActivityLogs (st : MemStorage) (userId : string)
    : list ActivityLog :=
  filter (fun log => option_eqb_string (log_userId log) (Some userId))
    (map snd (activityLogs st)).

(** [getActivityLogsByDateRange]: the dates are compared as strings. *)
Definition getActivityLogsByDateRange (st : MemStorage)
    (userId startDate endDate : string) : list ActivityLog :=
  filter
    (fun log =>
       option_eqb_string (log_userId log) (Some userId)
       && String.leb startDate (log_date log)
       && String.leb (log_date log) endDate)
    (map snd (activityLogs st)).

(** [createActivityType(activityType)] and [deleteActivityType(id)] *)
Definition createActivityType (id : string) (userId : option string)
    (name icon color category : string) (isDefault : option bool)
    (st : MemStorage) : ActivityType * MemStorage :=
  let newActivity :=
    mkActivityType id (or_null userId) name icon color category
      (match isDefault with Some b => b | None => false end) in
  (newActivity,
   mkMemStorage (map_set (activityTypes st) id newActivity) (activityLogs st)
     (streaks st)).

Definition deleteActivityType (id : string) (st : MemStorage)
    : bool * MemStorage :=
  let '(deleted, types') := map_delete (activityTypes st) id in
  (deleted, mkMemStorage types' (activityLogs st) (streaks st)).

(** [generateInsights] of the weekly route. *)
Definition generateInsights (activityBreakdown : list WeeklyActivity)
    (totalMinutes : Z) : list string :=
  let insights : list string := [] in
  let leisureTotal :=
    sum_by wa_minutes
      (filter
         (fun a => String.eqb (at_category (wa_activityType a)) "leisure")
         activityBreakdown) in
  let insights :=
    if Qlt_bool (inject_Z totalMinutes * (4 # 10)) (inject_Z leisureTotal)
    then insights ++
         ["You're spending a lot of time on leisure activities. Consider balancing with productive tasks."%string]
    else insights in
  let healthTotal :=
    sum_by wa_minutes
      (filter
         (fun a => String.eqb (at_category (wa_activityType a)) "health")
         activityBreakdown) in
  let insights :=
    if healthTotal <? 180
    then insights ++
         ["Try to add more health-focused activities like exercise or meditation."%string]
    else insights in
  let insights :=
    if (List.length insights =? 0)%nat && (0 <? totalMinutes)
    then insights ++ ["Great job maintaining a balanced week!"%string]
    else insights in
  firstn 3 insights.

(** [defaultActivityTypes] of the shared schema and the constructor of
    [MemStorage], which stores them under the ids default-1, default-2,
    ... *)
Definition defaultActivityTypes : list (string * string * string * string) :=
  [ ("Work", "Briefcase", "#3B82F6", "productive");
    ("Study", "BookOpen", "#8B5CF6", "productive");
    ("Exercise", "Dumbbell", "#14B8A6", "health");
    ("Sleep", "Moon", "#6366F1", "health");
    ("Reading", "Book", "#F59E0B", "productive");
    ("Social Media", "Smartphone", "#EF4444", "leisure");
    ("Gaming", "Gamepad2", "#EC4899", "leisure");
    ("Meditation", "Brain", "#10B981", "health");
    ("Cooking", "ChefHat", "#F97316", "other");
    ("Hobbies", "Palette", "#8B5CF6", "leisure") ]%string.

Definition initializeDefaultActivities (types : list (string * ActivityType))
    : list (string * ActivityType) :=
  fold_left
    (fun m '(index, (name, icon, color, category)) =>
       let id := ("default-" ++ string_of_Z (Z.of_nat (index + 1)))%string in
       map_set m id (mkActivityType id None name icon color category true))
    (combine (seq 0 (List.length defaultActivityTypes)) defaultActivityTypes)
    types.

Definition initial : MemStorage :=
  mkMemStorage (initializeDefaultActivities []) [] [].

End Storage.

(** ** Notions used to state the properties *)

(** The comparator [(a, b) => key(b) - key(a)] of a descending sort, and
    the order it sorts by. *)
Definition desc_by {A : Type} (key : A -> Z) (a b : A) : Z := key b - key a.

Definition ge_by {A : Type} (key : A -> Z) (a b : A) : Prop := key b <= key a.

(** The offset of a day from the Monday of its week. *)
Definition monday_offset (d : Date) : Z :=
  (if getDay d <? 1 then 7 else 0) + getDay d - 1.

(** The groups of a daily breakdown without their percentages. *)
Definition daily_groups (s : DailyStats) : list (ActivityType * Z) :=
  map (fun a => (da_activityType a, da_minutes a)) (ds_activities s).

(** The entries of an object without the key [k]. *)
Definition without (k : string) (o : JsObject.t) : JsObject.t :=
  filter (fun kv => negb (String.eqb (fst kv) k)) o.

(** The logs that the weekly rollup counts in the week of [date] and in
    the week before it. *)
Definition in_current_week (parseISO : string -> option Date) (date : Date)
    (log : ActivityLog) : bool :=
  match parseISO (log_date log) with
  | Some logDate =>
      in_interval logDate (startOfWeek date 1) (endOfWeek date 1)
  | None => false
  end.

Definition in_previous_week (parseISO : string -> option Date) (date : Date)
    (log : ActivityLog) : bool :=
  match parseISO (log_date log) with
  | Some logDate =>
      negb (in_interval logDate (startOfWeek date 1) (endOfWeek date 1))
      && in_interval logDate (subWeeks (startOfWeek date 1) 1)
           (subWeeks (endOfWeek date 1) 1)
  | None => false
  end.

(** The minutes of the selected logs of one activity type. *)
Definition minutes_of (select : ActivityLog -> bool) (activityTypeId : string)
    (logs_ : list ActivityLog) : Z :=
  fold_right Z.add 0
    (map log_minutes
       (filter
          (fun log =>
             select log && String.eqb (log_activityTypeId log) activityTypeId)
          logs_)).

(** The sentences of the weekly insights about single activities, in the
    order of the breakdown. *)
Definition change_sentences (activityBreakdown : list WeeklyActivity)
    : list string :=
  flat_map
    (fun activity =>
       if Qlt_bool 20 (wa_changePercentage activity)
       then ["You spent "
             ++ string_of_Z (round (wa_changePercentage activity))
             ++ "% more time on " ++ at_name (wa_activityType activity)
             ++ " compared to last week."]
       else if Qlt_bool (wa_changePercentage activity) (-20)
       then ["You reduced " ++ at_name (wa_activityType activity)
             ++ " by "
             ++ string_of_Z (Z.abs (round (wa_changePercentage activity)))
             ++ "% from last week."]
       else [])%string
    activityBreakdown.

(** A map of the store holds every record under the record's own id, each
    key once. *)
Definition keyed_by {V : Type} (key : V -> string) (m : list (string * V))
    : Prop :=
  NoDup (map fst m) /\ forall k v, In (k, v) m -> key v = k.

(** The store as the server keeps it: records under their ids and at most
    one streak record for a user. *)
Definition store_ok (st : Server.MemStorage) : Prop :=
  keyed_by at_id (Server.activityTypes st) /\
  keyed_by log_id (Server.activityLogs st) /\
  keyed_by Server.ss_id (Server.streaks st) /\
  NoDup (map (fun kv => Server.ss_userId (snd kv)) (Server.streaks st)).

(** The test of the search in [getStreak]. *)
Definition user_is (u : string) (s : Server.StoredStreak) : bool :=
  String.eqb (Server.ss_userId s) u.

(** A key that the map does not hold yet. *)
Definition fresh_key {V : Type} (m : list (string * V)) (k : string) : Prop :=
  forall kv, In kv m -> fst kv <> k.

(** Calendar order of two days. *)
Definition date_le (d1 d2 : Date) : Prop :=
  year d1 < year d2
  \/ (year d1 = year d2
      /\ (month d1 < month d2 \/ (month d1 = month d2 /\ day d1 <= day d2))).

(** The sentences of the server's [generateInsights]. *)
Definition leisure_insight : string :=
  "You're spending a lot of time on leisure activities. Consider balancing with productive tasks.".

Definition health_insight : string :=
  "Try to add more health-focused activities like exercise or meditation.".

Definition balanced_insight : string :=
  "Great job maintaining a balanced week!".

(** The default activity types of the client. *)
Definition defaultActivities : list ActivityType :=
  [ mkActivityType "1" None "Work" "Briefcase" "#3B82F6" "productive" true;
    mkActivityType "2" None "Study" "BookOpen" "#8B5CF6" "productive" true;
    mkActivityType "3" None "Exercise" "Dumbbell" "#14B8A6" "health" true;
    mkActivityType "4" None "Sleep" "Moon" "#6366F1" "health" true;
    mkActivityType "5" None "Reading" "Book" "#F59E0B" "productive" true;
    mkActivityType "6" None "Social Media" "Smartphone" "#EF4444" "leisure" true;
    mkActivityType "7" None "Gaming" "Gamepad2" "#EC4899" "leisure" true;
    mkActivityType "8" None "Meditation" "Brain" "#10B981" "health" true;
    mkActivityType "9" None "Cooking" "ChefHat" "#F97316" "other" true;
    mkActivityType "10" None "Hobbies" "Palette" "#8B5CF6" "leisure" true ].

(** Log sets of the examples. *)
Definition sample_log (id activityTypeId date : string) (minutes : Z)
    : ActivityLog :=
  mkActivityLog id None activityTypeId date minutes None 0.

Definition day_logs : list ActivityLog :=
  [ sample_log "log-1" "1" "2024-02-02" 60;
    sample_log "log-2" "5" "2024-02-02" 30 ].

Definition orphan_log : ActivityLog :=
  sample_log "log-3" "custom-17" "2024-02-02" 15.

Definition week_logs : list ActivityLog :=
  [ sample_log "log-1" "1" "2024-02-28" 30;
    sample_log "log-2" "4" "2024-02-20" 400;
    sample_log "log-3" "4" "2024-02-27" 300 ].

Definition month_logs : list ActivityLog :=
  [ sample_log "log-1" "1" "2024-02-02" 10;
    sample_log "log-2" "5" "2024-02-03" 10 ].

Definition sample_tops : list TopActivity :=
  [ mkTopActivity
      (mkActivityType "7" None "Gaming" "Gamepad2" "#EC4899" "leisure" true) 400;
    mkTopActivity
      (mkActivityType "1" None "Work" "Briefcase" "#3B82F6" "productive" true) 300;
    mkTopActivity
      (mkActivityType "6" None "Social Media" "Smartphone" "#EF4444" "leisure" true)
      100 ].

(** The five rules of the monthly suggestions as the specification words
    them, on integers: a share above 25% is [total < 4 * minutes], an
    average below 420 over 30 days is [minutes < 12600], a share above 50%
    is [total < 2 * minutes]. *)
Definition rule_limit (topActivities : list TopActivity) (totalMinutes : Z)
    : list string :=
  match find is_leisure_name topActivities with
  | Some la =>
      if totalMinutes <? 4 * ta_minutes la
      then [limit_message (at_name (ta_activityType la))]
      else []
  | None => []
  end.

Definition rule_sleep (topActivities : list TopActivity) : list string :=
  match find (has_name "Sleep") topActivities with
  | Some sa => if ta_minutes sa <? 12600 then [sleep_message] else []
  | None => [sleep_message]
  end.

Definition rule_exercise (topActivities : list TopActivity) : list string :=
  match find (has_name "Exercise") topActivities with
  | Some ea => if ta_minutes ea <? 600 then [exercise_message] else []
  | None => [exercise_message]
  end.


Definition rule_generic (fired : list string) : list string :=
  match fired with
  | [] => [generic_message]
  | _ :: _ => []
  end.


(** * Properties *)

(** ** The calendar *)

Lemma month_cases (m : Z) :
  1 <= m <= 12 ->
  m = 1 \/ m = 2 \/ m = 3 \/ m = 4 \/ m = 5 \/ m = 6 \/
  m = 7 \/ m = 8 \/ m = 9 \/ m = 10 \/ m = 11 \/ m = 12.
Proof. lia. Qed.

Lemma is_leap_spec (y : Z) :
  is_leap y = true <->
  (y mod 4 = 0 /\ y mod 100 <> 0) \/ y mod 400 = 0.
Proof.
  unfold is_leap.
  rewrite Bool.orb_true_iff, Bool.andb_true_iff, Bool.negb_true_iff.
  rewrite !Z.eqb_eq, Z.eqb_neq. tauto.
Qed.

Lemma days_in_month_bounds (y m : Z) : 28 <= days_in_month y m <= 31.
Proof.
  unfold days_in_month.
  destruct (m =? 2); [destruct (is_leap y); lia | ].
  destruct ((m =? 4) || (m =? 6) || (m =? 9) || (m =? 11)); lia.
Qed.

Lemma valid_next_day (d : Date) : valid_date d -> valid_date (next_day d).
Proof.
  destruct d as [y m dd]. unfold valid_date, next_day. simpl.
  intros [Hm Hd].
  destruct (dd <? days_in_month y m) eqn:E.
  - simpl. apply Z.ltb_lt in E. lia.
  - destruct (m <? 12) eqn:E2; simpl.
    + apply Z.ltb_lt in E2. pose proof (days_in_month_bounds y (m + 1)). lia.
    + pose proof (days_in_month_bounds (y + 1) 1). lia.
Qed.

Lemma valid_prev_day (d : Date) : valid_date d -> valid_date (prev_day d).
Proof.
  destruct d as [y m dd]. unfold valid_date, prev_day. simpl.
  intros [Hm Hd].
  destruct (1 <? dd) eqn:E.
  - simpl. apply Z.ltb_lt in E. lia.
  - destruct (1 <? m) eqn:E2; simpl.
    + apply Z.ltb_lt in E2. pose proof (days_in_month_bounds y (m - 1)). lia.
    + pose proof (days_in_month_bounds (y - 1) 12).
      unfold days_in_month. simpl. lia.
Qed.

Lemma year_decomp (y : Z) :
  exists a c f g, y = 400 * a + 100 * c + 4 * f + g /\
    0 <= c < 4 /\ 0 <= f < 25 /\ 0 <= g < 4.
Proof.
  exists (y / 400), (y mod 400 / 100), (y mod 400 mod 100 / 4), (y mod 400 mod 100 mod 4).
  pose proof (Z.div_mod y 400 ltac:(lia)).
  pose proof (Z.mod_pos_bound y 400 ltac:(lia)).
  generalize dependent (y mod 400). generalize (y / 400). intros a r Hr Hy.
  pose proof (Z.div_mod r 100 ltac:(lia)).
  pose proof (Z.mod_pos_bound r 100 ltac:(lia)).
  assert (0 <= r / 100 < 4) by (split; [apply Z.div_pos; lia | apply Z.div_lt_upper_bound; lia]).
  generalize dependent (r mod 100). generalize dependent (r / 100). intros c Hc e He Hr' .
  pose proof (Z.div_mod e 4 ltac:(lia)).
  pose proof (Z.mod_pos_bound e 4 ltac:(lia)).
  assert (0 <= e / 4 < 25) by (split; [apply Z.div_pos; lia | apply Z.div_lt_upper_bound; lia]).
  lia.
Qed.

Lemma leap_year_step (y : Z) :
  y / 4 - y / 100 + y / 400
  = (y - 1) / 4 - (y - 1) / 100 + (y - 1) / 400
    + (if is_leap y then 1 else 0).
Proof.
  destruct (year_decomp y) as (a & c & f & g & -> & Hc & Hf & Hg).
  set (y := 400 * a + 100 * c + 4 * f + g).
  assert (D4 : y / 4 = 100 * a + 25 * c + f)
    by (symmetry; apply Z.div_unique with (r := g); lia).
  assert (D100 : y / 100 = 4 * a + c)
    by (symmetry; apply Z.div_unique with (r := 4 * f + g); lia).
  assert (D400 : y / 400 = a)
    by (symmetry; apply Z.div_unique with (r := 100 * c + 4 * f + g); lia).
  assert (E4 : y mod 4 = g) by (rewrite Z.mod_eq, D4 by lia; lia).
  assert (E100 : y mod 100 = 4 * f + g) by (rewrite Z.mod_eq, D100 by lia; lia).
  assert (E400 : y mod 400 = 100 * c + 4 * f + g)
    by (rewrite Z.mod_eq, D400 by lia; lia).
  unfold is_leap. rewrite D4, D100, D400, E4, E100, E400.
  assert (P4 : (y - 1) / 4 = 100 * a + 25 * c + f - (if g =? 0 then 1 else 0)).
  { destruct (g =? 0) eqn:G.
    - symmetry; apply Z.div_unique with (r := 3); lia.
    - symmetry; apply Z.div_unique with (r := g - 1); lia. }
  assert (P100 : (y - 1) / 100 = 4 * a + c - (if 4 * f + g =? 0 then 1 else 0)).
  { destruct (4 * f + g =? 0) eqn:G.
    - symmetry; apply Z.div_unique with (r := 99); lia.
    - symmetry; apply Z.div_unique with (r := 4 * f + g - 1); lia. }
  assert (P400 : (y - 1) / 400
                 = a - (if 100 * c + 4 * f + g =? 0 then 1 else 0)).
  { destruct (100 * c + 4 * f + g =? 0) eqn:G.
    - symmetry; apply Z.div_unique with (r := 399); lia.
    - symmetry; apply Z.div_unique with (r := 100 * c + 4 * f + g - 1); lia. }
  rewrite P4, P100, P400.
  destruct (g =? 0) eqn:G; destruct (4 * f + g =? 0) eqn:F;
    destruct (100 * c + 4 * f + g =? 0) eqn:C; simpl; lia.
Qed.

Lemma day_number_unfold (y m d : Z) :
  day_number (mkDate y m d)
  = 365 * (if m <=? 2 then y - 1 else y)
    + (if m <=? 2 then y - 1 else y) / 4
    - (if m <=? 2 then y - 1 else y) / 100
    + (if m <=? 2 then y - 1 else y) / 400
    + (153 * ((m + 9) mod 12) + 2) / 5 + d - 1 - 719468.
Proof. reflexivity. Qed.

Ltac eval_closed :=
  repeat match goal with
    | |- context [?a <=? ?b] =>
        let v := eval vm_compute in (a <=? b) in
        match v with
        | true => change (a <=? b) with true
        | false => change (a <=? b) with false
        end
    | |- context [(153 * ((?a + 9) mod 12) + 2) / 5] =>
        let v := eval vm_compute in ((153 * ((a + 9) mod 12) + 2) / 5) in
        match v with
        | Zpos _ => change ((153 * ((a + 9) mod 12) + 2) / 5) with v
        | Z0 => change ((153 * ((a + 9) mod 12) + 2) / 5) with v
        end
    end; cbv iota.

Lemma day_number_next_day (d : Date) :
  valid_date d -> day_number (next_day d) = day_number d + 1.
Proof.
  destruct d as [y m dd]. unfold valid_date, next_day. cbn [year month day].
  intros [Hm Hd].
  destruct (dd <? days_in_month y m) eqn:E.
  - unfold day_number. cbn [year month day]. lia.
  - apply Z.ltb_ge in E.
    assert (Hdd : dd = days_in_month y m) by lia. clear E Hd.
    pose proof (leap_year_step y) as Hy.
    unfold days_in_month in Hdd.
    apply month_cases in Hm.
    repeat (destruct Hm as [Hm | Hm]; [subst m | ]); [ .. | subst m ];
      cbn in Hdd; subst dd.
    all: match goal with
         | |- context [if ?a <? 12 then _ else _] =>
             let v := eval vm_compute in (a <? 12) in
             change (a <? 12) with v; cbv iota
         end.
    all: rewrite !day_number_unfold.
    all: match goal with
         | |- context [?a + 1 <=? 2] =>
             let v := eval vm_compute in (a + 1) in change (a + 1) with v
         | _ => idtac
         end.
    all: eval_closed.
    all: try replace (y + 1 - 1) with y by lia.
    all: try (destruct (is_leap y)); try lia.
Qed.

Lemma next_prev_day (d : Date) : valid_date d -> next_day (prev_day d) = d.
Proof.
  destruct d as [y m dd]. unfold valid_date, next_day, prev_day. simpl.
  intros [Hm Hd].
  destruct (1 <? dd) eqn:E.
  - simpl. apply Z.ltb_lt in E.
    replace (dd - 1 <? days_in_month y m) with true
      by (symmetry; apply Z.ltb_lt; lia).
    f_equal. lia.
  - apply Z.ltb_ge in E. assert (dd = 1) by lia. subst dd.
    destruct (1 <? m) eqn:E2; simpl.
    + rewrite Z.ltb_irrefl. apply Z.ltb_lt in E2.
      replace (m - 1 <? 12) with true by (symmetry; apply Z.ltb_lt; lia).
      f_equal. lia.
    + apply Z.ltb_ge in E2. assert (m = 1) by lia. subst m.
      simpl. f_equal. lia.
Qed.

Lemma prev_next_day (d : Date) : valid_date d -> prev_day (next_day d) = d.
Proof.
  destruct d as [y m dd]. unfold valid_date, next_day, prev_day.
  cbn [year month day]. intros [Hm Hd].
  destruct (Z.ltb_spec dd (days_in_month y m)) as [L | L]; cbn [year month day].
  - replace (1 <? dd + 1) with true by (symmetry; apply Z.ltb_lt; lia).
    f_equal. lia.
  - assert (dd = days_in_month y m) by lia. subst dd.
    destruct (Z.ltb_spec m 12) as [L2 | L2]; cbn [year month day].
    + rewrite Z.ltb_irrefl.
      replace (1 <? m + 1) with true by (symmetry; apply Z.ltb_lt; lia).
      replace (m + 1 - 1) with m by lia. reflexivity.
    + assert (m = 12) by lia. subst m. cbn.
      f_equal. lia.
Qed.

Lemma day_number_prev_day (d : Date) :
  valid_date d -> day_number (prev_day d) = day_number d - 1.
Proof.
  intros H.
  pose proof (day_number_next_day (prev_day d) (valid_prev_day d H)) as E.
  rewrite (next_prev_day d H) in E. lia.
Qed.

Lemma iter_next_day (n : nat) (d : Date) :
  valid_date d ->
  valid_date (Nat.iter n next_day d) /\
  day_number (Nat.iter n next_day d) = day_number d + Z.of_nat n.
Proof.
  intros H. induction n as [| n [IHv IHn]].
  - simpl. split; [assumption | lia].
  - change (Nat.iter (S n) next_day d) with (next_day (Nat.iter n next_day d)).
    split.
    + now apply valid_next_day.
    + rewrite day_number_next_day by assumption. lia.
Qed.

Lemma iter_prev_day (n : nat) (d : Date) :
  valid_date d ->
  valid_date (Nat.iter n prev_day d) /\
  day_number (Nat.iter n prev_day d) = day_number d - Z.of_nat n.
Proof.
  intros H. induction n as [| n [IHv IHn]].
  - simpl. split; [assumption | lia].
  - change (Nat.iter (S n) prev_day d) with (prev_day (Nat.iter n prev_day d)).
    split.
    + now apply valid_prev_day.
    + rewrite day_number_prev_day by assumption. lia.
Qed.

Lemma addDays_spec (d : Date) (n : Z) :
  valid_date d ->
  valid_date (addDays d n) /\ day_number (addDays d n) = day_number d + n.
Proof.
  intros H. unfold addDays. destruct (0 <=? n) eqn:E.
  - apply Z.leb_le in E.
    destruct (iter_next_day (Z.to_nat n) d H) as [Hv Hn].
    split; [assumption | lia].
  - apply Z.leb_gt in E.
    destruct (iter_prev_day (Z.to_nat (- n)) d H) as [Hv Hn].
    split; [assumption | lia].
Qed.

Lemma iter_next_prev_day (n : nat) (d : Date) :
  valid_date d -> Nat.iter n next_day (Nat.iter n prev_day d) = d.
Proof.
  revert d. induction n as [| n IH]; intros d H.
  - reflexivity.
  - replace (Nat.iter (S n) prev_day d) with (Nat.iter n prev_day (prev_day d))
      by (symmetry; apply Nat.iter_succ_r).
    change (Nat.iter (S n) next_day (Nat.iter n prev_day (prev_day d)))
      with (next_day (Nat.iter n next_day (Nat.iter n prev_day (prev_day d)))).
    rewrite IH by now apply valid_prev_day.
    now apply next_prev_day.
Qed.

Lemma days_from_iter (n : nat) (d : Date) :
  days_from n d = map (fun k => Nat.iter k next_day d) (seq 0 n).
Proof.
  revert d. induction n as [| n IH]; intros d.
  - reflexivity.
  - cbn [days_from seq map]. rewrite IH. f_equal.
    rewrite <- seq_shift, map_map. apply map_ext. intros k.
    now rewrite Nat.iter_succ_r.
Qed.

Lemma getDay_range (d : Date) : 0 <= getDay d <= 6.
Proof. unfold getDay. pose proof (Z.mod_pos_bound (day_number d + 4) 7). lia. Qed.

Lemma monday_offset_range (d : Date) : 0 <= monday_offset d <= 6.
Proof.
  unfold monday_offset. pose proof (getDay_range d).
  destruct (Z.ltb_spec (getDay d) 1); lia.
Qed.

Lemma startOfWeek_monday (d : Date) :
  valid_date d ->
  valid_date (startOfWeek d 1) /\
  day_number (startOfWeek d 1) = day_number d - monday_offset d /\
  getDay (startOfWeek d 1) = 1.
Proof.
  intros H. unfold startOfWeek. fold (monday_offset d).
  destruct (addDays_spec d (- monday_offset d) H) as [Hv Hn].
  split; [assumption | split; [lia | ]].
  unfold getDay at 1. rewrite Hn.
  unfold monday_offset, getDay.
  destruct (Z.ltb_spec ((day_number d + 4) mod 7) 1);
    Z.div_mod_to_equations; lia.
Qed.

Lemma endOfWeek_sunday (d : Date) :
  valid_date d ->
  day_number (endOfWeek d 1) = day_number (startOfWeek d 1) + 6.
Proof.
  intros H. destruct (startOfWeek_monday d H) as (_ & Hs & _). rewrite Hs.
  unfold endOfWeek.
  match goal with
  | |- day_number (addDays d ?k) = _ =>
      destruct (addDays_spec d k H) as [_ Hn]; rewrite Hn
  end.
  unfold monday_offset. destruct (getDay d <? 1); lia.
Qed.

Lemma addDays_nonneg (d : Date) (k : nat) :
  addDays d (Z.of_nat k) = Nat.iter k next_day d.
Proof.
  unfold addDays.
  replace (0 <=? Z.of_nat k) with true by (symmetry; apply Z.leb_le; lia).
  now rewrite Nat2Z.id.
Qed.

Lemma startOfWeek_contains (d : Date) :
  valid_date d -> addDays (startOfWeek d 1) (monday_offset d) = d.
Proof.
  intros H. pose proof (monday_offset_range d) as R.
  unfold startOfWeek. fold (monday_offset d).
  rewrite <- (Z2Nat.id (monday_offset d)) at 2 by lia.
  rewrite addDays_nonneg. unfold addDays.
  destruct (Z.leb_spec 0 (- monday_offset d)) as [L | L].
  - replace (monday_offset d) with 0 by lia. reflexivity.
  - rewrite Z.opp_involutive. now apply iter_next_prev_day.
Qed.

(** ** Sums, filters and the stable sort *)

Lemma sum_by_acc {A : Type} (f : A -> Z) (l : list A) (acc : Z) :
  fold_left (fun sum x => sum + f x) l acc
  = acc + fold_right Z.add 0 (map f l).
Proof.
  revert acc. induction l as [| a l IH]; intros acc; simpl.
  - lia.
  - rewrite IH. lia.
Qed.

Lemma sum_by_fold_right {A : Type} (f : A -> Z) (l : list A) :
  sum_by f l = fold_right Z.add 0 (map f l).
Proof. unfold sum_by. now rewrite sum_by_acc. Qed.

Lemma sum_by_cons {A : Type} (f : A -> Z) (a : A) (l : list A) :
  sum_by f (a :: l) = f a + sum_by f l.
Proof. rewrite !sum_by_fold_right. reflexivity. Qed.

Lemma sum_by_app {A : Type} (f : A -> Z) (l1 l2 : list A) :
  sum_by f (l1 ++ l2) = sum_by f l1 + sum_by f l2.
Proof.
  rewrite !sum_by_fold_right.
  induction l1 as [| a l1 IH]; simpl; lia.
Qed.

Lemma map_defined_In {A B : Type} (f : A -> option B) (l : list A) (y : B) :
  In y (map_defined f l) <-> exists x, In x l /\ f x = Some y.
Proof.
  induction l as [| a l IH]; simpl.
  - split; [tauto | intros (x & [] & _)].
  - destruct (f a) eqn:E; simpl; rewrite IH; split.
    + intros [-> | (x & Hx & Hf)]; [exists a | exists x]; auto.
    + intros (x & [-> | Hx] & Hf); [left; congruence | right; eauto].
    + intros (x & Hx & Hf); eauto.
    + intros (x & [-> | Hx] & Hf); [congruence | eauto].
Qed.

Section SortFacts.
Context {A : Type} (key : A -> Z).


Lemma insert_perm (x : A) (l : list A) :
  Permutation (insert (desc_by key) x l) (x :: l).
Proof.
  induction l as [| y l IH]; simpl.
  - apply Permutation_refl.
  - destruct (0 <? (desc_by key) x y).
    + rewrite IH. apply perm_swap.
    + apply Permutation_refl.
Qed.

Lemma sort_perm (l : list A) : Permutation (sort (desc_by key) l) l.
Proof.
  induction l as [| x l IH]; simpl.
  - apply Permutation_refl.
  - rewrite insert_perm. now apply perm_skip.
Qed.

Lemma sort_In (l : list A) (x : A) : In x (sort (desc_by key) l) <-> In x l.
Proof.
  split; apply Permutation_in;
    [apply sort_perm | apply Permutation_sym, sort_perm].
Qed.

Lemma insert_sorted (x : A) (l : list A) :
  StronglySorted (ge_by key) l -> StronglySorted (ge_by key) (insert (desc_by key) x l).
Proof.
  induction 1 as [| y l Hs IH Hall]; simpl.
  - repeat constructor.
  - destruct (Z.ltb_spec 0 (desc_by key x y)) as [L | L]; unfold desc_by in L.
    + constructor; [assumption | ].
      rewrite Forall_forall in *. intros z Hz.
      apply (Permutation_in _ (insert_perm x l)) in Hz.
      destruct Hz as [<- | Hz]; [unfold ge_by; lia | auto].
    + constructor; [now constructor | ].
      constructor; [unfold ge_by; lia | ].
      rewrite Forall_forall in *. intros z Hz.
      specialize (Hall z Hz). unfold ge_by in *. lia.
Qed.

Lemma sort_sorted (l : list A) : StronglySorted (ge_by key) (sort (desc_by key) l).
Proof.
  induction l as [| x l IH]; simpl.
  - constructor.
  - now apply insert_sorted.
Qed.

(** Filtering commutes with the stable sort. *)
Lemma filter_insert (q : A -> bool) (x : A) (l : list A) :
  StronglySorted (ge_by key) l ->
  filter q (insert (desc_by key) x l)
  = if q x then insert (desc_by key) x (filter q l) else filter q l.
Proof.
  induction 1 as [| y l Hs IH Hall].
  - simpl. now destruct (q x).
  - cbn [insert].
    destruct (Z.ltb_spec 0 (desc_by key x y)) as [L | L].
    + cbn [filter]. rewrite IH.
      destruct (q x), (q y); cbn [insert]; try reflexivity.
      replace (0 <? (desc_by key) x y) with true by (symmetry; apply Z.ltb_lt; lia).
      reflexivity.
    + cbn [filter]. destruct (q x); [ | reflexivity].
      destruct (q y); cbn [insert].
      * replace (0 <? (desc_by key) x y) with false by (symmetry; apply Z.ltb_ge; lia).
        reflexivity.
      * clear IH Hs. induction l as [| z l IHl]; [reflexivity | ].
        inversion Hall as [| ? ? Hz Hall']; subst.
        cbn [filter]. destruct (q z).
        -- cbn [insert]. unfold ge_by in Hz. unfold desc_by in *.
           replace (0 <? key z - key x) with false
             by (symmetry; apply Z.ltb_ge; lia).
           reflexivity.
        -- now apply IHl.
Qed.

Lemma filter_sort (q : A -> bool) (l : list A) :
  filter q (sort (desc_by key) l) = sort (desc_by key) (filter q l).
Proof.
  induction l as [| x l IH]; [reflexivity | ].
  cbn [sort fold_right filter].
  change (fold_right (insert (desc_by key)) [] l) with (sort (desc_by key) l).
  rewrite filter_insert by apply sort_sorted.
  rewrite IH. now destruct (q x).
Qed.

(** The first element of the result is the earliest maximum. *)
Lemma sort_cons_max (x : A) (l : list A) :
  (forall y, In y l -> key y <= key x) ->
  sort (desc_by key) (x :: l) = x :: sort (desc_by key) l.
Proof.
  intros H. cbn [sort fold_right].
  change (fold_right (insert (desc_by key)) [] l) with (sort (desc_by key) l).
  destruct (sort (desc_by key) l) as [| z r] eqn:E; [reflexivity | ].
  assert (Hz : In z l) by (apply sort_In; rewrite E; now left).
  specialize (H z Hz). cbn [insert]. unfold desc_by.
  replace (0 <? key z - key x) with false by (symmetry; apply Z.ltb_ge; lia).
  reflexivity.
Qed.

Lemma sort_hd (l1 l2 : list A) (x : A) :
  (forall y, In y l1 -> key y < key x) ->
  (forall y, In y l2 -> key y <= key x) ->
  exists r, sort (desc_by key) (l1 ++ x :: l2) = x :: r.
Proof.
  intros H1 H2. induction l1 as [| a l1 IH].
  - exists (sort (desc_by key) l2). now apply sort_cons_max.
  - destruct IH as [r Hr]; [intros y Hy; apply H1; now right | ].
    cbn [app sort fold_right].
    change (fold_right (insert (desc_by key)) [] (l1 ++ x :: l2))
      with (sort (desc_by key) (l1 ++ x :: l2)).
    rewrite Hr. cbn [insert]. unfold desc_by.
    assert (key a < key x) by (apply H1; now left).
    replace (0 <? key x - key a) with true by (symmetry; apply Z.ltb_lt; lia).
    eauto.
Qed.

(** The last element of the result is the latest minimum. *)
Lemma insert_below_all (x : A) (l : list A) :
  (forall y, In y l -> key x < key y) -> insert (desc_by key) x l = l ++ [x].
Proof.
  induction l as [| y l IH]; intros H; [reflexivity | ].
  cbn [insert]. unfold desc_by at 1.
  assert (key x < key y) by (apply H; now left).
  replace (0 <? key y - key x) with true by (symmetry; apply Z.ltb_lt; lia).
  cbn [app]. f_equal. apply IH. intros z Hz. apply H. now right.
Qed.

Lemma insert_keeps_last (a x : A) (l : list A) :
  key x <= key a -> exists l', insert (desc_by key) a (l ++ [x]) = l' ++ [x].
Proof.
  intros H. induction l as [| z l [l' IH]].
  - exists [a]. cbn [app insert]. unfold desc_by.
    replace (0 <? key x - key a) with false by (symmetry; apply Z.ltb_ge; lia).
    reflexivity.
  - cbn [app insert]. destruct (0 <? (desc_by key) a z).
    + rewrite IH. exists (z :: l'). reflexivity.
    + exists (a :: z :: l). reflexivity.
Qed.

Lemma sort_last (l1 l2 : list A) (x : A) :
  (forall y, In y l1 -> key x <= key y) ->
  (forall y, In y l2 -> key x < key y) ->
  exists r, sort (desc_by key) (l1 ++ x :: l2) = r ++ [x].
Proof.
  intros H1 H2. induction l1 as [| a l1 IH].
  - exists (sort (desc_by key) l2). cbn [app sort fold_right].
    apply insert_below_all. intros y Hy. apply H2. now apply sort_In.
  - destruct IH as [r Hr]; [intros y Hy; apply H1; now right | ].
    cbn [app sort fold_right].
    change (fold_right (insert (desc_by key)) [] (l1 ++ x :: l2))
      with (sort (desc_by key) (l1 ++ x :: l2)).
    rewrite Hr.
    destruct (insert_keeps_last a x r) as [l' E]; [apply H1; now left | ].
    rewrite E. eauto.
Qed.

Lemma first_max_split (l : list A) :
  l <> [] ->
  exists l1 x l2, l = l1 ++ x :: l2 /\
    (forall y, In y l1 -> key y < key x) /\
    (forall y, In y l2 -> key y <= key x).
Proof.
  induction l as [| a l IH]; [congruence | intros _].
  destruct l as [| b l].
  - exists [], a, []. repeat split; intros y [].
  - destruct IH as (l1 & x & l2 & E & H1 & H2); [congruence | ].
    destruct (Z.lt_ge_cases (key a) (key x)) as [L | L].
    + exists (a :: l1), x, l2. rewrite E. repeat split; auto.
      intros y [<- | Hy]; auto.
    + exists [], a, (b :: l). repeat split; [intros y [] | ].
      intros y Hy. rewrite E in Hy. apply in_app_or in Hy.
      destruct Hy as [Hy | [<- | Hy]]; [specialize (H1 y Hy) | |
        specialize (H2 y Hy)]; lia.
Qed.

Lemma last_min_split (l : list A) :
  l <> [] ->
  exists l1 x l2, l = l1 ++ x :: l2 /\
    (forall y, In y l1 -> key x <= key y) /\
    (forall y, In y l2 -> key x < key y).
Proof.
  induction l as [| a l IH]; [congruence | intros _].
  destruct l as [| b l].
  - exists [], a, []. repeat split; intros y [].
  - destruct IH as (l1 & x & l2 & E & H1 & H2); [congruence | ].
    destruct (Z.lt_ge_cases (key a) (key x)) as [L | L].
    + exists [], a, (b :: l). repeat split; [intros y [] | ].
      intros y Hy. rewrite E in Hy. apply in_app_or in Hy.
      destruct Hy as [Hy | [<- | Hy]]; [specialize (H1 y Hy) | |
        specialize (H2 y Hy)]; lia.
    + exists (a :: l1), x, l2. rewrite E. repeat split; auto.
      intros y [<- | Hy]; [lia | auto].
Qed.

End SortFacts.

Lemma sort_ext {A : Type} (c1 c2 : A -> A -> Z) (l : list A) :
  (forall a b, (0 <? c1 a b) = (0 <? c2 a b)) -> sort c1 l = sort c2 l.
Proof.
  intros H. induction l as [| x l IH]; [reflexivity | ].
  cbn [sort fold_right]. fold (sort c1 l). fold (sort c2 l). rewrite IH.
  generalize (sort c2 l). intros s. induction s as [| y s IHs]; [reflexivity | ].
  cbn [insert]. rewrite H, IHs. reflexivity.
Qed.

Lemma insert_perm_any {A : Type} (c : A -> A -> Z) (x : A) (l : list A) :
  Permutation (insert c x l) (x :: l).
Proof.
  induction l as [| y l IH]; cbn [insert].
  - apply Permutation_refl.
  - destruct (0 <? c x y).
    + rewrite IH. apply perm_swap.
    + apply Permutation_refl.
Qed.

Lemma sort_perm_any {A : Type} (c : A -> A -> Z) (l : list A) :
  Permutation (sort c l) l.
Proof.
  induction l as [| x l IH]; cbn [sort fold_right].
  - apply Permutation_refl.
  - rewrite insert_perm_any. now apply perm_skip.
Qed.

Lemma filter_split {A : Type} (p : A -> bool) (h l1 l2 : list A) (x : A) :
  filter p h = l1 ++ x :: l2 ->
  exists h1 h2, h = h1 ++ x :: h2 /\ filter p h1 = l1 /\ filter p h2 = l2
                /\ p x = true.
Proof.
  revert l1. induction h as [| a h IH]; intros l1 E.
  - destruct l1; discriminate.
  - cbn [filter] in E. destruct (p a) eqn:Pa.
    + destruct l1 as [| b l1]; cbn [app] in E; injection E as -> E.
      * exists [], h. repeat split; auto.
      * destruct (IH l1 E) as (h1 & h2 & -> & F1 & F2 & Px).
        exists (b :: h1), h2. cbn [filter app]. rewrite Pa, F1. auto.
    + destruct (IH l1 E) as (h1 & h2 & -> & F1 & F2 & Px).
      exists (a :: h1), h2. cbn [filter app]. rewrite Pa. auto.
Qed.

(** ** Formatting of dates *)

Lemma digit_inj (a b : Z) : digit a = digit b -> a mod 10 = b mod 10.
Proof.
  unfold digit. intros H. apply (f_equal nat_of_ascii) in H.
  pose proof (Z.mod_pos_bound a 10 ltac:(lia)).
  pose proof (Z.mod_pos_bound b 10 ltac:(lia)).
  rewrite !nat_ascii_embedding in H by lia. lia.
Qed.

Lemma pad2_inj (a b : Z) :
  0 <= a < 100 -> 0 <= b < 100 -> pad2 a = pad2 b -> a = b.
Proof.
  intros Ha Hb H. unfold pad2 in H. injection H as H1 H0.
  apply digit_inj in H1, H0. Z.div_mod_to_equations. lia.
Qed.

Lemma pad4_inj (a b : Z) :
  0 <= a < 10000 -> 0 <= b < 10000 -> pad4 a = pad4 b -> a = b.
Proof.
  intros Ha Hb H. unfold pad4, pad2 in H. injection H as H3 H2 H1 H0.
  apply digit_inj in H3, H2, H1, H0. Z.div_mod_to_equations. lia.
Qed.

Lemma format_date_inj (d1 d2 : Date) :
  civil_date d1 -> civil_date d2 -> format_date d1 = format_date d2 -> d1 = d2.
Proof.
  destruct d1 as [y1 m1 dd1], d2 as [y2 m2 dd2].
  unfold civil_date, valid_date. cbn [year month day].
  intros [[Hm1 Hd1] Hy1] [[Hm2 Hd2] Hy2] H.
  pose proof (days_in_month_bounds y1 m1). pose proof (days_in_month_bounds y2 m2).
  unfold format_date, format_month in H. cbn [year month day] in H.
  assert (Hy : pad4 y1 = pad4 y2 /\ pad2 m1 = pad2 m2 /\ pad2 dd1 = pad2 dd2).
  { unfold pad4, pad2 in *. cbn [String.append] in H.
    injection H as E1 E2 E3 E4 E5 E6 E7 E8. now rewrite E1, E2, E3, E4, E5, E6, E7, E8. }
  destruct Hy as (Ey & Em & Ed).
  apply pad4_inj in Ey; [ | lia | lia].
  apply pad2_inj in Em; [ | lia | lia].
  apply pad2_inj in Ed; [ | lia | lia].
  now subst.
Qed.

(** ** The streak *)

Lemma option_eqb_string_spec (a b : option string) :
  option_eqb_string a b = true <-> a = b.
Proof.
  destruct a as [x |], b as [y |]; cbn; split; try congruence; try reflexivity.
  - intros H. apply String.eqb_eq in H. now subst.
  - intros [= ->]. apply String.eqb_refl.
Qed.

Lemma option_eqb_string_false (a b : option string) :
  option_eqb_string a b = false <-> a <> b.
Proof.
  rewrite <- option_eqb_string_spec. destruct (option_eqb_string a b); split;
    congruence.
Qed.

(** ** Time zones *)

Lemma addDays_pred (d : Date) (n : Z) :
  valid_date d -> addDays d (n - 1) = prev_day (addDays d n).
Proof.
  intros V. unfold addDays.
  destruct (Z.leb_spec 0 n) as [Hn | Hn].
  - destruct (Z.leb_spec 0 (n - 1)) as [Hp | Hp].
    + replace (Z.to_nat n) with (S (Z.to_nat (n - 1))) by lia.
      change (Nat.iter (S (Z.to_nat (n - 1))) next_day d)
        with (next_day (Nat.iter (Z.to_nat (n - 1)) next_day d)).
      symmetry. apply prev_next_day.
      apply (iter_next_day (Z.to_nat (n - 1)) d V).
    + assert (n = 0) by lia. subst n. reflexivity.
  - replace (0 <=? n - 1) with false by (symmetry; apply Z.leb_gt; lia).
    replace (Z.to_nat (- (n - 1))) with (S (Z.to_nat (- n))) by lia.
    reflexivity.
Qed.

Lemma fixed_zone_day_number (offset t : Z) :
  valid_date (fixed_zone offset t) /\
  day_number (fixed_zone offset t) = (t + offset * 60000) / 86400000.
Proof.
  assert (V : valid_date (mkDate 1970 1 1))
    by (unfold valid_date; cbn; lia).
  destruct (addDays_spec (mkDate 1970 1 1)
              ((t + offset * 60000) / 86400000) V) as [Hv Hn].
  split; [exact Hv | ]. unfold fixed_zone. rewrite Hn.
  change (day_number (mkDate 1970 1 1)) with 0. lia.
Qed.

(** In a zone of constant offset every day lasts 24 hours. *)
Lemma fixed_zone_regular (offset t : Z) : regular_day (fixed_zone offset) t.
Proof.
  unfold regular_day, fixed_zone.
  replace ((t - 86400000 + offset * 60000) / 86400000)
    with ((t + offset * 60000) / 86400000 - 1)
    by (Z.div_mod_to_equations; lia).
  apply addDays_pred. unfold valid_date; cbn; lia.
Qed.


(** ** The streak transition *)

(** The date of the log is not read by the transition of the client. *)
Lemma updateStreak_date_unused (zone : Z -> Date) (nowMs : Z)
    (date1 date2 : string) (prev : Streak) :
  updateStreak zone nowMs date1 prev = updateStreak zone nowMs date2 prev.
Proof. reflexivity. Qed.

(** C1: an input on which the client breaks the transition of the
    specification.  The page is left open over midnight in a zone without
    daylight saving time (UTC): the clock shows 2024-01-02, 12:00, the log
    carries the date of the last render, 2024-01-01, and that date is
    already the last active date.  The specification leaves the record as
    it is; the client, which never reads the date of the log, lets the
    streak grow and moves the last active date to the day of the clock.
    The server, for the same request, leaves the stored record as it is:
    it runs the rule only when the date of the log is the day of its
    clock. *)
Lemma updateStreak_log_date_failing_input :
  let zone := fixed_zone 0 in
  let nowMs := 1704196800000 in
  let prev := mkStreak 3 3 (Some "2024-01-01"%string) in
  let stored :=
    Server.mkStoredStreak "s1" "u1" 3 3 (Some "2024-01-01"%string) in
  let st := Server.mkMemStorage [] [] [("s1"%string, stored)] in
  zone nowMs = mkDate 2024 1 2 /\
  lastActiveDate prev = Some "2024-01-01"%string /\
  updateStreak zone nowMs "2024-01-01" prev
    = mkStreak 4 4 (Some "2024-01-02"%string) /\
  updateStreak zone nowMs "2024-01-01" prev <> prev /\
  Server.getStreak
    (Server.postLog "log-a" "s2" nowMs (zone nowMs) "u1" "default-1"
       "2024-01-01" 30 None st) "u1"
  = Some stored.
Proof.
  cbv zeta.
  split; [vm_compute; reflexivity | ].
  split; [reflexivity | ].
  split; [vm_compute; reflexivity | ].
  split; [vm_compute; discriminate | vm_compute; reflexivity].
Qed.

(** On a local day of 25 hours two instants of the same day give two
    records.  Europe/Berlin, 2024-10-27: the clocks go back from UTC+2 to
    UTC+1 at 01:00 UTC.  At 22:30 UTC (23:30 local time) the instant 24
    hours earlier is 00:30 local time of the same day, so "yesterday" is
    the day itself and a streak whose last active day is the day before
    is reset; at 12:30 UTC it is continued. *)
Example updateStreak_long_day :
  let zone := switching_zone 120 60 1729990800000 in
  let prev := mkStreak 3 3 (Some "2024-10-26"%string) in
  zone 1730032200000 = mkDate 2024 10 27 /\
  zone 1730068200000 = mkDate 2024 10 27 /\
  zone (1730068200000 - 86400000) = mkDate 2024 10 27 /\
  updateStreak zone 1730032200000 "2024-10-27" prev
    = mkStreak 4 4 (Some "2024-10-27"%string) /\
  updateStreak zone 1730068200000 "2024-10-27" prev
    = mkStreak 1 3 (Some "2024-10-27"%string).
Proof. cbv zeta. repeat split; vm_compute; reflexivity. Qed.

(** X29: for a log dated with the day the clock shows, entered when the
    instant 24 hours earlier falls on the calendar day before (as in every
    zone of constant offset), the transition is the one of the
    specification: the record is unchanged when [lastActiveDate] is the
    date of the log; otherwise [currentStreak] grows by one when
    [lastActiveDate] is the day before or null (and is 1 from the fresh
    state), is reset to 1 for every other [lastActiveDate],
    [longestStreak] is the maximum of its old value and the new
    [currentStreak], and [lastActiveDate] becomes the date of the log. *)
Theorem updateStreak_transition (zone : Z -> Date) (nowMs : Z) (date : string)
    (prev : Streak) :
  date = format_date (zone nowMs) ->
  regular_day zone nowMs ->
  let next := updateStreak zone nowMs date prev in
  let yesterday := format_date (prev_day (zone nowMs)) in
  (lastActiveDate prev = Some date -> next = prev) /\
  (lastActiveDate prev <> Some date ->
     (lastActiveDate prev = Some yesterday \/ lastActiveDate prev = None ->
      currentStreak next = currentStreak prev + 1) /\
     (forall l, lastActiveDate prev = Some l -> l <> yesterday ->
      currentStreak next = 1) /\
     longestStreak next = Z.max (longestStreak prev) (currentStreak next) /\
     lastActiveDate next = Some date) /\
  (prev = initialStreak -> next = mkStreak 1 1 (Some date)).
Proof.
  intros -> R. unfold regular_day in R. cbv zeta. unfold updateStreak.
  rewrite R.
  destruct (option_eqb_string (lastActiveDate prev)
              (Some (format_date (zone nowMs)))) eqn:Etoday.
  - apply option_eqb_string_spec in Etoday.
    split; [reflexivity | split; [congruence | ]].
    intros ->. discriminate.
  - apply option_eqb_string_false in Etoday.
    split; [congruence | split].
    + intros _. cbn [negb currentStreak longestStreak lastActiveDate].
      repeat split.
      * intros [E | E]; rewrite E.
        -- replace (option_eqb_string _ _) with true
             by (symmetry; now apply option_eqb_string_spec).
           reflexivity.
        -- reflexivity.
      * intros l E Hl. rewrite E.
        replace (option_eqb_string (Some l)
                   (Some (format_date (prev_day (zone nowMs)))))
          with false
          by (symmetry; apply option_eqb_string_false; congruence).
        reflexivity.
      * apply Z.max_comm.
    + intros ->. reflexivity.
Qed.

Lemma updateStreak_transition_witness :
  "2024-01-02"%string = format_date (fixed_zone 330 1704144600000) /\
  regular_day (fixed_zone 330) 1704144600000 /\
  currentStreak
    (updateStreak (fixed_zone 330) 1704144600000 "2024-01-02"
       (mkStreak 1 1 (Some "2024-01-01"%string)))
  = 1 + 1.
Proof.
  assert (E : "2024-01-02"%string = format_date (fixed_zone 330 1704144600000))
    by (vm_compute; reflexivity).
  assert (Y : Some "2024-01-01"%string
              = Some (format_date (prev_day (fixed_zone 330 1704144600000))))
    by (vm_compute; reflexivity).
  split; [exact E | split; [apply fixed_zone_regular | ]].
  exact (proj1
           (proj1 (proj2
              (updateStreak_transition (fixed_zone 330) 1704144600000
                 "2024-01-02" (mkStreak 1 1 (Some "2024-01-01"%string)) E
                 (fixed_zone_regular 330 1704144600000)))
              ltac:(discriminate))
           (or_introl Y)).
Defined.




Lemma updateStreak_invariant (zone : Z -> Date) (nowMs : Z) (date : string)
    (prev : Streak) :
  currentStreak prev <= longestStreak prev ->
  currentStreak (updateStreak zone nowMs date prev)
  <= longestStreak (updateStreak zone nowMs date prev).
Proof.
  intros H. unfold updateStreak.
  destruct (option_eqb_string (lastActiveDate prev)
              (Some (format_date (zone nowMs))));
    [assumption | ].
  cbn [currentStreak longestStreak]. lia.
Qed.

(** X25: on the records the server can hold (a last active date is always
    stored, and the longest streak is at least the current one) the handler
    of the server computes the streak that the transition of the client
    computes for a log dated with the clock's day, when the local day of
    the client is the day of the server and the instant 24 hours earlier
    falls on the day before it (as for a client on UTC); without a record
    it computes the one of the default record. *)
Lemma server_streakUpdate_agrees (zone : Z -> Date) (nowMs : Z)
    (s : Server.StoredStreak) :
  regular_day zone nowMs ->
  Server.ss_lastActiveDate s <> None ->
  Server.ss_currentStreak s <= Server.ss_longestStreak s ->
  let now := zone nowMs in
  let prev :=
    mkStreak (Server.ss_currentStreak s) (Server.ss_longestStreak s)
      (Server.ss_lastActiveDate s) in
  let next := updateStreak zone nowMs (format_date now) prev in
  Server.streakUpdate now (Some s) = (currentStreak next, longestStreak next)
  /\ Server.streakUpdate now None
     = (currentStreak (updateStreak zone nowMs (format_date now) initialStreak),
        longestStreak (updateStreak zone nowMs (format_date now) initialStreak)).
Proof.
  intros R Hn Hi. unfold regular_day in R. cbv zeta. split; [ | reflexivity].
  unfold Server.streakUpdate, updateStreak. rewrite R.
  cbn [currentStreak longestStreak lastActiveDate].
  destruct (option_eqb_string (Server.ss_lastActiveDate s)
              (Some (format_date (zone nowMs)))) eqn:E1.
  - cbn [currentStreak longestStreak]. f_equal. lia.
  - cbn [negb currentStreak longestStreak].
    destruct (option_eqb_string (Server.ss_lastActiveDate s)
                (Some (format_date (prev_day (zone nowMs))))) eqn:E2.
    + reflexivity.
    + replace (option_eqb_string (Server.ss_lastActiveDate s) None) with false
        by (symmetry; now apply option_eqb_string_false).
      reflexivity.
Qed.

(** C9: [longestStreak >= currentStreak] in the default record and after
    every sequence of transitions from it, whatever the clock and the log
    dates; the record written by the server satisfies it as well. *)
Theorem longest_streak_ge_current :
  currentStreak initialStreak <= longestStreak initialStreak /\
  (forall (zone : Z -> Date) (events : list (Z * string)),
     currentStreak (run_updates zone events initialStreak)
     <= longestStreak (run_updates zone events initialStreak)) /\
  (forall now stored,
     fst (Server.streakUpdate now stored)
     <= snd (Server.streakUpdate now stored)).
Proof.
  split; [cbn; lia | split].
  - intros zone events. unfold run_updates.
    assert (G : forall s, currentStreak s <= longestStreak s ->
                currentStreak
                  (fold_left
                     (fun st ev => updateStreak zone (fst ev) (snd ev) st)
                     events s)
                <= longestStreak
                     (fold_left
                        (fun st ev => updateStreak zone (fst ev) (snd ev) st)
                        events s)).
    { induction events as [| ev events IH]; intros s Hs; [assumption | ].
      cbn [fold_left]. apply IH. now apply updateStreak_invariant. }
    apply G. cbn. lia.
  - intros now stored. unfold Server.streakUpdate. cbn [fst snd]. lia.
Qed.

(** C10: deleting a log removes the logs with the given id and nothing
    else; the streak record and the activity types are left as they were,
    also after deleting any number of logs; the same holds for the store
    of the server. *)
Theorem deleteLog_frame :
  (forall logId st,
     streak (deleteLog logId st) = streak st /\
     activities (deleteLog logId st) = activities st /\
     logs (deleteLog logId st)
     = filter (fun log => negb (String.eqb (log_id log) logId)) (logs st) /\
     (forall log, In log (logs (deleteLog logId st))
                  <-> In log (logs st) /\ log_id log <> logId)) /\
  (forall logIds st,
     streak (fold_right deleteLog st logIds) = streak st /\
     activities (fold_right deleteLog st logIds) = activities st) /\
  (forall id st,
     Server.streaks (snd (Server.deleteLogRoute id st)) = Server.streaks st /\
     Server.activityTypes (snd (Server.deleteLogRoute id st))
     = Server.activityTypes st /\
     (forall k log,
        In (k, log) (Server.activityLogs (snd (Server.deleteLogRoute id st)))
        <-> In (k, log) (Server.activityLogs st) /\ k <> id)).
Proof.
  split; [ | split].
  - intros logId st. split; [reflexivity | ].
    split; [reflexivity | split; [reflexivity | ]].
    intros log. cbn [deleteLog logs]. rewrite filter_In.
    rewrite Bool.negb_true_iff, String.eqb_neq. tauto.
  - intros logIds st. induction logIds as [| i logIds [IH1 IH2]].
    + split; reflexivity.
    + cbn [fold_right]. split; assumption.
  - intros id st. unfold Server.deleteLogRoute, Server.deleteActivityLog.
    cbn [Server.map_delete].
    destruct (Server.map_has (Server.activityLogs st) id);
      cbn [snd Server.streaks Server.activityTypes Server.activityLogs];
      (split; [reflexivity | split; [reflexivity | ]]);
      intros k log; rewrite filter_In; cbn [fst];
      rewrite Bool.negb_true_iff, String.eqb_neq; tauto.
Qed.

(** *** Objects used as dictionaries *)

Lemma filter_filter_comm {A : Type} (p q : A -> bool) (l : list A) :
  filter p (filter q l) = filter q (filter p l).
Proof.
  induction l as [| a l IH]; [reflexivity | ].
  cbn [filter]. destruct (p a) eqn:Pa, (q a) eqn:Qa; cbn [filter];
    rewrite ?Pa, ?Qa, IH; reflexivity.
Qed.

Lemma map_defined_filter {A B : Type} (f : A -> option B) (q : A -> bool)
    (l : list A) :
  (forall x, q x = false -> f x = None) ->
  map_defined f (filter q l) = map_defined f l.
Proof.
  intros H. induction l as [| a l IH]; [reflexivity | ].
  cbn [filter map_defined]. destruct (q a) eqn:Qa.
  - cbn [map_defined]. now rewrite IH.
  - now rewrite (H a Qa).
Qed.

Lemma map_map_defined {A B C : Type} (f : A -> option B) (g : B -> C)
    (l : list A) :
  map g (map_defined f l) = map_defined (fun x => option_map g (f x)) l.
Proof.
  induction l as [| a l IH]; [reflexivity | ].
  cbn [map_defined]. destruct (f a); cbn [option_map map]; now rewrite IH.
Qed.

Module JsObjectFacts.
Import JsObject.

Lemma without_set_same (k : string) (v : Z) (o : t) :
  without k (set o k v) = without k o.
Proof.
  induction o as [| [k' v'] o IH]; cbn [set without filter fst].
  - now rewrite String.eqb_refl.
  - destruct (String.eqb k' k) eqn:E; cbn [filter fst]; rewrite E; cbn [negb].
    + reflexivity.
    + f_equal. apply IH.
Qed.

Lemma get_without_other (k k' : string) (o : t) :
  k' <> k -> get (without k o) k' = get o k'.
Proof.
  intros N. induction o as [| [k0 v0] o IH]; [reflexivity | ].
  cbn [without filter fst get].
  destruct (String.eqb k0 k) eqn:E; cbn [negb get].
  - apply String.eqb_eq in E. subst k0.
    replace (String.eqb k k') with false
      by (symmetry; apply String.eqb_neq; congruence).
    apply IH.
  - destruct (String.eqb k0 k'); [reflexivity | apply IH].
Qed.

Lemma without_set_other (k k' : string) (v : Z) (o : t) :
  k' <> k -> without k (set o k' v) = set (without k o) k' v.
Proof.
  intros N. induction o as [| [k0 v0] o IH]; cbn [set without filter fst].
  - replace (String.eqb k' k) with false
      by (symmetry; now apply String.eqb_neq).
    reflexivity.
  - destruct (String.eqb k0 k') eqn:E'.
    + apply String.eqb_eq in E'. subst k0.
      cbn [filter fst].
      replace (String.eqb k' k) with false
        by (symmetry; now apply String.eqb_neq).
      cbn [negb set]. now rewrite String.eqb_refl.
    + cbn [filter fst]. destruct (String.eqb k0 k); cbn [negb set].
      * apply IH.
      * rewrite E'. f_equal. apply IH.
Qed.

Lemma without_add_same (k : string) (n : Z) (o : t) :
  without k (add o k n) = without k o.
Proof. unfold add. apply without_set_same. Qed.

Lemma without_add_other (k k' : string) (n : Z) (o : t) :
  k' <> k -> without k (add o k' n) = add (without k o) k' n.
Proof.
  intros N. unfold add, get_or_zero.
  rewrite without_set_other by assumption.
  now rewrite get_without_other.
Qed.

Lemma without_fold (k : string) (l : list ActivityLog) (o : t) :
  without k
    (fold_left
       (fun o log => add o (log_activityTypeId log) (log_minutes log)) l o)
  = fold_left
      (fun o log => add o (log_activityTypeId log) (log_minutes log))
      (filter (fun log => negb (String.eqb (log_activityTypeId log) k)) l)
      (without k o).
Proof.
  revert o. induction l as [| a l IH]; intros o; [reflexivity | ].
  cbn [fold_left filter]. rewrite IH.
  destruct (String.eqb (log_activityTypeId a) k) eqn:E; cbn [negb fold_left].
  - apply String.eqb_eq in E. rewrite E. now rewrite without_add_same.
  - apply String.eqb_neq in E. now rewrite without_add_other.
Qed.

Lemma get_set (o : t) (k k' : string) (v : Z) :
  get (set o k v) k' = if String.eqb k k' then Some v else get o k'.
Proof.
  induction o as [| [k0 v0] o IH]; cbn [set get].
  - reflexivity.
  - destruct (String.eqb k0 k) eqn:E; cbn [get].
    + apply String.eqb_eq in E. subst k0.
      now destruct (String.eqb k k').
    + rewrite IH. destruct (String.eqb k0 k') eqn:E'; [ | reflexivity].
      apply String.eqb_eq in E'. subst k0. now rewrite String.eqb_sym, E.
Qed.

Lemma get_or_zero_add (o : t) (k k' : string) (n : Z) :
  get_or_zero (add o k n) k'
  = get_or_zero o k' + (if String.eqb k k' then n else 0).
Proof.
  unfold add, get_or_zero at 1. rewrite get_set.
  destruct (String.eqb k k') eqn:E.
  - apply String.eqb_eq in E. now subst.
  - unfold get_or_zero. lia.
Qed.

Lemma set_keys (o : t) (k : string) (v : Z) (k' : string) :
  In k' (map fst (set o k v)) <-> k' = k \/ In k' (map fst o).
Proof.
  induction o as [| [k0 v0] o IH]; cbn [set map fst In].
  - intuition congruence.
  - destruct (String.eqb k0 k) eqn:E; cbn [map fst In].
    + apply String.eqb_eq in E. subst k0. intuition congruence.
    + rewrite IH. tauto.
Qed.

Lemma set_NoDup (o : t) (k : string) (v : Z) :
  NoDup (map fst o) -> NoDup (map fst (set o k v)).
Proof.
  induction o as [| [k0 v0] o IH]; cbn [set map fst]; intros H.
  - constructor; [intros [] | constructor].
  - inversion H as [| ? ? Hn Hd]; subst.
    destruct (String.eqb k0 k) eqn:E; cbn [map fst].
    + now constructor.
    + constructor; [ | now apply IH].
      rewrite set_keys. intros [-> | Hin]; [ | contradiction].
      now rewrite String.eqb_refl in E.
Qed.

Lemma In_get (o : t) (k : string) (v : Z) :
  NoDup (map fst o) -> In (k, v) o -> get o k = Some v.
Proof.
  induction o as [| [k0 v0] o IH]; cbn [map fst In get]; [tauto | ].
  intros H [E | Hin]; inversion H as [| ? ? Hn Hd]; subst.
  - injection E as -> ->. now rewrite String.eqb_refl.
  - destruct (String.eqb k0 k) eqn:E; [ | now apply IH].
    apply String.eqb_eq in E. subst k0.
    exfalso. apply Hn. change k with (fst (k, v)). now apply in_map.
Qed.

Lemma In_get_or_zero (o : t) (k : string) (v : Z) :
  NoDup (map fst o) -> In (k, v) (entries o) -> v = get_or_zero o k.
Proof.
  intros H Hin. unfold get_or_zero.
  assert (Hin' : In (k, v) o).
  { unfold entries in Hin. apply in_app_or in Hin.
    destruct Hin as [Hin | Hin]; [ | now apply filter_In in Hin].
    apply (Permutation_in _ (sort_perm_any _ _)) in Hin.
    now apply filter_In in Hin. }
  now rewrite (In_get o k v H Hin').
Qed.

(** The dictionary built by adding the minutes of the selected logs. *)
Lemma fold_add_spec (select : ActivityLog -> bool) (l : list ActivityLog)
    (o : t) :
  let o' :=
    fold_left
      (fun o log =>
         if select log
         then add o (log_activityTypeId log) (log_minutes log)
         else o)
      l o in
  (NoDup (map fst o) -> NoDup (map fst o')) /\
  (forall k, get_or_zero o' k = get_or_zero o k + minutes_of select k l).
Proof.
  cbv zeta. revert o. induction l as [| a l IH]; intros o.
  - split; [tauto | ]. intros k. unfold minutes_of. cbn. lia.
  - cbn [fold_left]. destruct (IH (if select a
                                   then add o (log_activityTypeId a)
                                          (log_minutes a)
                                   else o)) as [IH1 IH2].
    split.
    + intros H. apply IH1. destruct (select a); [ | assumption].
      unfold add. now apply set_NoDup.
    + intros k. rewrite IH2. unfold minutes_of. cbn [filter].
      destruct (select a); cbn [andb].
      * rewrite get_or_zero_add.
        destruct (String.eqb (log_activityTypeId a) k); cbn [map fold_right];
          lia.
      * lia.
Qed.

Lemma entries_sort_key (o : t) :
  entries o
  = sort (desc_by (fun a => - index_of a)) (filter is_index o)
    ++ filter (fun kv => negb (is_index kv)) o.
Proof.
  unfold entries. f_equal. apply sort_ext. intros a b. unfold desc_by.
  f_equal. lia.
Qed.

Lemma entries_In (o : t) (kv : string * Z) : In kv (entries o) <-> In kv o.
Proof.
  rewrite entries_sort_key, in_app_iff.
  rewrite (sort_In (fun a => - index_of a)), !filter_In.
  destruct (is_index kv); cbn [negb]; intuition congruence.
Qed.

Lemma entries_without (k : string) (o : t) :
  filter (fun kv => negb (String.eqb (fst kv) k)) (entries o)
  = entries (without k o).
Proof.
  rewrite !entries_sort_key, filter_app.
  rewrite (filter_sort (fun a => - index_of a)).
  unfold without. f_equal; [f_equal | ]; apply filter_filter_comm.
Qed.

End JsObjectFacts.

Lemma getActivityById_id (acts : list ActivityType) (id : string)
    (t : ActivityType) :
  getActivityById acts id = Some t -> at_id t = id.
Proof.
  unfold getActivityById. intros H. apply find_some in H.
  now apply String.eqb_eq.
Qed.

Lemma getActivityById_found (acts : list ActivityType) (id : string)
    (t : ActivityType) :
  getActivityById acts id = Some t -> getActivityById acts (at_id t) = Some t.
Proof. intros H. now rewrite (getActivityById_id acts id t H). Qed.

(** ** The weekly rollup *)

Lemma eachDayOfInterval_week (d : Date) :
  valid_date d ->
  eachDayOfInterval (startOfWeek d 1) (endOfWeek d 1)
  = map (fun k => addDays (startOfWeek d 1) k) [0; 1; 2; 3; 4; 5; 6].
Proof.
  intros H. unfold eachDayOfInterval.
  rewrite (endOfWeek_sunday d H).
  replace (day_number (startOfWeek d 1) + 6 - day_number (startOfWeek d 1) + 1)
    with 7 by lia.
  rewrite days_from_iter.
  change [0; 1; 2; 3; 4; 5; 6] with (map Z.of_nat (seq 0 7)).
  rewrite map_map. apply map_ext. intros k. now rewrite addDays_nonneg.
Qed.

(** C2: the week of an anchor day starts on the Monday at or before it,
    the daily breakdown is the daily rollup of the seven days from that
    Monday on, in date order, and the weekly total is the sum of the seven
    daily totals. *)
Theorem weekly_window_and_total (acts : list ActivityType)
    (logs_ : list ActivityLog) (parseISO : string -> option Date)
    (anchor : Date) :
  valid_date anchor ->
  let w := getWeeklyStats acts logs_ parseISO anchor in
  let monday := startOfWeek anchor 1 in
  getDay monday = 1 /\
  (exists k, 0 <= k <= 6 /\ addDays monday k = anchor) /\
  (forall k, 0 <= k <= 6 ->
     day_number (addDays monday k) = day_number monday + k) /\
  ws_dailyBreakdown w
  = map (fun k => getDailyStats acts logs_ (format_date (addDays monday k)))
      [0; 1; 2; 3; 4; 5; 6] /\
  ws_totalMinutes w
  = fold_right Z.add 0 (map ds_totalMinutes (ws_dailyBreakdown w)).
Proof.
  intros H. cbv zeta.
  destruct (startOfWeek_monday anchor H) as (Hv & Hn & Hg).
  split; [assumption | split; [ | split]].
  - exists (monday_offset anchor).
    split; [apply monday_offset_range | now apply startOfWeek_contains].
  - intros k _. now apply addDays_spec.
  - unfold getWeeklyStats.
    destruct (weekByActivity logs_ parseISO _ _ _ _) as [cur prv].
    cbn [ws_dailyBreakdown ws_totalMinutes].
    rewrite (eachDayOfInterval_week anchor H), map_map.
    split; [reflexivity | apply sum_by_fold_right].
Qed.

Lemma weekByActivity_split (logs_ : list ActivityLog)
    (parseISO : string -> option Date) (date : Date) :
  weekByActivity logs_ parseISO (startOfWeek date 1) (endOfWeek date 1)
    (subWeeks (startOfWeek date 1) 1) (subWeeks (endOfWeek date 1) 1)
  = (fold_left
       (fun o log =>
          if in_current_week parseISO date log
          then JsObject.add o (log_activityTypeId log) (log_minutes log)
          else o)
       logs_ JsObject.empty,
     fold_left
       (fun o log =>
          if in_previous_week parseISO date log
          then JsObject.add o (log_activityTypeId log) (log_minutes log)
          else o)
       logs_ JsObject.empty).
Proof.
  unfold weekByActivity. generalize JsObject.empty at 1 3.
  generalize JsObject.empty.
  induction logs_ as [| a l IH]; intros p c; [reflexivity | ].
  cbn [fold_left]. unfold in_current_week at 2, in_previous_week at 2.
  destruct (parseISO (log_date a)) as [logDate |]; [ | apply IH].
  destruct (in_interval logDate (startOfWeek date 1) (endOfWeek date 1));
    cbn [negb andb]; [apply IH | ].
  destruct (in_interval logDate (subWeeks (startOfWeek date 1) 1)
              (subWeeks (endOfWeek date 1) 1)); apply IH.
Qed.

(** C5: every entry of the weekly breakdown carries the minutes of its
    activity type in the week of the anchor and in the week before, and
    the change percentage the specification gives for these two numbers;
    the breakdown is sorted descending by the minutes of the current
    week. *)
Theorem weekly_change_percentage (acts : list ActivityType)
    (logs_ : list ActivityLog) (parseISO : string -> option Date)
    (anchor : Date) :
  let w := getWeeklyStats acts logs_ parseISO anchor in
  (forall a, In a (ws_activityBreakdown w) ->
     wa_minutes a
     = minutes_of (in_current_week parseISO anchor)
         (at_id (wa_activityType a)) logs_ /\
     wa_previousWeekMinutes a
     = minutes_of (in_previous_week parseISO anchor)
         (at_id (wa_activityType a)) logs_ /\
     (0 < wa_previousWeekMinutes a ->
      wa_changePercentage a
      = (inject_Z (wa_minutes a - wa_previousWeekMinutes a)
         / inject_Z (wa_previousWeekMinutes a) * 100)%Q) /\
     (wa_previousWeekMinutes a = 0 -> 0 < wa_minutes a ->
      wa_changePercentage a = 100%Q) /\
     (wa_previousWeekMinutes a = 0 -> wa_minutes a = 0 ->
      wa_changePercentage a = 0%Q)) /\
  StronglySorted (fun a b => wa_minutes b <= wa_minutes a)
    (ws_activityBreakdown w).
Proof.
  cbv zeta. unfold getWeeklyStats. rewrite weekByActivity_split.
  cbn [ws_activityBreakdown].
  destruct (JsObjectFacts.fold_add_spec (in_current_week parseISO anchor)
              logs_ JsObject.empty) as [Nc Gc].
  destruct (JsObjectFacts.fold_add_spec (in_previous_week parseISO anchor)
              logs_ JsObject.empty) as [_ Gp].
  cbv zeta in Nc, Gc, Gp.
  split.
  - intros a Ha. apply (proj1 (sort_In wa_minutes _ _)) in Ha.
    apply map_defined_In in Ha. destruct Ha as ([id minutes] & Hin & Ha).
    destruct (getActivityById acts id) as [t |] eqn:Et; [ | discriminate].
    injection Ha as <-. cbn [wa_minutes wa_previousWeekMinutes
                              wa_changePercentage wa_activityType].
    rewrite (getActivityById_id acts id t Et).
    split; [ | split].
    + rewrite (JsObjectFacts.In_get_or_zero _ id minutes
                 (Nc ltac:(constructor)) Hin).
      rewrite Gc. reflexivity.
    + rewrite Gp. reflexivity.
    + unfold changePercentage. repeat split.
      * intros P. now replace (0 <? _) with true
          by (symmetry; now apply Z.ltb_lt).
      * intros -> P. cbn. now replace (0 <? minutes) with true
          by (symmetry; now apply Z.ltb_lt).
      * intros -> ->. reflexivity.
  - apply (sort_sorted wa_minutes).
Qed.

(** ** The monthly rollup *)

Lemma days_from_same_month (y m : Z) (n k : nat) :
  Z.of_nat (k + n) - 1 <= days_in_month y m ->
  days_from n (mkDate y m (Z.of_nat k))
  = map (fun j => mkDate y m (Z.of_nat j)) (seq k n).
Proof.
  revert k. induction n as [| n IH]; intros k H; [reflexivity | ].
  cbn [days_from seq map]. f_equal.
  destruct n as [| n]; [reflexivity | ].
  rewrite <- IH by lia. f_equal.
  unfold next_day. cbn [year month day].
  replace (Z.of_nat k <? days_in_month y m) with true
    by (symmetry; apply Z.ltb_lt; lia).
  f_equal. lia.
Qed.

Lemma eachDayOfInterval_month (d : Date) :
  eachDayOfInterval (startOfMonth d) (endOfMonth d)
  = map (fun j => mkDate (year d) (month d) (Z.of_nat j))
      (seq 1 (Z.to_nat (days_in_month (year d) (month d)))).
Proof.
  unfold eachDayOfInterval, startOfMonth, endOfMonth.
  rewrite !day_number_unfold.
  pose proof (days_in_month_bounds (year d) (month d)) as B.
  match goal with
  | |- days_from (Z.to_nat ?e) _ = _ =>
      replace e with (days_in_month (year d) (month d)) by lia
  end.
  apply (days_from_same_month (year d) (month d) _ 1). lia.
Qed.

Lemma productive_days (h : list HeatmapEntry) :
  let sorted :=
    sort (fun a b => hm_minutes b - hm_minutes a)
      (filter (fun d => 0 <? hm_minutes d) h) in
  let most := hd ""%string (map hm_date sorted) in
  let least := last (map hm_date sorted) ""%string in
  ((forall e, In e h -> hm_minutes e <= 0) ->
   most = ""%string /\ least = ""%string) /\
  ((exists e, In e h /\ 0 < hm_minutes e) ->
   (exists h1 x h2,
      h = h1 ++ x :: h2 /\ most = hm_date x /\ 0 < hm_minutes x /\
      (forall e, In e h1 -> hm_minutes e < hm_minutes x) /\
      (forall e, In e h2 -> hm_minutes e <= hm_minutes x)) /\
   (exists h1 x h2,
      h = h1 ++ x :: h2 /\ least = hm_date x /\ 0 < hm_minutes x /\
      (forall e, In e h1 -> 0 < hm_minutes e -> hm_minutes x <= hm_minutes e) /\
      (forall e, In e h2 -> 0 < hm_minutes e -> hm_minutes x < hm_minutes e))).
Proof.
  cbv zeta. set (pos := fun d => 0 <? hm_minutes d).
  change (fun a b : HeatmapEntry => hm_minutes b - hm_minutes a)
    with (desc_by hm_minutes).
  split.
  - intros H.
    assert (E : filter pos h = []).
    { induction h as [| a h IH]; [reflexivity | ].
      cbn [filter]. unfold pos at 1.
      replace (0 <? hm_minutes a) with false
        by (symmetry; apply Z.ltb_ge; apply H; now left).
      apply IH. intros e He. apply H. now right. }
    rewrite E. split; reflexivity.
  - intros (e & He & Pe).
    assert (NE : filter pos h <> []).
    { intros E. assert (In e (filter pos h)) as F.
      { apply filter_In. split; [assumption | now apply Z.ltb_lt]. }
      rewrite E in F. destruct F. }
    assert (S : forall h' y, filter pos h' = filter pos h' ->
                In y h' -> 0 < hm_minutes y -> In y (filter pos h')).
    { intros h' y _ Hy Py. apply filter_In. split; [assumption | ].
      now apply Z.ltb_lt. }
    split.
    + destruct (first_max_split hm_minutes _ NE) as (l1 & x & l2 & E & H1 & H2).
      destruct (filter_split pos h l1 l2 x E) as (h1 & h2 & -> & F1 & F2 & Px).
      destruct (sort_hd hm_minutes l1 l2 x H1 H2) as (r & Hr).
      apply Z.ltb_lt in Px.
      exists h1, x, h2. rewrite E, Hr. repeat split; try assumption.
      * intros y Hy. destruct (Z.lt_ge_cases 0 (hm_minutes y)) as [P | P].
        -- apply H1. rewrite <- F1. now apply S.
        -- lia.
      * intros y Hy. destruct (Z.lt_ge_cases 0 (hm_minutes y)) as [P | P].
        -- apply H2. rewrite <- F2. now apply S.
        -- lia.
    + destruct (last_min_split hm_minutes _ NE) as (l1 & x & l2 & E & H1 & H2).
      destruct (filter_split pos h l1 l2 x E) as (h1 & h2 & -> & F1 & F2 & Px).
      destruct (sort_last hm_minutes l1 l2 x H1 H2) as (r & Hr).
      apply Z.ltb_lt in Px.
      exists h1, x, h2. rewrite E, Hr, map_app.
      change (map hm_date [x]) with [hm_date x]. rewrite last_last.
      repeat split; try assumption.
      * intros y Hy P. apply H1. rewrite <- F1. now apply S.
      * intros y Hy P. apply H2. rewrite <- F2. now apply S.
Qed.

(** C3: the heatmap of a month has one entry for each of its days, from
    the first to the last, with the minutes logged on that day (zero
    included); [mostProductiveDay] is the earliest day reaching the
    maximum and [leastProductiveDay] the latest day reaching the minimum
    among the days with minutes above zero. *)
Theorem monthly_heatmap_and_extremes (acts : list ActivityType)
    (logs_ : list ActivityLog) (anchor : Date) :
  let ms := getMonthlyStats acts logs_ anchor in
  let h := ms_dailyHeatmap ms in
  h = map
        (fun j =>
           let dateStr :=
             format_date (mkDate (year anchor) (month anchor) (Z.of_nat j)) in
           mkHeatmapEntry dateStr
             (fold_right Z.add 0
                (map log_minutes
                   (filter (fun log => String.eqb (log_date log) dateStr)
                      logs_))))
        (seq 1 (Z.to_nat (days_in_month (year anchor) (month anchor)))) /\
  ((forall e, In e h -> hm_minutes e <= 0) ->
   ms_mostProductiveDay ms = ""%string /\
   ms_leastProductiveDay ms = ""%string) /\
  ((exists e, In e h /\ 0 < hm_minutes e) ->
   (exists h1 x h2,
      h = h1 ++ x :: h2 /\ ms_mostProductiveDay ms = hm_date x /\
      0 < hm_minutes x /\
      (forall e, In e h1 -> hm_minutes e < hm_minutes x) /\
      (forall e, In e h2 -> hm_minutes e <= hm_minutes x)) /\
   (exists h1 x h2,
      h = h1 ++ x :: h2 /\ ms_leastProductiveDay ms = hm_date x /\
      0 < hm_minutes x /\
      (forall e, In e h1 -> 0 < hm_minutes e -> hm_minutes x <= hm_minutes e) /\
      (forall e, In e h2 -> 0 < hm_minutes e -> hm_minutes x < hm_minutes e))).
Proof.
  cbv zeta. unfold getMonthlyStats.
  cbn [ms_dailyHeatmap ms_mostProductiveDay ms_leastProductiveDay].
  split.
  - rewrite eachDayOfInterval_month, map_map. apply map_ext. intros j.
    unfold heatmapEntry. now rewrite sum_by_fold_right.
  - apply productive_days.
Qed.

(** ** The daily rollup *)


Lemma map_defined_ext {A B : Type} (f g : A -> option B) (l : list A) :
  (forall x, f x = g x) -> map_defined f l = map_defined g l.
Proof.
  intros H. induction l as [| a l IH]; [reflexivity | ].
  cbn [map_defined]. now rewrite H, IH.
Qed.

Lemma category_minutes_groups (c : ActivityType -> bool)
    (l : list DailyActivity) :
  sum_by da_minutes (filter (fun a => c (da_activityType a)) l)
  = sum_by snd
      (filter (fun p => c (fst p))
         (map (fun a => (da_activityType a, da_minutes a)) l)).
Proof.
  rewrite !sum_by_fold_right.
  induction l as [| a l IH]; [reflexivity | ].
  cbn [filter map fst]. destruct (c (da_activityType a)); cbn [map fold_right snd];
    now rewrite IH.
Qed.

Lemma daily_groups_entries (acts : list ActivityType)
    (logs_ : list ActivityLog) (date : string) :
  daily_groups (getDailyStats acts logs_ date)
  = map_defined
      (fun kv =>
         match getActivityById acts (fst kv) with
         | Some t => Some (t, snd kv)
         | None => None
         end)
      (JsObject.entries
         (fold_left
            (fun o log =>
               JsObject.add o (log_activityTypeId log) (log_minutes log))
            (filter (fun log => String.eqb (log_date log) date) logs_)
            JsObject.empty)).
Proof.
  unfold daily_groups, getDailyStats. cbn [ds_activities].
  rewrite map_map_defined. apply map_defined_ext. intros [id minutes].
  cbn [fst snd]. now destruct (getActivityById acts id).
Qed.

Lemma minutes_of_filter (q : ActivityLog -> bool) (k : string)
    (l : list ActivityLog) :
  minutes_of (fun _ => true) k (filter q l) = minutes_of q k l.
Proof.
  unfold minutes_of. do 2 f_equal.
  induction l as [| a l IH]; [reflexivity | ].
  cbn [filter]. destruct (q a) eqn:Qa.
  - cbn [filter].
    change (true && String.eqb (log_activityTypeId a) k)
      with (String.eqb (log_activityTypeId a) k).
    destruct (String.eqb (log_activityTypeId a) k); now rewrite IH.
  - change (false && String.eqb (log_activityTypeId a) k) with false.
    exact IH.
Qed.

Lemma daily_group_minutes (acts : list ActivityType)
    (logs_ : list ActivityLog) (date : string) (a : DailyActivity) :
  In a (ds_activities (getDailyStats acts logs_ date)) ->
  getActivityById acts (at_id (da_activityType a)) = Some (da_activityType a)
  /\ da_minutes a
     = minutes_of (fun log => String.eqb (log_date log) date)
         (at_id (da_activityType a)) logs_.
Proof.
  unfold getDailyStats. cbn [ds_activities]. intros Ha.
  apply map_defined_In in Ha. destruct Ha as ([id minutes] & Hin & Ha).
  destruct (getActivityById acts id) as [t |] eqn:E; [ | discriminate].
  injection Ha as <-. cbn [da_activityType da_minutes].
  split; [now apply (getActivityById_found acts id) | ].
  rewrite (getActivityById_id acts id t E).
  destruct (JsObjectFacts.fold_add_spec (fun _ => true)
              (filter (fun log => String.eqb (log_date log) date) logs_)
              JsObject.empty) as [N G].
  cbv zeta in N, G.
  rewrite (JsObjectFacts.In_get_or_zero _ id minutes (N ltac:(constructor))
             Hin).
  rewrite G, minutes_of_filter. reflexivity.
Qed.

(** C4: a log of the day whose activity type is not among the visible
    ones counts in [totalMinutes] and nowhere else: the groups of the
    breakdown and the productive and leisure minutes are the ones of the
    same log set without that log, no group carries its type id, and
    every group is a visible type with the minutes of the day's logs of
    that type.  ([getDailyStats] is a total function: there is no error
    to raise.) *)
Theorem orphan_log_excluded (acts : list ActivityType)
    (l1 l2 : list ActivityLog) (l : ActivityLog) (date : string) :
  log_date l = date ->
  getActivityById acts (log_activityTypeId l) = None ->
  let s := getDailyStats acts (l1 ++ l :: l2) date in
  let s' := getDailyStats acts (l1 ++ l2) date in
  ds_totalMinutes s = ds_totalMinutes s' + log_minutes l /\
  daily_groups s = daily_groups s' /\
  ds_productiveMinutes s = ds_productiveMinutes s' /\
  ds_leisureMinutes s = ds_leisureMinutes s' /\
  (forall a, In a (ds_activities s) ->
     getActivityById acts (at_id (da_activityType a))
     = Some (da_activityType a) /\
     at_id (da_activityType a) <> log_activityTypeId l /\
     da_minutes a
     = minutes_of (fun log => String.eqb (log_date log) date)
         (at_id (da_activityType a)) (l1 ++ l :: l2)).
Proof.
  intros Hd Ho. cbv zeta.
  assert (Hl : String.eqb (log_date l) date = true) by now apply String.eqb_eq.
  assert (G : daily_groups (getDailyStats acts (l1 ++ l :: l2) date)
              = daily_groups (getDailyStats acts (l1 ++ l2) date)).
  { rewrite !daily_groups_entries.
    set (k := log_activityTypeId l) in *.
    set (f := fun kv : string * Z =>
                match getActivityById acts (fst kv) with
                | Some t => Some (t, snd kv)
                | None => None
                end).
    assert (D : forall x, negb (String.eqb (fst x) k) = false -> f x = None).
    { intros x Hx. apply Bool.negb_false_iff, String.eqb_eq in Hx.
      unfold f. now rewrite Hx, Ho. }
    rewrite <- (map_defined_filter f _ (JsObject.entries _) D).
    rewrite <- (map_defined_filter f _
                  (JsObject.entries
                     (fold_left _ (filter _ (l1 ++ l2)) _)) D).
    rewrite !JsObjectFacts.entries_without, !JsObjectFacts.without_fold.
    rewrite !filter_app. cbn [filter]. rewrite Hl. cbn [filter].
    fold k. rewrite String.eqb_refl. reflexivity. }
  split; [ | split; [exact G | split; [ | split]]].
  - unfold getDailyStats. cbn [ds_totalMinutes].
    rewrite !filter_app. cbn [filter]. rewrite Hl.
    rewrite !sum_by_app, sum_by_cons. lia.
  - unfold getDailyStats. cbn [ds_productiveMinutes].
    rewrite !(category_minutes_groups
                (fun t => String.eqb (at_category t) "productive")).
    unfold daily_groups in G. cbn [ds_activities getDailyStats] in G.
    now rewrite G.
  - unfold getDailyStats. cbn [ds_leisureMinutes].
    rewrite !(category_minutes_groups
                (fun t => String.eqb (at_category t) "leisure")).
    unfold daily_groups in G. cbn [ds_activities getDailyStats] in G.
    now rewrite G.
  - intros a Ha.
    destruct (daily_group_minutes acts _ date a Ha) as [Hf Hm].
    split; [exact Hf | split; [ | exact Hm]].
    intros C. rewrite C in Hf. congruence.
Qed.

(** ** The monthly suggestions *)

Lemma Qlt_bool_Z (a b : Z) (p q : positive) :
  Qlt_bool (a # p) (b # q) = (a * Zpos q <? b * Zpos p).
Proof.
  unfold Qlt_bool, Qle_bool. cbn [Qnum Qden].
  destruct (Z.leb_spec (b * Zpos p) (a * Zpos q)),
           (Z.ltb_spec (a * Zpos q) (b * Zpos p)); cbn [negb]; try reflexivity; lia.
Qed.

Lemma Qlt_bool_quarter (total minutes : Z) :
  Qlt_bool (inject_Z total * (25 # 100)) (inject_Z minutes)
  = (total <? 4 * minutes).
Proof.
  unfold inject_Z, Qmult. cbn [Qnum Qden]. rewrite Qlt_bool_Z.
  destruct (Z.ltb_spec (total * 25 * 1) (minutes * Zpos (1 * 100))),
           (Z.ltb_spec total (4 * minutes)); try reflexivity; lia.
Qed.


Lemma Qlt_bool_sleep (minutes : Z) :
  Qlt_bool (inject_Z minutes / 30) 420 = (minutes <? 12600).
Proof.
  unfold inject_Z, Qdiv, Qmult, Qinv. cbn [Qnum Qden]. rewrite Qlt_bool_Z.
  destruct (Z.ltb_spec (minutes * 1 * 1) (420 * Zpos (1 * 30))),
           (Z.ltb_spec minutes 12600); try reflexivity; lia.
Qed.



(** X26: the monthly route of the server evaluates the same rules without
    the fourth one. *)
Lemma server_suggestion_rules (tops : list TopActivity) (total : Z) :
  Server.generateSuggestions tops total
  = (let fired :=
       rule_limit tops total ++ rule_sleep tops ++ rule_exercise tops in
     fired ++ rule_generic fired).
Proof.
  unfold Server.generateSuggestions, rule_limit, rule_sleep, rule_exercise.
  destruct (find is_leisure_name tops) as [la |];
    [rewrite Qlt_bool_quarter; destruct (total <? 4 * ta_minutes la) | ];
    (destruct (find (has_name "Sleep") tops) as [sa |];
     [rewrite Qlt_bool_sleep; destruct (ta_minutes sa <? 12600) | ]);
    (destruct (find (has_name "Exercise") tops) as [ea |];
     [destruct (ta_minutes ea <? 600) | ]);
    reflexivity.
Qed.

(** ** The daily route of the server *)

Lemma filter_idempotent {A : Type} (p q : A -> bool) (l : list A) :
  (forall x, q x = true -> p x = true) -> filter p (filter q l) = filter q l.
Proof.
  intros H. induction l as [| a l IH]; [reflexivity | ].
  cbn [filter]. destruct (q a) eqn:Qa; [ | exact IH].
  cbn [filter]. now rewrite (H a Qa), IH.
Qed.

(** X27: the daily route computes the daily rollup of the client on the logs
    of the user and the types visible to the user, so the two properties
    of the daily rollup above hold for its answer as well. *)
Lemma dailyRoute_getDailyStats (st : Server.MemStorage) (userId date : string) :
  Server.dailyRoute st userId date
  = getDailyStats (Server.getActivityTypes st userId)
      (Server.getActivityLogsByDate st userId date) date.
Proof.
  unfold Server.dailyRoute, getDailyStats.
  assert (E : filter (fun log => String.eqb (log_date log) date)
                (Server.getActivityLogsByDate st userId date)
              = Server.getActivityLogsByDate st userId date).
  { unfold Server.getActivityLogsByDate. apply filter_idempotent.
    intros x Hx. now apply Bool.andb_true_iff in Hx. }
  rewrite E. reflexivity.
Qed.

(** ** Witnesses and the examples of the specification *)

Lemma weekly_window_and_total_witness :
  valid_date (mkDate 2024 3 3) /\
  getDay (startOfWeek (mkDate 2024 3 3) 1) = 1.
Proof.
  assert (V : valid_date (mkDate 2024 3 3)).
  { unfold valid_date. cbn. lia. }
  split; [exact V | ].
  exact (proj1 (weekly_window_and_total defaultActivities week_logs
                  parseISO_ymd (mkDate 2024 3 3) V)).
Defined.

Lemma weekly_change_percentage_witness :
  let w :=
    getWeeklyStats defaultActivities week_logs parseISO_ymd (mkDate 2024 3 3) in
  let a :=
    mkWeeklyActivity
      (mkActivityType "1" None "Work" "Briefcase" "#3B82F6" "productive" true)
      30 0 100 in
  In a (ws_activityBreakdown w) /\ wa_changePercentage a = 100%Q.
Proof.
  cbv zeta.
  assert (I : In (mkWeeklyActivity
                    (mkActivityType "1" None "Work" "Briefcase" "#3B82F6"
                       "productive" true) 30 0 100)
                (ws_activityBreakdown
                   (getWeeklyStats defaultActivities week_logs parseISO_ymd
                      (mkDate 2024 3 3)))).
  { vm_compute. right. left. reflexivity. }
  split; [exact I | ].
  exact (proj1 (proj2 (proj2 (proj2
           (proj1 (weekly_change_percentage defaultActivities week_logs
                     parseISO_ymd (mkDate 2024 3 3)) _ I))))
           eq_refl eq_refl).
Defined.

Lemma monthly_heatmap_and_extremes_witness :
  let ms := getMonthlyStats defaultActivities month_logs (mkDate 2024 2 15) in
  (exists e, In e (ms_dailyHeatmap ms) /\ 0 < hm_minutes e) /\
  (exists h1 x h2,
     ms_dailyHeatmap ms = h1 ++ x :: h2 /\
     ms_mostProductiveDay ms = hm_date x /\ 0 < hm_minutes x /\
     (forall e, In e h1 -> hm_minutes e < hm_minutes x) /\
     (forall e, In e h2 -> hm_minutes e <= hm_minutes x)).
Proof.
  cbv zeta.
  assert (P : exists e,
             In e (ms_dailyHeatmap
                     (getMonthlyStats defaultActivities month_logs
                        (mkDate 2024 2 15))) /\ 0 < hm_minutes e).
  { exists (mkHeatmapEntry "2024-02-02" 10). split; [ | reflexivity].
    vm_compute. right. left. reflexivity. }
  split; [exact P | ].
  exact (proj1 (proj2 (proj2 (monthly_heatmap_and_extremes defaultActivities
                                month_logs (mkDate 2024 2 15))) P)).
Defined.

Lemma orphan_log_excluded_witness :
  log_date orphan_log = "2024-02-02"%string /\
  getActivityById defaultActivities (log_activityTypeId orphan_log) = None /\
  ds_totalMinutes
    (getDailyStats defaultActivities (day_logs ++ orphan_log :: [])
       "2024-02-02")
  = ds_totalMinutes (getDailyStats defaultActivities (day_logs ++ [])
                       "2024-02-02")
    + 15.
Proof.
  split; [reflexivity | split; [reflexivity | ]].
  exact (proj1 (orphan_log_excluded defaultActivities day_logs [] orphan_log
                  "2024-02-02" eq_refl eq_refl)).
Defined.



Example format_date_ex : format_date (mkDate 2024 1 2) = "2024-01-02"%string.
Proof. reflexivity. Qed.

Example getDay_ex : getDay (mkDate 2024 1 1) = 1 /\ getDay (mkDate 1970 1 1) = 4.
Proof. split; reflexivity. Qed.

Example startOfWeek_ex :
  startOfWeek (mkDate 2024 3 3) 1 = mkDate 2024 2 26 /\
  endOfWeek (mkDate 2024 3 3) 1 = mkDate 2024 3 3.
Proof. split; reflexivity. Qed.

Example entries_order_ex :
  JsObject.entries
    [("b", 1); ("10", 2); ("2", 3); ("a", 4); ("01", 5)]%string
  = [("2", 3); ("10", 2); ("b", 1); ("a", 4); ("01", 5)]%string.
Proof. reflexivity. Qed.

(** Two logs on consecutive days (UTC, at noon), the clock showing the
    day of each log. *)
Example streak_two_days :
  run_updates (fixed_zone 0) [(1704110400000, "2024-01-01"%string)]
    initialStreak
  = mkStreak 1 1 (Some "2024-01-01"%string) /\
  run_updates (fixed_zone 0)
    [(1704110400000, "2024-01-01"%string);
     (1704196800000, "2024-01-02"%string)] initialStreak
  = mkStreak 2 2 (Some "2024-01-02"%string).
Proof. split; vm_compute; reflexivity. Qed.

(** X1: a second call of the transition at an instant of the same local
    day changes nothing, whatever the dates of the two logs and however
    long that day lasts. *)
Example streak_idempotent (zone : Z -> Date) (t1 t2 : Z) (d1 d2 : string)
    (prev : Streak) :
  zone t2 = zone t1 ->
  updateStreak zone t2 d2 (updateStreak zone t1 d1 prev)
  = updateStreak zone t1 d1 prev.
Proof.
  intros E.
  assert (L : lastActiveDate (updateStreak zone t1 d1 prev)
              = Some (format_date (zone t1))).
  { unfold updateStreak.
    destruct (option_eqb_string (lastActiveDate prev)
                (Some (format_date (zone t1))))
      eqn:E1; [now apply option_eqb_string_spec | reflexivity]. }
  generalize dependent (updateStreak zone t1 d1 prev). intros s L.
  unfold updateStreak. rewrite E, L. cbn [option_eqb_string].
  now rewrite String.eqb_refl.
Qed.

Lemma streak_idempotent_witness :
  switching_zone 120 60 1729990800000 1730068200000
  = switching_zone 120 60 1729990800000 1730032200000 /\
  updateStreak (switching_zone 120 60 1729990800000) 1730068200000
    "2024-10-27"
    (updateStreak (switching_zone 120 60 1729990800000) 1730032200000
       "2024-10-27" (mkStreak 3 3 (Some "2024-10-26"%string)))
  = updateStreak (switching_zone 120 60 1729990800000) 1730032200000
      "2024-10-27" (mkStreak 3 3 (Some "2024-10-26"%string)).
Proof.
  assert (E : switching_zone 120 60 1729990800000 1730068200000
              = switching_zone 120 60 1729990800000 1730032200000)
    by (vm_compute; reflexivity).
  split; [exact E | ].
  exact (streak_idempotent (switching_zone 120 60 1729990800000)
           1730032200000 1730068200000 "2024-10-27" "2024-10-27"
           (mkStreak 3 3 (Some "2024-10-26"%string)) E).
Defined.

(** One hour of Work and half an hour of Reading, both productive. *)
Example daily_work_reading :
  let s := getDailyStats defaultActivities day_logs "2024-02-02" in
  ds_totalMinutes s = 90 /\ ds_productiveMinutes s = 90 /\
  ds_leisureMinutes s = 0 /\
  Forall2 Qeq (map da_percentage (ds_activities s)) [200 # 3; 100 # 3].
Proof.
  cbv zeta. repeat split. vm_compute.
  repeat constructor.
Qed.

(** Nothing last week, thirty minutes this week. *)
Example weekly_from_zero :
  map (fun a => (at_name (wa_activityType a), wa_changePercentage a))
    (ws_activityBreakdown
       (getWeeklyStats defaultActivities
          [sample_log "log-1" "1" "2024-02-28" 30] parseISO_ymd
          (mkDate 2024 3 3)))
  = [("Work"%string, 100%Q)].
Proof. vm_compute. reflexivity. Qed.

(** Two days tied at ten minutes after a day without logs. *)
Example monthly_tie :
  let ms := getMonthlyStats defaultActivities month_logs (mkDate 2024 2 15) in
  map hm_minutes (firstn 3 (ms_dailyHeatmap ms)) = [0; 10; 10] /\
  ms_mostProductiveDay ms = "2024-02-02"%string /\
  ms_leastProductiveDay ms = "2024-02-03"%string /\
  List.length (ms_dailyHeatmap ms) = 29%nat.
Proof. cbv zeta. repeat split; vm_compute; reflexivity. Qed.

Example monthly_suggestions_ex :
  generateMonthlySuggestions sample_tops 800
  = [limit_message "Gaming"; sleep_message; exercise_message].
Proof. vm_compute. reflexivity. Qed.

(** * Further properties of the code *)

(** ** The streak over several days *)

Lemma format_date_differs (d1 d2 : Date) :
  civil_date d1 -> civil_date d2 -> day_number d1 <> day_number d2 ->
  option_eqb_string (Some (format_date d1)) (Some (format_date d2)) = false.
Proof.
  intros C1 C2 N. apply option_eqb_string_false. intros E.
  assert (E' : format_date d1 = format_date d2).
  { exact (f_equal (fun o => match o with Some x => x | None => EmptyString end)
             E). }
  apply N. now rewrite (format_date_inj d1 d2 C1 C2 E').
Qed.

(** A log on the day after the last active day, entered when the
    instant 24 hours earlier falls on the last active day. *)
Lemma updateStreak_next_day (zone : Z -> Date) (t : Z) (d : Date)
    (date : string) (c l : Z) :
  civil_date d -> civil_date (next_day d) ->
  zone t = next_day d -> zone (t - 86400000) = d ->
  updateStreak zone t date (mkStreak c l (Some (format_date d)))
  = mkStreak (c + 1) (Z.max (c + 1) l) (Some (format_date (next_day d))).
Proof.
  intros Cd Cn Et Ey. unfold updateStreak. rewrite Et, Ey.
  cbn [lastActiveDate currentStreak longestStreak].
  rewrite (format_date_differs d (next_day d) Cd Cn)
    by (rewrite day_number_next_day by apply Cd; lia).
  cbn [option_eqb_string]. now rewrite String.eqb_refl.
Qed.

Lemma run_consecutive_days (zone : Z -> Date) (k : nat) (d : Date) (c l : Z)
    (ts : list Z) :
  c <= l -> civil_date d ->
  map zone ts = days_from k (next_day d) ->
  Forall civil_date (days_from k (next_day d)) ->
  Forall (regular_day zone) ts ->
  run_updates zone (map (fun t => (t, format_date (zone t))) ts)
    (mkStreak c l (Some (format_date d)))
  = mkStreak (c + Z.of_nat k) (Z.max l (c + Z.of_nat k))
      (Some (format_date (Nat.iter k next_day d))).
Proof.
  revert d c l ts. induction k as [| k IH]; intros d c l ts Hcl Cd M F R.
  - destruct ts as [| t ts]; [ | discriminate M]. cbn. f_equal; lia.
  - destruct ts as [| t ts]; [discriminate M | ].
    cbn [days_from map] in *. injection M as Et M.
    inversion F as [| ? ? Cn F']; subst.
    inversion R as [| ? ? Rt R']; subst.
    unfold run_updates. cbn [fold_left fst snd].
    rewrite (updateStreak_next_day zone t d (format_date (zone t)) c l Cd Cn Et)
      by (unfold regular_day in Rt; rewrite Rt, Et;
          apply prev_next_day, Cd).
    fold (run_updates zone (map (fun t => (t, format_date (zone t))) ts)
            (mkStreak (c + 1) (Z.max (c + 1) l)
               (Some (format_date (next_day d))))).
    rewrite (IH (next_day d)) by (try assumption; lia).
    replace (Nat.iter (S k) next_day d) with (Nat.iter k next_day (next_day d))
      by (symmetry; apply Nat.iter_succ_r).
    f_equal; lia.
Qed.

(** X2: logs entered on [k + 1] consecutive local days, each dated with
    its day and entered when the instant 24 hours earlier falls on the
    calendar day before (as at every instant in a zone of constant
    offset), bring the default record to a current and a longest streak
    of [k + 1]. *)
Theorem streak_consecutive_days (zone : Z -> Date) (k : nat) (d0 : Date)
    (ts : list Z) :
  map zone ts = days_from (S k) d0 ->
  Forall civil_date (days_from (S k) d0) ->
  Forall (regular_day zone) ts ->
  run_updates zone (map (fun t => (t, format_date (zone t))) ts) initialStreak
  = mkStreak (Z.of_nat (S k)) (Z.of_nat (S k))
      (Some (format_date (Nat.iter k next_day d0))).
Proof.
  intros M F R. destruct ts as [| t ts]; [discriminate M | ].
  cbn [days_from map] in *. injection M as Et M.
  inversion F as [| ? ? C0 F']; subst.
  inversion R as [| ? ? Rt R']; subst.
  unfold run_updates. cbn [fold_left fst snd].
  change (updateStreak zone t (format_date (zone t)) initialStreak)
    with (mkStreak 1 1 (Some (format_date (zone t)))).
  fold (run_updates zone (map (fun t => (t, format_date (zone t))) ts)
          (mkStreak 1 1 (Some (format_date (zone t))))).
  rewrite (run_consecutive_days zone k (zone t)) by (try assumption; lia).
  f_equal; lia.
Qed.

Lemma streak_consecutive_days_witness :
  map (fixed_zone 330) [1709094600000; 1709227800000; 1709235000000]
  = days_from 3 (mkDate 2024 2 28) /\
  Forall civil_date (days_from 3 (mkDate 2024 2 28)) /\
  Forall (regular_day (fixed_zone 330))
    [1709094600000; 1709227800000; 1709235000000] /\
  run_updates (fixed_zone 330)
    (map (fun t => (t, format_date (fixed_zone 330 t)))
       [1709094600000; 1709227800000; 1709235000000])
    initialStreak
  = mkStreak 3 3 (Some (format_date (mkDate 2024 3 1))).
Proof.
  assert (M : map (fixed_zone 330)
                [1709094600000; 1709227800000; 1709235000000]
              = days_from 3 (mkDate 2024 2 28)) by (vm_compute; reflexivity).
  assert (F : Forall civil_date (days_from 3 (mkDate 2024 2 28))).
  { repeat constructor; cbn; lia. }
  assert (R : Forall (regular_day (fixed_zone 330))
                [1709094600000; 1709227800000; 1709235000000]).
  { repeat (apply Forall_cons; [apply fixed_zone_regular | ]).
    apply Forall_nil. }
  split; [exact M | split; [exact F | split; [exact R | ]]].
  exact (streak_consecutive_days (fixed_zone 330) 2 (mkDate 2024 2 28)
           [1709094600000; 1709227800000; 1709235000000] M F R).
Defined.

(** X3: when the last active day is neither the local day of the clock
    nor the local day of the instant 24 hours earlier, the current streak
    restarts at 1, the longest streak is the larger of 1 and its old
    value, and the last active day becomes the day of the clock.  The day
    of the instant 24 hours earlier is the day before the clock's, except
    around a change of the offset of the zone: in the last hour of a day
    of 25 hours it is the day of the clock itself, and then a last active
    day that is the day before is reset as well. *)
Theorem streak_gap_resets (zone : Z -> Date) (nowMs : Z) (d : Date)
    (date : string) (prev : Streak) :
  lastActiveDate prev = Some (format_date d) ->
  civil_date d -> civil_date (zone nowMs) ->
  civil_date (zone (nowMs - 86400000)) ->
  day_number d <> day_number (zone nowMs) ->
  day_number d <> day_number (zone (nowMs - 86400000)) ->
  updateStreak zone nowMs date prev
  = mkStreak 1 (Z.max 1 (longestStreak prev))
      (Some (format_date (zone nowMs))).
Proof.
  intros E Cd Cn Cp N1 N2. unfold updateStreak. rewrite E.
  rewrite (format_date_differs d (zone nowMs) Cd Cn N1).
  rewrite (format_date_differs d (zone (nowMs - 86400000)) Cd Cp N2).
  reflexivity.
Qed.

Lemma streak_gap_resets_witness :
  switching_zone 120 60 1729990800000 1730068200000 = mkDate 2024 10 27 /\
  switching_zone 120 60 1729990800000 (1730068200000 - 86400000)
  = mkDate 2024 10 27 /\
  updateStreak (switching_zone 120 60 1729990800000) 1730068200000
    "2024-10-27" (mkStreak 3 3 (Some (format_date (mkDate 2024 10 26))))
  = mkStreak 1 (Z.max 1 3)
      (Some (format_date
               (switching_zone 120 60 1729990800000 1730068200000))).
Proof.
  assert (T : switching_zone 120 60 1729990800000 1730068200000
              = mkDate 2024 10 27) by (vm_compute; reflexivity).
  assert (Y : switching_zone 120 60 1729990800000 (1730068200000 - 86400000)
              = mkDate 2024 10 27) by (vm_compute; reflexivity).
  assert (C26 : civil_date (mkDate 2024 10 26))
    by (unfold civil_date, valid_date; cbn; lia).
  assert (C27 : civil_date (mkDate 2024 10 27))
    by (unfold civil_date, valid_date; cbn; lia).
  assert (N : day_number (mkDate 2024 10 26) <> day_number (mkDate 2024 10 27))
    by (vm_compute; discriminate).
  split; [exact T | split; [exact Y | ]].
  apply (streak_gap_resets (switching_zone 120 60 1729990800000)
           1730068200000 (mkDate 2024 10 26) "2024-10-27"
           (mkStreak 3 3 (Some (format_date (mkDate 2024 10 26)))) eq_refl C26).
  - rewrite T. exact C27.
  - rewrite Y. exact C27.
  - rewrite T. exact N.
  - rewrite Y. exact N.
Defined.

(** X4: over any sequence of transitions the longest streak never
    decreases, and a current streak that is not negative stays so. *)
Theorem longest_streak_monotone (zone : Z -> Date)
    (events : list (Z * string)) (s : Streak) :
  longestStreak s <= longestStreak (run_updates zone events s) /\
  (0 <= currentStreak s -> 0 <= currentStreak (run_updates zone events s)).
Proof.
  revert s. induction events as [| ev events IH]; intros s.
  - split; [apply Z.le_refl | tauto].
  - unfold run_updates. cbn [fold_left].
    fold (run_updates zone events (updateStreak zone (fst ev) (snd ev) s)).
    destruct (IH (updateStreak zone (fst ev) (snd ev) s)) as [IH1 IH2].
    assert (S1 : longestStreak s
                 <= longestStreak (updateStreak zone (fst ev) (snd ev) s)
                 /\ (0 <= currentStreak s ->
                     0 <= currentStreak
                            (updateStreak zone (fst ev) (snd ev) s))).
    { unfold updateStreak.
      destruct (option_eqb_string (lastActiveDate s)
                  (Some (format_date (zone (fst ev)))));
        [split; [lia | tauto] | ].
      cbn [longestStreak currentStreak negb]. split; [lia | ].
      intros P.
      destruct (option_eqb_string (lastActiveDate s)
                  (Some (format_date (zone (fst ev - 86400000))))
                || option_eqb_string (lastActiveDate s) None); lia. }
    destruct S1 as [S1 S2]. split; [lia | auto].
Qed.

(** ** Adding and deleting on the client *)

Lemma filter_all {A : Type} (p : A -> bool) (l : list A) :
  (forall x, In x l -> p x = true) -> filter p l = l.
Proof.
  induction l as [| a l IH]; intros H; [reflexivity | ].
  cbn [filter]. rewrite (H a (or_introl eq_refl)). f_equal.
  apply IH. intros x Hx. apply H. now right.
Qed.

(** X5: deleting the log that [addLog] has just added gives back the logs
    there were, provided its id was not in use; the activity types are
    untouched and the streak keeps the transition made by [addLog]. *)
Theorem addLog_deleteLog_roundtrip (nowMs : Z) (zone : Z -> Date)
    (updateMs : Z) (userId : option string) (activityTypeId date : string)
    (minutes : Z) (notes : option string) (st : ClientState) :
  (forall log, In log (logs st) ->
     log_id log <> ("log-" ++ string_of_Z nowMs)%string) ->
  let st' :=
    deleteLog ("log-" ++ string_of_Z nowMs)
      (addLog nowMs zone updateMs userId activityTypeId date minutes notes
         st) in
  logs st' = logs st /\
  activities st' = activities st /\
  streak st' = updateStreak zone updateMs date (streak st).
Proof.
  intros F. cbv zeta. unfold deleteLog, addLog. cbn [logs activities streak].
  split; [ | split; reflexivity].
  rewrite filter_app. cbn [filter log_id]. rewrite String.eqb_refl.
  cbn [negb]. rewrite app_nil_r. apply filter_all.
  intros x Hx. apply Bool.negb_true_iff, String.eqb_neq. now apply F.
Qed.

Lemma addLog_deleteLog_roundtrip_witness :
  logs
    (deleteLog ("log-" ++ string_of_Z 1700000000000)
       (addLog 1700000000000 (fixed_zone 0) 1700000000000 None "1"
          "2024-02-02" 45 None
          (mkClientState defaultActivities day_logs initialStreak)))
  = day_logs.
Proof.
  refine (proj1 (addLog_deleteLog_roundtrip 1700000000000 (fixed_zone 0)
                   1700000000000 None "1" "2024-02-02" 45 None
                   (mkClientState defaultActivities day_logs initialStreak)
                   _)).
  intros log Hin. cbn [logs] in Hin. unfold day_logs in Hin.
  destruct Hin as [<- | [<- | []]]; cbn; discriminate.
Defined.

(** X6: two logs added while the clock shows the same millisecond get the
    same id, and deleting by that id removes both of them. *)
Theorem addLog_same_millisecond (nowMs : Z) (zone1 zone2 : Z -> Date)
    (updateMs1 updateMs2 : Z)
    (user1 user2 : option string) (type1 type2 date1 date2 : string)
    (minutes1 minutes2 : Z) (notes1 notes2 : option string)
    (st : ClientState) :
  let id := ("log-" ++ string_of_Z nowMs)%string in
  let st2 :=
    addLog nowMs zone2 updateMs2 user2 type2 date2 minutes2 notes2
      (addLog nowMs zone1 updateMs1 user1 type1 date1 minutes1 notes1 st) in
  (exists log1 log2,
     logs st2 = logs st ++ [log1; log2] /\
     log_id log1 = id /\ log_id log2 = id /\
     log_minutes log1 = minutes1 /\ log_minutes log2 = minutes2) /\
  logs (deleteLog id st2) = logs (deleteLog id st).
Proof.
  cbv zeta. unfold addLog, deleteLog. cbn [logs]. split.
  - eexists. eexists. rewrite <- app_assoc. cbn [app].
    split; [reflexivity | ]. cbn [log_id log_minutes]. auto.
  - rewrite !filter_app. cbn [filter log_id]. rewrite String.eqb_refl.
    cbn [negb]. now rewrite !app_nil_r.
Qed.

Lemma find_app_found {A : Type} (p : A -> bool) (l1 l2 : list A) (x : A) :
  find p l1 = Some x -> find p (l1 ++ l2) = Some x.
Proof.
  induction l1 as [| a l1 IH]; cbn [find app]; [discriminate | ].
  destruct (p a); [tauto | exact IH].
Qed.

Lemma find_app_none {A : Type} (p : A -> bool) (l1 l2 : list A) :
  find p l1 = None -> find p (l1 ++ l2) = find p l2.
Proof.
  induction l1 as [| a l1 IH]; cbn [find app]; [reflexivity | ].
  destruct (p a); [discriminate | exact IH].
Qed.

(** X7: adding a custom activity leaves logs and streak as they were and
    never changes what an id that was already taken resolves to; the new
    activity, which is not a default one, is found under its id exactly
    when that id was free, and any other unknown id stays unknown. *)
Theorem addActivity_lookup (nowMs : Z) (userId : option string)
    (name icon color category : string) (st : ClientState) :
  let newId := ("custom-" ++ string_of_Z nowMs)%string in
  let newActivity :=
    mkActivityType newId (or_null userId) name icon color category false in
  let st' := addActivity nowMs userId name icon color category st in
  logs st' = logs st /\ streak st' = streak st /\
  (forall id t,
     getActivityById (activities st) id = Some t ->
     getActivityById (activities st') id = Some t) /\
  (getActivityById (activities st) newId = None ->
   getActivityById (activities st') newId = Some newActivity) /\
  (forall id,
     getActivityById (activities st) id = None -> id <> newId ->
     getActivityById (activities st') id = None).
Proof.
  cbv zeta. unfold addActivity, getActivityById. cbn [logs streak activities].
  split; [reflexivity | split; [reflexivity | split; [ | split]]].
  - intros id t H. now apply find_app_found.
  - intros H. rewrite find_app_none by assumption.
    cbn [find at_id]. now rewrite String.eqb_refl.
  - intros id H N. rewrite find_app_none by assumption.
    cbn [find at_id].
    replace (String.eqb ("custom-" ++ string_of_Z nowMs) id) with false
      by (symmetry; apply String.eqb_neq; congruence).
    reflexivity.
Qed.

Lemma addActivity_lookup_witness :
  getActivityById
    (activities
       (addActivity 17 None "Chess" "Clock" "#3B82F6" "leisure"
          (mkClientState defaultActivities [] initialStreak)))
    "custom-17"
  = Some (mkActivityType "custom-17" None "Chess" "Clock" "#3B82F6" "leisure"
            false).
Proof.
  exact (proj1 (proj2 (proj2 (proj2
           (addActivity_lookup 17 None "Chess" "Clock" "#3B82F6" "leisure"
              (mkClientState defaultActivities [] initialStreak)))))
           eq_refl).
Defined.

(** ** The form that adds a log *)

(** X8: with hours in 0..24 and minutes in 0..59 every stepper keeps both
    in range; stepping the minutes up adds exactly five minutes to the
    duration when at most 55 minutes are shown and the form is not at 24
    hours 55, and changes nothing at 24 hours with 55 minutes or more;
    stepping down takes exactly five minutes off when at least five
    minutes are shown, or none with a positive number of hours, and
    changes nothing below five minutes with zero hours. *)
Theorem time_steppers (f : AddActivityPage.FormValues) :
  let total g := AddActivityPage.hours g * 60 + AddActivityPage.minutes g in
  let in_range g :=
    0 <= AddActivityPage.hours g <= 24 /\
    0 <= AddActivityPage.minutes g <= 59 in
  in_range f ->
  in_range (AddActivityPage.incrementHours f) /\
  in_range (AddActivityPage.decrementHours f) /\
  in_range (AddActivityPage.incrementMinutes f) /\
  in_range (AddActivityPage.decrementMinutes f) /\
  (AddActivityPage.minutes f <= 55 ->
   AddActivityPage.hours f < 24 \/ AddActivityPage.minutes f < 55 ->
   total (AddActivityPage.incrementMinutes f) = total f + 5) /\
  (AddActivityPage.hours f = 24 -> 55 <= AddActivityPage.minutes f ->
   AddActivityPage.incrementMinutes f = f) /\
  (5 <= AddActivityPage.minutes f \/
   (AddActivityPage.minutes f = 0 /\ 0 < AddActivityPage.hours f) ->
   total (AddActivityPage.decrementMinutes f) = total f - 5) /\
  (AddActivityPage.hours f = 0 -> AddActivityPage.minutes f < 5 ->
   AddActivityPage.decrementMinutes f = f).
Proof.
  cbv zeta. destruct f as [a h m n].
  unfold AddActivityPage.incrementHours, AddActivityPage.decrementHours,
    AddActivityPage.incrementMinutes, AddActivityPage.decrementMinutes,
    AddActivityPage.setTime.
  cbn [AddActivityPage.hours AddActivityPage.minutes
       AddActivityPage.activityTypeId AddActivityPage.notes].
  intros [Hh Hm].
  destruct (Z.ltb_spec h 24), (Z.ltb_spec 0 h), (Z.ltb_spec m 55),
    (Z.leb_spec 5 m);
    cbn [AddActivityPage.hours AddActivityPage.minutes];
    repeat split; intros; try lia; try reflexivity.
Qed.

Lemma time_steppers_witness :
  AddActivityPage.hours
    (AddActivityPage.incrementMinutes
       (AddActivityPage.mkFormValues "1" 1 55 None)) * 60
  + AddActivityPage.minutes
      (AddActivityPage.incrementMinutes
         (AddActivityPage.mkFormValues "1" 1 55 None))
  = (1 * 60 + 55) + 5.
Proof.
  refine (proj1 (proj2 (proj2 (proj2 (proj2
            (time_steppers (AddActivityPage.mkFormValues "1" 1 55 None) _)))))
            _ _); cbn; lia.
Defined.

(** X9: submitting the form appends exactly one log when the values pass
    the schema (a non-empty activity id, hours in 0..24, minutes in 0..59)
    and the duration is not zero: the log is dated with the day of the
    last render, carries the activity id of the form and
    [60 * hours + minutes] minutes, a number between 1 and 1499, and the
    streak makes its transition.  In every other case the state is left as
    it is. *)
Theorem handleSubmit_adds_valid_log (today : string) (nowMs : Z)
    (zone : Z -> Date) (updateMs : Z) (userId : option string)
    (data : AddActivityPage.FormValues) (st : ClientState) :
  let st' :=
    AddActivityPage.handleSubmit today nowMs zone updateMs userId data st in
  let total :=
    AddActivityPage.hours data * 60 + AddActivityPage.minutes data in
  (AddActivityPage.activityTypeId data <> ""%string ->
   0 <= AddActivityPage.hours data <= 24 ->
   0 <= AddActivityPage.minutes data <= 59 ->
   total <> 0 ->
   exists log,
     logs st' = logs st ++ [log] /\
     activities st' = activities st /\
     streak st' = updateStreak zone updateMs today (streak st) /\
     log_id log = ("log-" ++ string_of_Z nowMs)%string /\
     log_date log = today /\
     log_activityTypeId log = AddActivityPage.activityTypeId data /\
     log_minutes log = total /\
     1 <= log_minutes log <= 1499) /\
  (AddActivityPage.activityTypeId data = ""%string
   \/ ~ 0 <= AddActivityPage.hours data <= 24
   \/ ~ 0 <= AddActivityPage.minutes data <= 59
   \/ total = 0 ->
   st' = st).
Proof.
  cbv zeta. unfold AddActivityPage.handleSubmit, AddActivityPage.onSubmit.
  split.
  - intros Ha Hh Hm Ht.
    replace (AddActivityPage.activitySchema data) with true.
    + destruct (Z.eqb_spec
                  (AddActivityPage.hours data * 60
                   + AddActivityPage.minutes data) 0) as [Z0 | Z0];
        [contradiction | ].
      eexists. unfold addLog. cbn [logs activities streak].
      split; [reflexivity | ].
      cbn [log_id log_date log_activityTypeId log_minutes].
      repeat split; lia.
    + symmetry. unfold AddActivityPage.activitySchema.
      repeat (apply Bool.andb_true_iff; split); try (apply Z.leb_le; lia).
      destruct (AddActivityPage.activityTypeId data);
        [contradiction | reflexivity].
  - intros H.
    destruct (AddActivityPage.activitySchema data) eqn:V; [ | reflexivity].
    unfold AddActivityPage.activitySchema in V.
    repeat (apply Bool.andb_true_iff in V; destruct V as [V ?]).
    destruct (Z.eqb_spec
                (AddActivityPage.hours data * 60
                 + AddActivityPage.minutes data) 0) as [Z0 | Z0];
      [reflexivity | ].
    exfalso. destruct H as [H | [H | [H | H]]].
    + rewrite H in V. discriminate.
    + apply H. split; apply Z.leb_le; assumption.
    + apply H. split; apply Z.leb_le; assumption.
    + contradiction.
Qed.

Lemma handleSubmit_adds_valid_log_witness :
  exists log,
    logs
      (AddActivityPage.handleSubmit "2024-02-02" 17 (fixed_zone 0) 17 None
         (AddActivityPage.mkFormValues "1" 1 30 None)
         (mkClientState defaultActivities day_logs initialStreak))
    = day_logs ++ [log]
    /\ log_minutes log = 1 * 60 + 30.
Proof.
  pose proof (proj1 (handleSubmit_adds_valid_log "2024-02-02" 17
                       (fixed_zone 0) 17 None
                       (AddActivityPage.mkFormValues "1" 1 30 None)
                       (mkClientState defaultActivities day_logs
                          initialStreak))) as T.
  cbv zeta in T. cbn [AddActivityPage.activityTypeId AddActivityPage.hours
                      AddActivityPage.minutes] in T.
  destruct T as (log & L & _ & _ & _ & _ & _ & M & _);
    [discriminate | lia | lia | lia | ].
  exists log. split; [exact L | exact M].
Defined.

(** ** More on the daily rollup *)

Lemma filter_partition_perm {A : Type} (p : A -> bool) (l : list A) :
  Permutation (filter p l ++ filter (fun x => negb (p x)) l) l.
Proof.
  induction l as [| a l IH]; [apply Permutation_refl | ].
  cbn [filter]. destruct (p a); cbn [negb app].
  - now apply perm_skip.
  - apply Permutation_sym. apply Permutation_cons_app.
    now apply Permutation_sym.
Qed.

Lemma entries_perm (o : JsObject.t) : Permutation (JsObject.entries o) o.
Proof.
  unfold JsObject.entries.
  rewrite sort_perm_any. apply filter_partition_perm.
Qed.

Lemma sum_perm (l1 l2 : list Z) :
  Permutation l1 l2 -> fold_right Z.add 0 l1 = fold_right Z.add 0 l2.
Proof. induction 1; cbn [fold_right]; lia. Qed.

Lemma sum_values_set (o : JsObject.t) (k : string) (v : Z) :
  fold_right Z.add 0 (map snd (JsObject.set o k v))
  = fold_right Z.add 0 (map snd o) - JsObject.get_or_zero o k + v.
Proof.
  unfold JsObject.get_or_zero.
  induction o as [| [k0 v0] o IH]; cbn [JsObject.set JsObject.get map snd fold_right].
  - lia.
  - destruct (String.eqb k0 k); cbn [map snd fold_right]; lia.
Qed.

Lemma sum_values_fold (select : ActivityLog -> bool) (l : list ActivityLog)
    (o : JsObject.t) :
  fold_right Z.add 0
    (map snd
       (fold_left
          (fun o log =>
             if select log
             then JsObject.add o (log_activityTypeId log) (log_minutes log)
             else o)
          l o))
  = fold_right Z.add 0 (map snd o)
    + fold_right Z.add 0 (map log_minutes (filter select l)).
Proof.
  revert o. induction l as [| a l IH]; intros o; cbn [fold_left filter].
  - cbn. lia.
  - rewrite IH. destruct (select a); [ | reflexivity].
    unfold JsObject.add. rewrite sum_values_set. cbn [map fold_right]. lia.
Qed.

Lemma keys_fold (select : ActivityLog -> bool) (l : list ActivityLog)
    (o : JsObject.t) (k : string) :
  In k
    (map fst
       (fold_left
          (fun o log =>
             if select log
             then JsObject.add o (log_activityTypeId log) (log_minutes log)
             else o)
          l o))
  <-> In k (map fst o)
      \/ exists log, In log l /\ select log = true
                     /\ log_activityTypeId log = k.
Proof.
  revert o. induction l as [| a l IH]; intros o; cbn [fold_left].
  - split; [tauto | intros [H | (log & [] & _)]; exact H].
  - rewrite IH. destruct (select a) eqn:Sa.
    + unfold JsObject.add. rewrite JsObjectFacts.set_keys. split.
      * intros [[-> | H] | (log & Hin & Hs & Ht)].
        -- right. exists a. cbn [In]. auto.
        -- now left.
        -- right. exists log. cbn [In]. auto.
      * intros [H | (log & [<- | Hin] & Hs & Ht)].
        -- left. now right.
        -- left. left. now symmetry.
        -- right. eauto.
    + split.
      * intros [H | (log & Hin & Hs & Ht)]; [now left | ].
        right. exists log. cbn [In]. auto.
      * intros [H | (log & [<- | Hin] & Hs & Ht)];
          [now left | congruence | right; eauto].
Qed.

Lemma minutes_of_nonneg (select : ActivityLog -> bool) (k : string)
    (l : list ActivityLog) :
  (forall log, In log l -> 0 <= log_minutes log) ->
  0 <= minutes_of select k l.
Proof.
  intros H. unfold minutes_of. induction l as [| a l IH]; cbn [filter map fold_right].
  - lia.
  - assert (0 <= log_minutes a) by (apply H; now left).
    assert (IH' : 0 <= fold_right Z.add 0
                         (map log_minutes
                            (filter
                               (fun log =>
                                  select log
                                  && String.eqb (log_activityTypeId log) k) l)))
      by (apply IH; intros log Hl; apply H; now right).
    destruct (select a && String.eqb (log_activityTypeId a) k);
      cbn [map fold_right]; lia.
Qed.

Lemma map_defined_sum_le {A B : Type} (f : A -> option B) (g : B -> Z)
    (h : A -> Z) (l : list A) :
  (forall x y, In x l -> f x = Some y -> g y = h x) ->
  (forall x, In x l -> 0 <= h x) ->
  fold_right Z.add 0 (map g (map_defined f l))
  <= fold_right Z.add 0 (map h l).
Proof.
  induction l as [| a l IH]; intros H1 H2; cbn [map_defined map fold_right].
  - lia.
  - assert (IH' : fold_right Z.add 0 (map g (map_defined f l))
                  <= fold_right Z.add 0 (map h l)).
    { apply IH; intros; [eapply H1 | apply H2]; eauto; now right. }
    pose proof (H2 a (or_introl eq_refl)).
    destruct (f a) as [y |] eqn:E; cbn [map fold_right]; [ | lia].
    rewrite (H1 a y (or_introl eq_refl) E). lia.
Qed.

Lemma map_defined_sum_eq {A B : Type} (f : A -> option B) (g : B -> Z)
    (h : A -> Z) (l : list A) :
  (forall x, In x l -> exists y, f x = Some y /\ g y = h x) ->
  fold_right Z.add 0 (map g (map_defined f l))
  = fold_right Z.add 0 (map h l).
Proof.
  induction l as [| a l IH]; intros H; cbn [map_defined map fold_right].
  - reflexivity.
  - destruct (H a (or_introl eq_refl)) as (y & E & Ey). rewrite E.
    cbn [map fold_right]. rewrite Ey, IH; [reflexivity | ].
    intros x Hx. apply H. now right.
Qed.

Lemma disjoint_filters_sum {A : Type} (p q : A -> bool) (g : A -> Z)
    (l : list A) :
  (forall x, In x l -> 0 <= g x) ->
  (forall x, p x = true -> q x = false) ->
  0 <= fold_right Z.add 0 (map g (filter p l)) /\
  0 <= fold_right Z.add 0 (map g (filter q l)) /\
  fold_right Z.add 0 (map g (filter p l))
  + fold_right Z.add 0 (map g (filter q l))
  <= fold_right Z.add 0 (map g l).
Proof.
  intros H D. induction l as [| a l IH]; cbn [filter map fold_right].
  - lia.
  - assert (0 <= g a) by (apply H; now left).
    destruct IH as (I1 & I2 & I3); [intros x Hx; apply H; now right | ].
    destruct (p a) eqn:Pa.
    + rewrite (D a Pa). cbn [map fold_right]. lia.
    + destruct (q a); cbn [map fold_right]; lia.
Qed.

Lemma element_le_sum {A : Type} (g : A -> Z) (l : list A) (x : A) :
  (forall y, In y l -> 0 <= g y) -> In x l ->
  g x <= fold_right Z.add 0 (map g l).
Proof.
  intros H. induction l as [| a l IH]; intros Hin; [destruct Hin | ].
  cbn [map fold_right].
  assert (0 <= g a) by (apply H; now left).
  assert (S : 0 <= fold_right Z.add 0 (map g l)).
  { clear IH Hin. induction l as [| b l IHl]; cbn [map fold_right]; [lia | ].
    assert (0 <= g b) by (apply H; right; now left).
    assert (0 <= fold_right Z.add 0 (map g l)).
    { apply IHl. intros y [<- | Hy]; apply H; [now left | right; now right]. }
    lia. }
  destruct Hin as [<- | Hin]; [lia | ].
  assert (g x <= fold_right Z.add 0 (map g l)).
  { apply IH; [ | assumption]. intros y Hy. apply H. now right. }
  lia.
Qed.

(** The dictionary of the daily rollup. *)
Lemma daily_dictionary (logs_ : list ActivityLog) (date : string) :
  let dayLogs := filter (fun log => String.eqb (log_date log) date) logs_ in
  let o :=
    fold_left
      (fun o log =>
         JsObject.add o (log_activityTypeId log) (log_minutes log))
      dayLogs JsObject.empty in
  NoDup (map fst o) /\
  fold_right Z.add 0 (map snd (JsObject.entries o)) = sum_by log_minutes dayLogs /\
  (forall k v, In (k, v) (JsObject.entries o) ->
     v = minutes_of (fun log => String.eqb (log_date log) date) k logs_ /\
     exists log, In log logs_ /\ log_date log = date
                 /\ log_activityTypeId log = k).
Proof.
  cbv zeta.
  set (dayLogs := filter (fun log => String.eqb (log_date log) date) logs_).
  destruct (JsObjectFacts.fold_add_spec (fun _ => true) dayLogs JsObject.empty)
    as [N G].
  cbv zeta in N, G.
  pose proof (sum_values_fold (fun _ => true) dayLogs JsObject.empty) as S.
  pose proof (keys_fold (fun _ => true) dayLogs JsObject.empty) as K.
  cbv beta iota in N, G, S, K.
  split; [apply N; constructor | split].
  - rewrite (sum_perm _ _ (Permutation_map snd (entries_perm _))).
    rewrite S, sum_by_fold_right. cbn [JsObject.empty map fold_right].
    rewrite (filter_all (fun _ => true)) by reflexivity. lia.
  - intros k v Hin. split.
    + rewrite (JsObjectFacts.In_get_or_zero _ k v (N ltac:(constructor)) Hin).
      rewrite G. unfold dayLogs. rewrite minutes_of_filter. reflexivity.
    + assert (Hk : In k (map fst
                           (fold_left
                              (fun o log =>
                                 JsObject.add o (log_activityTypeId log)
                                   (log_minutes log))
                              dayLogs JsObject.empty))).
      { apply (Permutation_in _ (entries_perm _)) in Hin.
        change k with (fst (k, v)). now apply in_map. }
      apply K in Hk. destruct Hk as [[] | (log & Hl & _ & Ht)].
      unfold dayLogs in Hl. apply filter_In in Hl. destruct Hl as [Hl Hd].
      apply String.eqb_eq in Hd. eauto.
Qed.

Lemma map_defined_NoDup {A B : Type} (f : A -> option B) (ka : A -> string)
    (kb : B -> string) (l : list A) :
  (forall x y, f x = Some y -> kb y = ka x) ->
  NoDup (map ka l) -> NoDup (map kb (map_defined f l)).
Proof.
  intros H. induction l as [| a l IH]; cbn [map map_defined]; intros N.
  - constructor.
  - inversion N as [| ? ? Hn Hd]; subst.
    destruct (f a) as [y |] eqn:E; [ | now apply IH].
    cbn [map]. constructor; [ | now apply IH].
    rewrite (H a y E). intros Hin. apply Hn.
    apply in_map_iff in Hin. destruct Hin as (y' & Ey & Hy).
    apply map_defined_In in Hy. destruct Hy as (x & Hx & Ex).
    rewrite (H x y' Ex) in Ey. rewrite <- Ey. now apply in_map.
Qed.

Lemma entries_keys_NoDup (o : JsObject.t) :
  NoDup (map fst o) -> NoDup (map fst (JsObject.entries o)).
Proof.
  intros N. apply (Permutation_NoDup
                     (Permutation_sym (Permutation_map fst (entries_perm o)))).
  exact N.
Qed.

(** X10: an activity type has at most one group in the daily breakdown,
    and every group stands for at least one log of the day. *)
Theorem daily_groups_unique (acts : list ActivityType)
    (logs_ : list ActivityLog) (date : string) :
  let s := getDailyStats acts logs_ date in
  NoDup (map (fun a => at_id (da_activityType a)) (ds_activities s)) /\
  (forall a, In a (ds_activities s) ->
     exists log, In log logs_ /\ log_date log = date /\
                 log_activityTypeId log = at_id (da_activityType a)).
Proof.
  cbv zeta. destruct (daily_dictionary logs_ date) as (N & _ & K).
  cbv zeta in N, K. unfold getDailyStats. cbn [ds_activities]. split.
  - apply (map_defined_NoDup _ fst); [ | now apply entries_keys_NoDup].
    intros [id minutes] y E.
    destruct (getActivityById acts id) as [t |] eqn:Et; [ | discriminate].
    injection E as <-. cbn [da_activityType fst].
    now apply (getActivityById_id acts).
  - intros a Ha. apply map_defined_In in Ha.
    destruct Ha as ([id minutes] & Hin & E).
    destruct (getActivityById acts id) as [t |] eqn:Et; [ | discriminate].
    injection E as <-. cbn [da_activityType].
    rewrite (getActivityById_id acts id t Et).
    now destruct (K id minutes Hin) as [_ HK].
Qed.

(** X11: when no log has negative minutes, the minutes of
    every group, their sum, and the productive and leisure minutes
    together stay within [totalMinutes]; when moreover every log of the
    day refers to a visible type, the groups add up to [totalMinutes]. *)
Theorem daily_minutes_bounds (acts : list ActivityType)
    (logs_ : list ActivityLog) (date : string) :
  (forall log, In log logs_ -> 0 <= log_minutes log) ->
  let s := getDailyStats acts logs_ date in
  let groups := fold_right Z.add 0 (map da_minutes (ds_activities s)) in
  (forall a, In a (ds_activities s) ->
     0 <= da_minutes a <= ds_totalMinutes s) /\
  groups <= ds_totalMinutes s /\
  0 <= ds_productiveMinutes s /\ 0 <= ds_leisureMinutes s /\
  ds_productiveMinutes s + ds_leisureMinutes s <= groups /\
  ((forall log, In log logs_ -> log_date log = date ->
      getActivityById acts (log_activityTypeId log) <> None) ->
   groups = ds_totalMinutes s).
Proof.
  intros P. cbv zeta.
  destruct (daily_dictionary logs_ date) as (N & S & K). cbv zeta in N, S, K.
  unfold getDailyStats.
  cbn [ds_activities ds_totalMinutes ds_productiveMinutes ds_leisureMinutes].
  rewrite <- S. rewrite !sum_by_fold_right.
  set (o := fold_left _ _ JsObject.empty) in *.
  set (total := fold_right Z.add 0 (map snd (JsObject.entries o))).
  set (f := fun '(activityTypeId, minutes) =>
              match getActivityById acts activityTypeId with
              | Some activityType =>
                  Some (mkDailyActivity activityType minutes
                          (percentage minutes total))
              | None => None
              end).
  assert (Hf : forall x y, In x (JsObject.entries o) -> f x = Some y ->
                 da_minutes y = snd x).
  { intros [id minutes] y _ E. unfold f in E.
    destruct (getActivityById acts id); [ | discriminate].
    now injection E as <-. }
  assert (Hv : forall x, In x (JsObject.entries o) -> 0 <= snd x).
  { intros [k v] Hin. destruct (K k v Hin) as [-> _]. cbn [snd].
    now apply minutes_of_nonneg. }
  assert (Hg : forall a, In a (map_defined f (JsObject.entries o)) ->
                 0 <= da_minutes a).
  { intros a Ha. apply map_defined_In in Ha. destruct Ha as (x & Hx & E).
    rewrite (Hf x a Hx E). now apply Hv. }
  pose proof (map_defined_sum_le f da_minutes snd (JsObject.entries o) Hf Hv)
    as LE.
  destruct (disjoint_filters_sum
              (fun a => String.eqb (at_category (da_activityType a)) "productive")
              (fun a => String.eqb (at_category (da_activityType a)) "leisure")
              da_minutes (map_defined f (JsObject.entries o)) Hg)
    as (D1 & D2 & D3).
  { intros x Hx. apply String.eqb_eq in Hx. rewrite Hx. reflexivity. }
  split; [ | split; [exact LE | split; [exact D1 | split; [exact D2 | split;
    [exact D3 | ]]]]].
  - intros a Ha. split; [now apply Hg | ].
    pose proof (element_le_sum da_minutes _ a Hg Ha). fold total. lia.
  - intros V. apply map_defined_sum_eq.
    intros [k v] Hin. destruct (K k v Hin) as [_ (log & Hl & Hd & Ht)].
    specialize (V log Hl Hd). rewrite Ht in V. unfold f.
    destruct (getActivityById acts k) as [t |]; [ | congruence].
    eexists. split; reflexivity.
Qed.

Lemma daily_minutes_bounds_witness :
  (forall log, In log day_logs -> 0 <= log_minutes log) /\
  fold_right Z.add 0
    (map da_minutes
       (ds_activities (getDailyStats defaultActivities day_logs "2024-02-02")))
  <= ds_totalMinutes (getDailyStats defaultActivities day_logs "2024-02-02").
Proof.
  assert (P : forall log, In log day_logs -> 0 <= log_minutes log).
  { intros log [<- | [<- | []]]; cbn; lia. }
  split; [exact P | ].
  exact (proj1 (proj2 (daily_minutes_bounds defaultActivities day_logs
                         "2024-02-02" P))).
Defined.

(** X12: a day without logs has the empty rollup: no minutes, no groups;
    and when that day is the one the clock shows, the minutes of today are
    zero. *)
Theorem daily_empty_day (acts : list ActivityType) (logs_ : list ActivityLog)
    (date : string) :
  (forall log, In log logs_ -> log_date log <> date) ->
  getDailyStats acts logs_ date = mkDailyStats date 0 [] 0 0 /\
  (forall now, format_date now = date -> getTodayMinutes now logs_ = 0).
Proof.
  intros H.
  assert (E : filter (fun log => String.eqb (log_date log) date) logs_ = []).
  { induction logs_ as [| a l IH]; [reflexivity | ].
    cbn [filter].
    replace (String.eqb (log_date a) date) with false
      by (symmetry; apply String.eqb_neq; apply H; now left).
    apply IH. intros log Hl. apply H. now right. }
  split.
  - unfold getDailyStats. rewrite E. reflexivity.
  - intros now <-. unfold getTodayMinutes. rewrite E. reflexivity.
Qed.

Lemma daily_empty_day_witness :
  getDailyStats defaultActivities day_logs "2024-02-03"
  = mkDailyStats "2024-02-03" 0 [] 0 0.
Proof.
  refine (proj1 (daily_empty_day defaultActivities day_logs "2024-02-03" _)).
  intros log [<- | [<- | []]]; cbn; discriminate.
Defined.

(** ** More on the weekly rollup *)

Lemma firstn_length_le {A : Type} (n : nat) (l : list A) :
  (List.length (firstn n l) <= n)%nat
  /\ (l <> [] -> (0 < n)%nat -> (1 <= List.length (firstn n l))%nat).
Proof.
  split.
  - rewrite length_firstn. apply Nat.le_min_l.
  - intros Hl Hn. destruct l as [| a l]; [congruence | ].
    destruct n as [| n]; [lia | ]. cbn. lia.
Qed.

(** X13: the weekly insights hold between one and three sentences; the
    sentences about single activities come first, in the order of the
    breakdown, so that with three or more of them neither the leisure
    warning nor the health advice is shown. *)
Theorem weekly_insights_bounds (activityBreakdown : list WeeklyActivity)
    (totalMinutes : Z) :
  let insights := generateWeeklyInsights activityBreakdown totalMinutes in
  (1 <= List.length insights <= 3)%nat /\
  (exists rest,
     insights = firstn 3 (change_sentences activityBreakdown ++ rest)
     /\ (List.length rest <= 2)%nat) /\
  ((3 <= List.length (change_sentences activityBreakdown))%nat ->
   insights = firstn 3 (change_sentences activityBreakdown)).
Proof.
  cbv zeta. unfold generateWeeklyInsights.
  fold (change_sentences activityBreakdown).
  set (d := change_sentences activityBreakdown).
  set (c1 := Qlt_bool _ _). set (c2 := _ <? 180).
  assert (E : exists rest,
            (let insights := if c1 then d ++ ["You're spending a lot of time on leisure activities. Consider balancing with productive tasks."%string] else d in
             let insights := if c2 then insights ++ ["Try to add more health-focused activities like exercise or meditation."%string] else insights in
             if (List.length insights =? 0)%nat
             then insights ++ ["Great job maintaining a balanced week!"%string]
             else insights) = d ++ rest
            /\ (List.length rest <= 2)%nat /\ d ++ rest <> []).
  { cbv zeta. destruct c1, c2; rewrite <- ?app_assoc; cbn [app].
    - eexists. rewrite length_app. cbn [List.length].
      replace (_ =? 0)%nat with false by (symmetry; apply Nat.eqb_neq; lia).
      split; [reflexivity | split; [cbn; lia | ]].
      intros C. apply app_eq_nil in C. destruct C; discriminate.
    - eexists. rewrite length_app. cbn [List.length].
      replace (_ =? 0)%nat with false by (symmetry; apply Nat.eqb_neq; lia).
      split; [reflexivity | split; [cbn; lia | ]].
      intros C. apply app_eq_nil in C. destruct C; discriminate.
    - eexists. rewrite length_app. cbn [List.length].
      replace (_ =? 0)%nat with false by (symmetry; apply Nat.eqb_neq; lia).
      split; [reflexivity | split; [cbn; lia | ]].
      intros C. apply app_eq_nil in C. destruct C; discriminate.
    - destruct d as [| x d'].
      + exists ["Great job maintaining a balanced week!"%string].
        cbn. split; [reflexivity | split; [lia | discriminate]].
      + exists []. cbn [List.length Nat.eqb]. rewrite app_nil_r.
        split; [reflexivity | split; [cbn; lia | discriminate]]. }
  cbv zeta in E. destruct E as (rest & E & Lr & Ne). rewrite E.
  destruct (firstn_length_le 3 (d ++ rest)) as [L1 L2].
  split; [split; [apply L2; [exact Ne | lia] | exact L1] | split].
  - exists rest. split; [reflexivity | exact Lr].
  - intros L3. rewrite firstn_app.
    replace (3 - List.length d)%nat with 0%nat by lia.
    cbn [firstn]. apply app_nil_r.
Qed.

Lemma weekly_insights_bounds_witness :
  (3 <= List.length
          (change_sentences
             (map (fun n => mkWeeklyActivity
                              (mkActivityType n None n "Clock" "#3B82F6"
                                 "leisure" true) 30 0 100)
                ["a"; "b"; "c"]%string)))%nat /\
  List.length
    (generateWeeklyInsights
       (map (fun n => mkWeeklyActivity
                        (mkActivityType n None n "Clock" "#3B82F6" "leisure"
                           true) 30 0 100)
          ["a"; "b"; "c"]%string) 90)
  = 3%nat.
Proof.
  assert (L : (3 <= List.length
                      (change_sentences
                         (map (fun n => mkWeeklyActivity
                                          (mkActivityType n None n "Clock"
                                             "#3B82F6" "leisure" true)
                                          30 0 100)
                            ["a"; "b"; "c"]%string)))%nat).
  { vm_compute. lia. }
  split; [exact L | ].
  rewrite (proj2 (proj2 (weekly_insights_bounds _ 90)) L).
  vm_compute. reflexivity.
Defined.

Lemma subWeeks_one (d : Date) :
  valid_date d -> day_number (subWeeks d 1) = day_number d - 7.
Proof.
  intros H. unfold subWeeks.
  destruct (addDays_spec d (- (7 * 1)) H) as [_ E]. rewrite E. lia.
Qed.

(** X14: the weekly breakdown counts a log in the current week exactly
    when its date parses to one of the seven days from the Monday of the
    anchor's week on, and in the previous week exactly when it parses to
    one of the seven days before that Monday; no log is counted in both
    and a log whose date does not parse is counted in neither. *)
Theorem weekly_windows (parseISO : string -> option Date) (anchor : Date)
    (log : ActivityLog) :
  valid_date anchor ->
  let monday := day_number (startOfWeek anchor 1) in
  (in_current_week parseISO anchor log = true <->
   exists d, parseISO (log_date log) = Some d
             /\ monday <= day_number d <= monday + 6) /\
  (in_previous_week parseISO anchor log = true <->
   exists d, parseISO (log_date log) = Some d
             /\ monday - 7 <= day_number d <= monday - 1) /\
  (in_current_week parseISO anchor log = true ->
   in_previous_week parseISO anchor log = false) /\
  (parseISO (log_date log) = None ->
   in_current_week parseISO anchor log = false
   /\ in_previous_week parseISO anchor log = false).
Proof.
  intros V. cbv zeta.
  destruct (startOfWeek_monday anchor V) as (Vs & _ & _).
  pose proof (endOfWeek_sunday anchor V) as Ee.
  pose proof (subWeeks_one (startOfWeek anchor 1) Vs) as Ps.
  assert (Ve : valid_date (endOfWeek anchor 1)).
  { unfold endOfWeek. now apply addDays_spec. }
  pose proof (subWeeks_one (endOfWeek anchor 1) Ve) as Pe.
  unfold in_current_week, in_previous_week, in_interval.
  rewrite Ps, Pe, Ee.
  destruct (parseISO (log_date log)) as [d |].
  - split; [ | split; [ | split]].
    + rewrite Bool.andb_true_iff, !Z.leb_le. split.
      * intros H. exists d. split; [reflexivity | lia].
      * intros (d' & E & H). injection E as <-. lia.
    + rewrite !Bool.andb_true_iff, Bool.negb_true_iff, Bool.andb_false_iff,
        !Z.leb_le, !Z.leb_gt. split.
      * intros H. exists d. split; [reflexivity | lia].
      * intros (d' & E & H). injection E as <-. lia.
    + intros H. rewrite H. reflexivity.
    + discriminate.
  - split; [split; [discriminate | intros (d' & E & _); discriminate] | ].
    split; [split; [discriminate | intros (d' & E & _); discriminate] | ].
    split; [discriminate | auto].
Qed.

Lemma weekly_windows_witness :
  valid_date (mkDate 2024 3 3) /\
  in_previous_week parseISO_ymd (mkDate 2024 3 3)
    (sample_log "log-2" "4" "2024-02-20" 400)
  = true.
Proof.
  assert (V : valid_date (mkDate 2024 3 3)).
  { unfold valid_date. cbn. lia. }
  split; [exact V | ].
  apply (proj1 (proj2 (weekly_windows parseISO_ymd (mkDate 2024 3 3)
                         (sample_log "log-2" "4" "2024-02-20" 400) V))).
  exists (mkDate 2024 2 20). split; [reflexivity | ]. vm_compute.
  split; discriminate.
Defined.

(** X15: an activity type has at most one entry in the weekly breakdown;
    every entry stands for a log counted in the current week, and every
    log counted in the current week whose type is visible has its type in
    the breakdown (a type logged only in the week before has none). *)
Theorem weekly_breakdown_members (acts : list ActivityType)
    (logs_ : list ActivityLog) (parseISO : string -> option Date)
    (anchor : Date) :
  let w := getWeeklyStats acts logs_ parseISO anchor in
  NoDup (map (fun a => at_id (wa_activityType a)) (ws_activityBreakdown w)) /\
  (forall a, In a (ws_activityBreakdown w) ->
     exists log, In log logs_ /\ in_current_week parseISO anchor log = true
                 /\ log_activityTypeId log = at_id (wa_activityType a)) /\
  (forall log t, In log logs_ ->
     in_current_week parseISO anchor log = true ->
     getActivityById acts (log_activityTypeId log) = Some t ->
     exists a, In a (ws_activityBreakdown w) /\ wa_activityType a = t).
Proof.
  cbv zeta. unfold getWeeklyStats. rewrite weekByActivity_split.
  cbn [ws_activityBreakdown].
  destruct (JsObjectFacts.fold_add_spec (in_current_week parseISO anchor)
              logs_ JsObject.empty) as [Nc _].
  cbv zeta in Nc. specialize (Nc ltac:(constructor)).
  pose proof (keys_fold (in_current_week parseISO anchor) logs_
                JsObject.empty) as K.
  set (cur := fold_left _ logs_ JsObject.empty) in *.
  set (prv := fold_left _ logs_ JsObject.empty).
  set (f := fun '(activityTypeId, minutes) =>
              let previousWeekMinutes :=
                JsObject.get_or_zero prv activityTypeId in
              match getActivityById acts activityTypeId with
              | Some activityType =>
                  Some (mkWeeklyActivity activityType minutes
                          previousWeekMinutes
                          (changePercentage minutes previousWeekMinutes))
              | None => None
              end).
  assert (Hf : forall x y, f x = Some y -> at_id (wa_activityType y) = fst x).
  { intros [id minutes] y E. unfold f in E. cbv zeta in E.
    destruct (getActivityById acts id) as [t |] eqn:Et; [ | discriminate].
    injection E as <-. cbn [wa_activityType fst].
    now apply (getActivityById_id acts). }
  split; [ | split].
  - apply (Permutation_NoDup
             (Permutation_sym
                (Permutation_map _ (sort_perm_any _ _)))).
    apply (map_defined_NoDup f fst); [exact Hf | ].
    now apply entries_keys_NoDup.
  - intros a Ha. apply (Permutation_in _ (sort_perm_any _ _)) in Ha.
    apply map_defined_In in Ha. destruct Ha as ([id minutes] & Hin & E).
    rewrite (Hf _ _ E). cbn [fst].
    assert (Hk : In id (map fst cur)).
    { apply (Permutation_in _ (entries_perm _)) in Hin.
      change id with (fst (id, minutes)). now apply in_map. }
    apply K in Hk. destruct Hk as [[] | (log & Hl & Hs & Ht)]. eauto.
  - intros log t Hl Hs Et.
    assert (Hk : In (log_activityTypeId log) (map fst cur)).
    { apply K. right. eauto. }
    apply in_map_iff in Hk. destruct Hk as ([id minutes] & Ek & Hin).
    cbn [fst] in Ek. subst id.
    apply (Permutation_in _ (Permutation_sym (entries_perm _))) in Hin.
    exists (mkWeeklyActivity t minutes
              (JsObject.get_or_zero prv (log_activityTypeId log))
              (changePercentage minutes
                 (JsObject.get_or_zero prv (log_activityTypeId log)))).
    split; [ | reflexivity].
    apply (Permutation_in _ (Permutation_sym (sort_perm_any _ _))).
    apply map_defined_In. exists (log_activityTypeId log, minutes).
    split; [exact Hin | ]. unfold f. cbv zeta. now rewrite Et.
Qed.

Lemma weekly_breakdown_members_witness :
  exists a,
    In a (ws_activityBreakdown
            (getWeeklyStats defaultActivities week_logs parseISO_ymd
               (mkDate 2024 3 3)))
    /\ wa_activityType a
       = mkActivityType "1" None "Work" "Briefcase" "#3B82F6" "productive"
           true.
Proof.
  assert (H1 : In (sample_log "log-1" "1" "2024-02-28" 30) week_logs)
    by (left; reflexivity).
  assert (H2 : in_current_week parseISO_ymd (mkDate 2024 3 3)
                 (sample_log "log-1" "1" "2024-02-28" 30) = true)
    by (vm_compute; reflexivity).
  assert (H3 : getActivityById defaultActivities
                 (log_activityTypeId (sample_log "log-1" "1" "2024-02-28" 30))
               = Some (mkActivityType "1" None "Work" "Briefcase" "#3B82F6"
                         "productive" true))
    by (vm_compute; reflexivity).
  exact (proj2 (proj2 (weekly_breakdown_members defaultActivities week_logs
                         parseISO_ymd (mkDate 2024 3 3))) _ _ H1 H2 H3).
Defined.

(** ** More on the monthly rollup *)

Lemma dictionary_of_filter (q : ActivityLog -> bool)
    (logs_ : list ActivityLog) :
  let o :=
    fold_left
      (fun o log =>
         JsObject.add o (log_activityTypeId log) (log_minutes log))
      (filter q logs_) JsObject.empty in
  NoDup (map fst o) /\
  (forall k v, In (k, v) (JsObject.entries o) ->
     v = minutes_of q k logs_) /\
  (forall k, In k (map fst (JsObject.entries o)) <->
     exists log, In log logs_ /\ q log = true /\ log_activityTypeId log = k).
Proof.
  cbv zeta.
  destruct (JsObjectFacts.fold_add_spec (fun _ => true) (filter q logs_)
              JsObject.empty) as [N G].
  cbv zeta in N, G.
  pose proof (keys_fold (fun _ => true) (filter q logs_) JsObject.empty) as K.
  cbv beta iota in N, G, K.
  split; [apply N; constructor | split].
  - intros k v Hin.
    rewrite (JsObjectFacts.In_get_or_zero _ k v (N ltac:(constructor)) Hin).
    rewrite G, minutes_of_filter. reflexivity.
  - intros k. split.
    + intros Hk.
      apply (Permutation_in _ (Permutation_map fst (entries_perm _))) in Hk.
      apply K in Hk. destruct Hk as [[] | (log & Hl & _ & Ht)].
      apply filter_In in Hl. destruct Hl. eauto.
    + intros (log & Hl & Hq & Ht).
      apply (Permutation_in _
               (Permutation_sym (Permutation_map fst (entries_perm _)))).
      apply K. right. exists log. split; [ | auto].
      apply filter_In. auto.
Qed.

Lemma In_firstn {A : Type} (n : nat) (l : list A) (x : A) :
  In x (firstn n l) -> In x l.
Proof.
  revert l. induction n as [| n IH]; intros [| a l]; cbn [firstn In]; try tauto.
  intros [-> | H]; [now left | right; now apply IH].
Qed.

Lemma StronglySorted_firstn {A : Type} (R : A -> A -> Prop) (n : nat)
    (l : list A) :
  StronglySorted R l -> StronglySorted R (firstn n l).
Proof.
  intros S. revert n. induction S as [| a l S IH F]; intros [| n]; cbn [firstn];
    try constructor.
  - apply IH.
  - rewrite Forall_forall in *. intros x Hx. apply F. now apply (In_firstn n).
Qed.

Lemma NoDup_firstn {A : Type} (n : nat) (l : list A) :
  NoDup l -> NoDup (firstn n l).
Proof.
  intros N. revert n. induction N as [| a l Hn N IH]; intros [| n];
    cbn [firstn]; try constructor.
  - intros H. apply Hn. now apply (In_firstn n).
  - apply IH.
Qed.

Lemma StronglySorted_app_le {A : Type} (R : A -> A -> Prop) (l1 l2 : list A) :
  StronglySorted R (l1 ++ l2) ->
  forall x y, In x l1 -> In y l2 -> R x y.
Proof.
  induction l1 as [| a l1 IH]; cbn [app]; intros S x y Hx Hy; [destruct Hx | ].
  inversion S as [| ? ? S' F]; subst.
  destruct Hx as [<- | Hx]; [ | now apply IH].
  rewrite Forall_forall in F. apply F. apply in_or_app. now right.
Qed.

(** X16: the top activities of a month are at most five visible types,
    each once, in descending order of the minutes of the logs whose date
    starts with the month; a visible type with such logs that is left out
    has no more minutes than any of the five; and there are between one
    and four suggestions. *)
Theorem monthly_top_activities (acts : list ActivityType)
    (logs_ : list ActivityLog) (anchor : Date) :
  let ms := getMonthlyStats acts logs_ anchor in
  let in_month log := String.prefix (format_month anchor) (log_date log) in
  (List.length (ms_topActivities ms) <= 5)%nat /\
  StronglySorted (fun a b => ta_minutes b <= ta_minutes a)
    (ms_topActivities ms) /\
  NoDup (map (fun a => at_id (ta_activityType a)) (ms_topActivities ms)) /\
  (forall a, In a (ms_topActivities ms) ->
     getActivityById acts (at_id (ta_activityType a))
     = Some (ta_activityType a) /\
     ta_minutes a = minutes_of in_month (at_id (ta_activityType a)) logs_) /\
  (forall log t, In log logs_ -> in_month log = true ->
     getActivityById acts (log_activityTypeId log) = Some t ->
     (exists a, In a (ms_topActivities ms) /\ ta_activityType a = t) \/
     (forall a, In a (ms_topActivities ms) ->
        minutes_of in_month (log_activityTypeId log) logs_ <= ta_minutes a)) /\
  (1 <= List.length (ms_suggestions ms) <= 4)%nat.
Proof.
  cbv zeta. unfold getMonthlyStats.
  cbn [ms_topActivities ms_suggestions].
  set (q := fun log => String.prefix (format_month anchor) (log_date log)).
  destruct (dictionary_of_filter q logs_) as (N & V & K). cbv zeta in N, V, K.
  set (o := fold_left _ (filter q logs_) JsObject.empty) in *.
  set (f := fun '(activityTypeId, minutes) =>
              match getActivityById acts activityTypeId with
              | Some activityType => Some (mkTopActivity activityType minutes)
              | None => None
              end).
  set (ranked := sort (fun a b => ta_minutes b - ta_minutes a)
                   (map_defined f (JsObject.entries o))).
  assert (Hf : forall x y, f x = Some y ->
                 at_id (ta_activityType y) = fst x /\ ta_minutes y = snd x
                 /\ getActivityById acts (fst x) = Some (ta_activityType y)).
  { intros [id minutes] y E. unfold f in E.
    destruct (getActivityById acts id) as [t |] eqn:Et; [ | discriminate].
    injection E as <-. cbn [ta_activityType ta_minutes fst snd].
    split; [now apply (getActivityById_id acts) | auto]. }
  assert (Sr : StronglySorted (fun a b => ta_minutes b <= ta_minutes a) ranked)
    by apply (sort_sorted ta_minutes).
  assert (Hr : forall a, In a ranked ->
                 getActivityById acts (at_id (ta_activityType a))
                 = Some (ta_activityType a)
                 /\ ta_minutes a
                    = minutes_of q (at_id (ta_activityType a)) logs_).
  { intros a Ha. apply (Permutation_in _ (sort_perm_any _ _)) in Ha.
    apply map_defined_In in Ha. destruct Ha as ([id minutes] & Hin & E).
    destruct (Hf _ _ E) as (E1 & E2 & E3). cbn [fst snd] in *.
    rewrite E1, E2. split; [exact E3 | now apply V]. }
  split; [apply firstn_length_le | ].
  split; [now apply StronglySorted_firstn | ].
  split; [ | split; [ | split]].
  - rewrite <- firstn_map. apply NoDup_firstn.
    apply (Permutation_NoDup
             (Permutation_sym (Permutation_map _ (sort_perm_any _ _)))).
    apply (map_defined_NoDup f fst);
      [intros x y E; apply (Hf x y E) | now apply entries_keys_NoDup].
  - intros a Ha. apply Hr. now apply (In_firstn 5).
  - intros log t Hl Hq Et.
    assert (Hk : In (log_activityTypeId log) (map fst (JsObject.entries o))).
    { apply K. eauto. }
    apply in_map_iff in Hk. destruct Hk as ([id minutes] & Ek & Hin).
    cbn [fst] in Ek. subst id.
    assert (Hin' : In (mkTopActivity t minutes) ranked).
    { apply (Permutation_in _ (Permutation_sym (sort_perm_any _ _))).
      apply map_defined_In. exists (log_activityTypeId log, minutes).
      split; [exact Hin | ]. unfold f. now rewrite Et. }
    rewrite <- (firstn_skipn 5 ranked) in Hin'. apply in_app_or in Hin'.
    destruct Hin' as [H5 | H5].
    + left. exists (mkTopActivity t minutes). auto.
    + right. intros a Ha.
      rewrite <- (V _ _ Hin).
      rewrite <- (firstn_skipn 5 ranked) in Sr.
      exact (StronglySorted_app_le _ _ _ Sr a (mkTopActivity t minutes) Ha H5).
  - set (tops := firstn 5 ranked). set (total := sum_by hm_minutes _).
    unfold generateMonthlySuggestions.
    repeat match goal with
           | |- context [match ?x with Some _ => _ | None => _ end] =>
               destruct x
           | |- context [if ?c then _ else _] =>
               lazymatch c with
               | context [List.length] => fail
               | _ => destruct c
               end
           end; cbn; lia.
Qed.

Lemma monthly_top_activities_witness :
  let ms := getMonthlyStats defaultActivities month_logs (mkDate 2024 2 15) in
  let a :=
    mkTopActivity
      (mkActivityType "1" None "Work" "Briefcase" "#3B82F6" "productive" true)
      10 in
  In a (ms_topActivities ms) /\
  ta_minutes a
  = minutes_of
      (fun log => String.prefix (format_month (mkDate 2024 2 15)) (log_date log))
      (at_id (ta_activityType a)) month_logs.
Proof.
  cbv zeta.
  assert (I : In (mkTopActivity
                    (mkActivityType "1" None "Work" "Briefcase" "#3B82F6"
                       "productive" true) 10)
                (ms_topActivities
                   (getMonthlyStats defaultActivities month_logs
                      (mkDate 2024 2 15))))
    by (vm_compute; left; reflexivity).
  split; [exact I | ].
  exact (proj2 (proj1 (proj2 (proj2 (proj2
           (monthly_top_activities defaultActivities month_logs
              (mkDate 2024 2 15))))) _ I)).
Defined.

(** ** The store of the server *)

Section MapFacts.
Context {V : Type}.

Lemma map_set_keys (m : list (string * V)) (k : string) (v : V) (k' : string) :
  In k' (map fst (Server.map_set m k v)) <-> k' = k \/ In k' (map fst m).
Proof.
  induction m as [| [k0 v0] m IH]; cbn [Server.map_set map fst In].
  - intuition congruence.
  - destruct (String.eqb k0 k) eqn:E; cbn [map fst In].
    + apply String.eqb_eq in E. subst k0. intuition congruence.
    + rewrite IH. tauto.
Qed.

Lemma map_set_NoDup (m : list (string * V)) (k : string) (v : V) :
  NoDup (map fst m) -> NoDup (map fst (Server.map_set m k v)).
Proof.
  induction m as [| [k0 v0] m IH]; cbn [Server.map_set map fst]; intros H.
  - constructor; [intros [] | constructor].
  - inversion H as [| ? ? Hn Hd]; subst.
    destruct (String.eqb k0 k) eqn:E; cbn [map fst].
    + now constructor.
    + constructor; [ | now apply IH].
      rewrite map_set_keys. intros [-> | Hin]; [ | contradiction].
      now rewrite String.eqb_refl in E.
Qed.

Lemma map_set_In (m : list (string * V)) (k : string) (v : V)
    (k' : string) (v' : V) :
  In (k', v') (Server.map_set m k v) ->
  (k' = k /\ v' = v) \/ In (k', v') m.
Proof.
  induction m as [| [k0 v0] m IH]; cbn [Server.map_set In].
  - intros [[= <- <-] | []]. now left.
  - destruct (String.eqb k0 k) eqn:E; cbn [In].
    + apply String.eqb_eq in E. subst k0.
      intros [[= <- <-] | H]; [now left | right; now right].
    + intros [H | H]; [right; now left | ].
      destruct (IH H) as [H' | H']; [now left | right; now right].
Qed.

Lemma map_set_fresh (m : list (string * V)) (k : string) (v : V) :
  fresh_key m k -> Server.map_set m k v = m ++ [(k, v)].
Proof.
  unfold fresh_key. induction m as [| [k0 v0] m IH]; intros F;
    cbn [Server.map_set app]; [reflexivity | ].
  replace (String.eqb k0 k) with false
    by (symmetry; apply String.eqb_neq; apply (F (k0, v0)); now left).
  f_equal. apply IH. intros kv H. apply F. now right.
Qed.

Lemma map_set_present (m : list (string * V)) (k : string) (v : V) :
  ~ fresh_key m k ->
  exists m1 v0 m2,
    m = m1 ++ (k, v0) :: m2 /\ Server.map_set m k v = m1 ++ (k, v) :: m2.
Proof.
  unfold fresh_key. induction m as [| [k0 v0] m IH]; intros F.
  - exfalso. apply F. intros kv [].
  - cbn [Server.map_set]. destruct (String.eqb k0 k) eqn:E.
    + apply String.eqb_eq in E. subst k0. exists [], v0, m. auto.
    + destruct IH as (m1 & v1 & m2 & E1 & E2).
      * intros C. apply F. intros kv [<- | H]; [ | now apply C].
        cbn [fst]. now apply String.eqb_neq.
      * exists ((k0, v0) :: m1), v1, m2. cbn [app]. now rewrite E1, E2 at 1.
Qed.

Lemma fresh_key_dec (m : list (string * V)) (k : string) :
  fresh_key m k \/ ~ fresh_key m k.
Proof.
  unfold fresh_key. induction m as [| [k0 v0] m IH].
  - left. intros kv [].
  - destruct (String.eqb_spec k0 k) as [-> | N].
    + right. intros C. apply (C (k, v0)); [now left | reflexivity].
    + destruct IH as [F | F].
      * left. intros kv [<- | H]; [exact N | now apply F].
      * right. intros C. apply F. intros kv H. apply C. now right.
Qed.

Lemma map_set_same (m : list (string * V)) (k : string) (v : V) :
  NoDup (map fst m) -> In (k, v) m -> Server.map_set m k v = m.
Proof.
  induction m as [| [k0 v0] m IH]; cbn [map fst In Server.map_set]; [tauto | ].
  intros N H. inversion N as [| ? ? Hn Hd]; subst.
  destruct (String.eqb_spec k0 k) as [-> | Ne].
  - destruct H as [[= <-] | H]; [reflexivity | ].
    exfalso. apply Hn. change k with (fst (k, v)). now apply in_map.
  - f_equal. apply IH; [assumption | ]. destruct H as [[= E _] | H]; tauto.
Qed.

Lemma keyed_map_set (key : V -> string) (m : list (string * V)) (k : string)
    (v : V) :
  keyed_by key m -> key v = k -> keyed_by key (Server.map_set m k v).
Proof.
  intros [N K] E. split; [now apply map_set_NoDup | ].
  intros k' v' H. apply map_set_In in H.
  destruct H as [[-> ->] | H]; [exact E | now apply K].
Qed.

Lemma keyed_filter (key : V -> string) (m : list (string * V))
    (p : string * V -> bool) :
  keyed_by key m -> keyed_by key (filter p m).
Proof.
  intros [N K]. split.
  - clear K. induction m as [| a m IH]; [constructor | ].
    cbn [map] in N. inversion N as [| ? ? Hn Hd]; subst.
    cbn [filter]. destruct (p a); [ | now apply IH].
    cbn [map]. constructor; [ | now apply IH].
    intros C. apply Hn. apply in_map_iff in C.
    destruct C as (x & Ex & Hx). apply filter_In in Hx.
    rewrite <- Ex. apply in_map. tauto.
  - intros k v H. apply filter_In in H. now apply K.
Qed.

Lemma map_has_fresh (m : list (string * V)) (k : string) :
  Server.map_has m k = false <-> fresh_key m k.
Proof.
  unfold Server.map_has, fresh_key. induction m as [| [k0 v0] m IH];
    cbn [existsb fst].
  - split; [intros _ kv [] | reflexivity].
  - rewrite Bool.orb_false_iff, IH. split.
    + intros [E F] kv [<- | H]; [now apply String.eqb_neq | now apply F].
    + intros F. split.
      * apply String.eqb_neq. apply (F (k0, v0)). now left.
      * intros kv H. apply F. now right.
Qed.

Lemma delete_fresh (m : list (string * V)) (k : string) :
  fresh_key m k -> filter (fun kv => negb (String.eqb (fst kv) k)) m = m.
Proof.
  intros F. apply filter_all. intros kv H.
  apply Bool.negb_true_iff, String.eqb_neq. now apply F.
Qed.

Lemma delete_is_fresh (m : list (string * V)) (k : string) :
  fresh_key (filter (fun kv => negb (String.eqb (fst kv) k)) m) k.
Proof.
  intros kv H. apply filter_In in H. destruct H as [_ H].
  now apply Bool.negb_true_iff, String.eqb_neq in H.
Qed.
End MapFacts.

(** X17: [DELETE /api/logs/:id] answers 404 exactly when no log is stored
    under the id, and then leaves the store as it is; otherwise it answers
    200 and a second request for the same id answers 404. *)
Theorem deleteLogRoute_status (id : string) (st : Server.MemStorage) :
  let r := Server.deleteLogRoute id st in
  (fst r = 404 \/ fst r = 200) /\
  (fst r = 404 <-> fresh_key (Server.activityLogs st) id) /\
  (fst r = 404 -> snd r = st) /\
  fst (Server.deleteLogRoute id (snd r)) = 404.
Proof.
  cbv zeta. unfold Server.deleteLogRoute, Server.deleteActivityLog,
    Server.map_delete.
  pose proof (delete_is_fresh (Server.activityLogs st) id) as F2.
  apply map_has_fresh in F2.
  destruct (Server.map_has (Server.activityLogs st) id) eqn:E;
    cbn [fst snd Server.activityLogs]; rewrite F2; cbn [fst].
  - split; [now right | split; [ | split; [discriminate | reflexivity]]].
    split; [discriminate | ]. intros F. apply map_has_fresh in F. congruence.
  - apply map_has_fresh in E.
    split; [now left | split; [tauto | split; [ | reflexivity]]].
    intros _. rewrite (delete_fresh _ _ E). now destruct st.
Qed.

(** X18: a log created under an id that is not in use is the last of its
    user's logs, the logs of the other users are as before, and deleting
    it again gives back the store there was. *)
Theorem createActivityLog_roundtrip (id : string) (nowMs : Z)
    (userId activityTypeId date : string) (minutes : Z)
    (notes : option string) (st : Server.MemStorage) :
  fresh_key (Server.activityLogs st) id ->
  let newLog :=
    fst (Storage.createActivityLog id nowMs userId activityTypeId date minutes
           notes st) in
  let st' :=
    snd (Storage.createActivityLog id nowMs userId activityTypeId date minutes
           notes st) in
  log_id newLog = id /\ log_minutes newLog = minutes /\
  Storage.getActivityLogs st' userId
  = Storage.getActivityLogs st userId ++ [newLog] /\
  (forall other, other <> userId ->
     Storage.getActivityLogs st' other = Storage.getActivityLogs st other) /\
  Server.deleteActivityLog id st' = (true, st).
Proof.
  intros F. cbv zeta. unfold Storage.createActivityLog. cbn [fst snd].
  split; [reflexivity | split; [reflexivity | ]].
  unfold Storage.getActivityLogs, Server.deleteActivityLog, Server.map_delete.
  cbn [Server.activityLogs Server.activityTypes Server.streaks].
  rewrite (map_set_fresh _ _ _ F), map_app, filter_app.
  cbn [map filter snd log_userId option_eqb_string].
  split; [now rewrite String.eqb_refl | split].
  - intros other N. rewrite filter_app.
    cbn [map filter snd log_userId option_eqb_string].
    replace (String.eqb userId other) with false
      by (symmetry; apply String.eqb_neq; congruence).
    apply app_nil_r.
  - f_equal.
    + unfold Server.map_has. rewrite existsb_app. cbn [existsb fst].
      rewrite String.eqb_refl. apply Bool.orb_true_iff. right. reflexivity.
    + rewrite filter_app. cbn [filter fst]. rewrite String.eqb_refl.
      cbn [negb]. rewrite app_nil_r, (delete_fresh _ _ F). now destruct st.
Qed.

Lemma createActivityLog_roundtrip_witness :
  fresh_key (Server.activityLogs Storage.initial) "log-a" /\
  Server.deleteActivityLog "log-a"
    (snd (Storage.createActivityLog "log-a" 0 "u1" "default-1" "2024-02-02" 30
            None Storage.initial))
  = (true, Storage.initial).
Proof.
  assert (F : fresh_key (Server.activityLogs Storage.initial) "log-a")
    by (intros kv []).
  split; [exact F | ].
  exact (proj2 (proj2 (proj2 (proj2
           (createActivityLog_roundtrip "log-a" 0 "u1" "default-1"
              "2024-02-02" 30 None Storage.initial F))))).
Defined.

Lemma keys_unique {V : Type} (m : list (string * V)) (k : string) (v v' : V) :
  NoDup (map fst m) -> In (k, v) m -> In (k, v') m -> v = v'.
Proof.
  induction m as [| [k0 v0] m IH]; cbn [map fst In]; [tauto | ].
  intros N H H'. inversion N as [| ? ? Hn Hd]; subst.
  assert (A : forall w, In (k0, w) m -> False).
  { intros w Hw. apply Hn. change k0 with (fst (k0, w)). now apply in_map. }
  destruct H as [H | H], H' as [H' | H'].
  - congruence.
  - injection H as -> _. exfalso. now apply (A v').
  - injection H' as -> _. exfalso. now apply (A v).
  - now apply IH.
Qed.

Lemma NoDup_snoc {A : Type} (l : list A) (x : A) :
  NoDup l -> ~ In x l -> NoDup (l ++ [x]).
Proof.
  intros N H. apply (Permutation_NoDup (l := x :: l)).
  - apply Permutation_cons_append.
  - now constructor.
Qed.

Lemma NoDup_replace_middle {A : Type} (l1 l2 : list A) (a b : A) :
  NoDup (l1 ++ a :: l2) -> ~ In b l1 -> ~ In b l2 -> NoDup (l1 ++ b :: l2).
Proof.
  intros N H1 H2.
  apply NoDup_remove in N. destruct N as [N _].
  apply (Permutation_NoDup (l := b :: l1 ++ l2)).
  - apply Permutation_middle.
  - constructor; [ | exact N]. intros C. apply in_app_or in C. tauto.
Qed.

Lemma find_user_none (m : list (string * Server.StoredStreak)) (u : string) :
  ~ In u (map (fun kv => Server.ss_userId (snd kv)) m) <->
  find (user_is u) (map snd m) = None.
Proof.
  induction m as [| [k s] m IH]; cbn [map snd find In]; [tauto | ].
  unfold user_is at 1. destruct (String.eqb_spec (Server.ss_userId s) u).
  - split; [intros C; exfalso; apply C; now left | discriminate].
  - rewrite <- IH. tauto.
Qed.

Lemma find_middle_other {A : Type} (p : A -> bool) (l1 l2 : list A) (a b : A) :
  p a = false -> p b = false ->
  find p (l1 ++ a :: l2) = find p (l1 ++ b :: l2).
Proof.
  intros Pa Pb. induction l1 as [| x l1 IH]; cbn [app find].
  - now rewrite Pa, Pb.
  - now rewrite IH.
Qed.

(** What [createOrUpdateStreak] does to a store that keeps the streak
    records under their ids, one for a user. *)
Lemma createOrUpdateStreak_spec (newId userId : string) (c l : Z) (d : string)
    (st : Server.MemStorage) :
  keyed_by Server.ss_id (Server.streaks st) ->
  NoDup (map (fun kv => Server.ss_userId (snd kv)) (Server.streaks st)) ->
  let st' := Server.createOrUpdateStreak newId userId c l d st in
  keyed_by Server.ss_id (Server.streaks st') /\
  NoDup (map (fun kv => Server.ss_userId (snd kv)) (Server.streaks st')) /\
  Server.activityTypes st' = Server.activityTypes st /\
  Server.activityLogs st' = Server.activityLogs st /\
  (exists s,
     Server.getStreak st' userId = Some s /\
     Server.ss_userId s = userId /\ Server.ss_currentStreak s = c /\
     Server.ss_longestStreak s = l /\ Server.ss_lastActiveDate s = Some d /\
     In (Server.ss_id s, s) (Server.streaks st')) /\
  (fresh_key (Server.streaks st) newId ->
   forall other, other <> userId ->
     Server.getStreak st' other = Server.getStreak st other).
Proof.
  intros Kd Nu. cbv zeta. destruct Kd as [Nk K].
  unfold Server.createOrUpdateStreak.
  assert (Replace :
    forall k v0 s' m1 m2,
      Server.streaks st = m1 ++ (k, v0) :: m2 ->
      Server.ss_id s' = k -> Server.ss_userId s' = userId ->
      (Server.ss_userId v0 = userId
       \/ ~ In userId
            (map (fun kv => Server.ss_userId (snd kv)) (Server.streaks st))) ->
      keyed_by Server.ss_id (m1 ++ (k, s') :: m2) /\
      NoDup (map (fun kv => Server.ss_userId (snd kv)) (m1 ++ (k, s') :: m2)) /\
      find (user_is userId) (map snd (m1 ++ (k, s') :: m2)) = Some s' /\
      In (Server.ss_id s', s') (m1 ++ (k, s') :: m2) /\
      (Server.ss_userId v0 = userId ->
       forall other, other <> userId ->
         find (user_is other) (map snd (m1 ++ (k, s') :: m2))
         = find (user_is other) (map snd (Server.streaks st)))).
  { intros k v0 s' m1 m2 E Ek Eu Hu.
    rewrite E in Nk, Nu, K.
    rewrite map_app in Nu. cbn [map snd] in Nu.
    assert (U1 : ~ In userId (map (fun kv => Server.ss_userId (snd kv)) m1)
                 /\ ~ In userId
                      (map (fun kv => Server.ss_userId (snd kv)) m2)).
    { destruct Hu as [Hu | Hu].
      - rewrite <- Hu. apply NoDup_remove in Nu. destruct Nu as [_ Nu].
        split; intros C; apply Nu; apply in_or_app; tauto.
      - rewrite E, map_app in Hu. cbn [map] in Hu.
        split; intros C; apply Hu; apply in_or_app; [ | right; right]; tauto. }
    destruct U1 as [U1 U2].
    split; [ | split; [ | split; [ | split]]].
    - split.
      + rewrite map_app in *. exact Nk.
      + intros k' v' H. apply in_app_or in H.
        destruct H as [H | [[= <- <-] | H]];
          [apply K; apply in_or_app; now left | exact Ek
          | apply K; apply in_or_app; right; now right].
    - rewrite map_app. cbn [map snd]. rewrite Eu.
      now apply (NoDup_replace_middle _ _ (Server.ss_userId v0)).
    - rewrite map_app. cbn [map snd].
      rewrite find_app_none by now apply find_user_none.
      cbn [find]. unfold user_is at 1. now rewrite Eu, String.eqb_refl.
    - rewrite Ek. apply in_or_app. right. now left.
    - intros Ev other No. rewrite E, !map_app. cbn [map snd].
      apply find_middle_other; unfold user_is; apply String.eqb_neq; congruence. }
  destruct (Server.getStreak st userId) as [s |] eqn:G.
  - unfold Server.getStreak in G. fold (user_is userId) in G.
    apply find_some in G. destruct G as [Hin Hu].
    unfold user_is in Hu. apply String.eqb_eq in Hu.
    apply in_map_iff in Hin. destruct Hin as ([k s0] & Es & Hin).
    cbn [snd] in Es. subst s0.
    assert (Ek : Server.ss_id s = k) by now apply K.
    subst k.
    destruct (map_set_present (Server.streaks st) (Server.ss_id s)
                (Server.mkStoredStreak (Server.ss_id s) (Server.ss_userId s)
                   c l (Some d)))
      as (m1 & v0 & m2 & E1 & E2).
    { intros F. apply (F (Server.ss_id s, s) Hin). reflexivity. }
    assert (Ev : v0 = s).
    { apply (keys_unique (Server.streaks st) (Server.ss_id s)); try assumption.
      rewrite E1. apply in_or_app. right. now left. }
    subst v0.
    cbn [Server.streaks Server.activityTypes Server.activityLogs].
    rewrite E2.
    destruct (Replace _ _ (Server.mkStoredStreak (Server.ss_id s)
                             (Server.ss_userId s) c l (Some d)) _ _ E1
                eq_refl Hu (or_introl Hu)) as (R1 & R2 & R3 & R4 & R5).
    split; [exact R1 | split; [exact R2 | split; [reflexivity | split;
      [reflexivity | split]]]].
    + eexists. unfold Server.getStreak. cbn [Server.streaks].
      fold (user_is userId). split; [exact R3 | ].
      cbn [Server.ss_userId Server.ss_currentStreak Server.ss_longestStreak
           Server.ss_lastActiveDate Server.ss_id].
      repeat split; try assumption; exact R4.
    + intros _ other No. unfold Server.getStreak. cbn [Server.streaks].
      fold (user_is other). now apply R5.
  - unfold Server.getStreak in G. fold (user_is userId) in G.
    apply find_user_none in G.
    cbn [Server.streaks Server.activityTypes Server.activityLogs].
    destruct (fresh_key_dec (Server.streaks st) newId) as [F | F].
    + rewrite (map_set_fresh _ _ _ F).
      split; [ | split; [ | split; [reflexivity | split; [reflexivity | split]]]].
      * rewrite <- (map_set_fresh _ _ _ F). apply keyed_map_set;
          [now split | reflexivity].
      * rewrite map_app. cbn [map snd Server.ss_userId].
        now apply NoDup_snoc.
      * eexists. unfold Server.getStreak. cbn [Server.streaks].
        rewrite map_app. fold (user_is userId).
        rewrite find_app_none by now apply find_user_none.
        cbn [map snd find]. unfold user_is at 1.
        cbn [Server.ss_userId]. rewrite String.eqb_refl.
        split; [reflexivity | ].
        cbn [Server.ss_userId Server.ss_currentStreak Server.ss_longestStreak
             Server.ss_lastActiveDate Server.ss_id].
        repeat split; apply in_or_app; right; now left.
      * intros _ other No. unfold Server.getStreak. cbn [Server.streaks].
        rewrite map_app. fold (user_is other). cbn [map snd].
        destruct (find (user_is other) (map snd (Server.streaks st)))
          as [x |] eqn:Fo.
        -- now apply find_app_found.
        -- rewrite find_app_none by assumption. cbn [find].
           unfold user_is at 1. cbn [Server.ss_userId].
           replace (String.eqb userId other) with false
             by (symmetry; apply String.eqb_neq; congruence).
           reflexivity.
    + destruct (map_set_present (Server.streaks st) newId
                  (Server.mkStoredStreak newId userId c l (Some d)) F)
        as (m1 & v0 & m2 & E1 & E2).
      rewrite E2.
      destruct (Replace _ _ (Server.mkStoredStreak newId userId c l (Some d))
                  _ _ E1 eq_refl eq_refl (or_intror G))
        as (R1 & R2 & R3 & R4 & _).
      split; [exact R1 | split; [exact R2 | split; [reflexivity | split;
        [reflexivity | split]]]].
      * eexists. unfold Server.getStreak. cbn [Server.streaks].
        fold (user_is userId). split; [exact R3 | ].
        cbn [Server.ss_userId Server.ss_currentStreak Server.ss_longestStreak
             Server.ss_lastActiveDate Server.ss_id].
        repeat split; exact R4.
      * intros Fr. contradiction.
Qed.

Lemma streakUpdate_le (now : Date) (stored : option Server.StoredStreak) :
  fst (Server.streakUpdate now stored) <= snd (Server.streakUpdate now stored).
Proof. unfold Server.streakUpdate. cbn [fst snd]. lia. Qed.

Lemma postLog_today (logId streakId : string) (nowMs : Z) (now : Date)
    (userId activityTypeId : string) (minutes : Z) (notes : option string)
    (st : Server.MemStorage) :
  Server.postLog logId streakId nowMs now userId activityTypeId
    (format_date now) minutes notes st
  = Server.createOrUpdateStreak streakId userId
      (fst (Server.streakUpdate now (Server.getStreak st userId)))
      (snd (Server.streakUpdate now (Server.getStreak st userId)))
      (format_date now)
      (snd (Storage.createActivityLog logId nowMs userId activityTypeId
              (format_date now) minutes notes st)).
Proof.
  unfold Server.postLog, Storage.createActivityLog. cbn [snd].
  rewrite String.eqb_refl.
  change (Server.getStreak (Server.mkMemStorage _ _ (Server.streaks st)) userId)
    with (Server.getStreak st userId).
  now destruct (Server.streakUpdate now (Server.getStreak st userId)).
Qed.

(** X19: after [POST /api/logs] for a log dated with the day the clock
    shows, the store holds one streak record for the user, with that day
    as last active date, a current streak that continues the one stored
    (kept when the day was already counted, one more when the last active
    day was the day before, 1 otherwise) and a longest streak that is at
    least the current one; the streaks of the other users are untouched
    when the id drawn for a new record is not in use. *)
Theorem postLog_streak_lookup (logId streakId : string) (nowMs : Z) (now : Date)
    (userId activityTypeId : string) (minutes : Z) (notes : option string)
    (st : Server.MemStorage) :
  store_ok st ->
  let st' :=
    Server.postLog logId streakId nowMs now userId activityTypeId
      (format_date now) minutes notes st in
  (exists s,
     Server.getStreak st' userId = Some s /\
     Server.ss_userId s = userId /\
     Server.ss_lastActiveDate s = Some (format_date now) /\
     (Server.ss_currentStreak s, Server.ss_longestStreak s)
     = Server.streakUpdate now (Server.getStreak st userId) /\
     Server.ss_currentStreak s <= Server.ss_longestStreak s) /\
  (fresh_key (Server.streaks st) streakId ->
   forall other, other <> userId ->
     Server.getStreak st' other = Server.getStreak st other).
Proof.
  intros (_ & _ & Ks & Nu). cbv zeta. rewrite postLog_today.
  set (st0 := snd (Storage.createActivityLog _ _ _ _ _ _ _ st)).
  destruct (createOrUpdateStreak_spec streakId userId
              (fst (Server.streakUpdate now (Server.getStreak st userId)))
              (snd (Server.streakUpdate now (Server.getStreak st userId)))
              (format_date now) st0 Ks Nu)
    as (_ & _ & _ & _ & (s & G & Eu & Ec & El & Ed & _) & O).
  cbv zeta in O. split.
  - exists s. split; [exact G | split; [exact Eu | split; [exact Ed | ]]].
    rewrite Ec, El. split; [now destruct (Server.streakUpdate _ _) | ].
    apply streakUpdate_le.
  - intros F other No. now apply O.
Qed.

Lemma store_ok_initial : store_ok Storage.initial.
Proof.
  unfold store_ok, keyed_by.
  change (Server.activityLogs Storage.initial) with (@nil (string * ActivityLog)).
  change (Server.streaks Storage.initial) with (@nil (string * Server.StoredStreak)).
  split; [split | ].
  - vm_compute.
    repeat (constructor;
            [intros H;
             repeat (destruct H as [H | H]; [discriminate H | ]); exact H | ]).
    constructor.
  - intros k v H. vm_compute in H.
    repeat (destruct H as [H | H]; [injection H as <- <-; reflexivity | ]).
    destruct H.
  - cbn. repeat split; try constructor; intros k v [].
Qed.

Lemma postLog_streak_lookup_witness :
  store_ok Storage.initial /\
  exists s,
    Server.getStreak
      (Server.postLog "log-a" "streak-a" 0 (mkDate 2024 2 2) "u1" "default-1"
         (format_date (mkDate 2024 2 2)) 30 None Storage.initial) "u1"
    = Some s
    /\ Server.ss_lastActiveDate s = Some (format_date (mkDate 2024 2 2)).
Proof.
  split; [exact store_ok_initial | ].
  destruct (proj1 (postLog_streak_lookup "log-a" "streak-a" 0 (mkDate 2024 2 2)
                     "u1" "default-1" 30 None Storage.initial
                     store_ok_initial))
    as (s & G & _ & Ed & _).
  exists s. split; [exact G | exact Ed].
Defined.

Lemma store_ok_postLog (logId streakId : string) (nowMs : Z) (now : Date)
    (userId activityTypeId date : string) (minutes : Z)
    (notes : option string) (st : Server.MemStorage) :
  store_ok st ->
  store_ok
    (Server.postLog logId streakId nowMs now userId activityTypeId date
       minutes notes st).
Proof.
  intros (Kt & Kl & Ks & Nu).
  assert (K0 : store_ok
                 (snd (Storage.createActivityLog logId nowMs userId
                         activityTypeId date minutes notes st))).
  { unfold store_ok, Storage.createActivityLog.
    cbn [snd Server.activityTypes Server.activityLogs Server.streaks].
    repeat split; try apply Kt; try apply Ks; try exact Nu;
      now apply (keyed_map_set log_id). }
  destruct (String.eqb_spec date (format_date now)) as [-> | N].
  - rewrite postLog_today.
    destruct K0 as (Kt0 & Kl0 & Ks0 & Nu0).
    destruct (createOrUpdateStreak_spec streakId userId
                (fst (Server.streakUpdate now (Server.getStreak st userId)))
                (snd (Server.streakUpdate now (Server.getStreak st userId)))
                (format_date now) _ Ks0 Nu0)
      as (R1 & R2 & R3 & R4 & _).
    cbv zeta in R1, R2, R3, R4.
    unfold store_ok. rewrite R3, R4. auto.
  - unfold Server.postLog. apply String.eqb_neq in N. rewrite N. exact K0.
Qed.

(** X20: a second log posted on the same day by the same user leaves the
    streak records exactly as the first one left them. *)
Theorem postLog_same_day_idempotent (logId1 logId2 streakId1 streakId2 : string)
    (nowMs1 nowMs2 : Z) (now : Date) (userId type1 type2 : string)
    (minutes1 minutes2 : Z) (notes1 notes2 : option string)
    (st : Server.MemStorage) :
  store_ok st ->
  let st1 :=
    Server.postLog logId1 streakId1 nowMs1 now userId type1 (format_date now)
      minutes1 notes1 st in
  Server.streaks
    (Server.postLog logId2 streakId2 nowMs2 now userId type2 (format_date now)
       minutes2 notes2 st1)
  = Server.streaks st1.
Proof.
  intros Ok. cbv zeta.
  pose proof (store_ok_postLog logId1 streakId1 nowMs1 now userId type1
                (format_date now) minutes1 notes1 st Ok) as Ok1.
  set (st1 := Server.postLog logId1 _ _ _ _ _ _ _ _ st) in *.
  assert (G1 : exists s,
             Server.getStreak st1 userId = Some s /\
             Server.ss_lastActiveDate s = Some (format_date now) /\
             Server.ss_currentStreak s <= Server.ss_longestStreak s /\
             In (Server.ss_id s, s) (Server.streaks st1)).
  { unfold st1. rewrite postLog_today.
    destruct Ok as (_ & _ & Ks & Nu).
    destruct (createOrUpdateStreak_spec streakId1 userId
                (fst (Server.streakUpdate now (Server.getStreak st userId)))
                (snd (Server.streakUpdate now (Server.getStreak st userId)))
                (format_date now)
                (snd (Storage.createActivityLog logId1 nowMs1 userId type1
                        (format_date now) minutes1 notes1 st)) Ks Nu)
      as (_ & _ & _ & _ & (s & G & _ & Ec & El & Ed & Hin) & _).
    exists s. split; [exact G | split; [exact Ed | split; [ | exact Hin]]].
    rewrite Ec, El. apply streakUpdate_le. }
  destruct G1 as (s & G & Ed & Le & Hin).
  rewrite postLog_today. rewrite G.
  unfold Server.streakUpdate. rewrite Ed.
  cbn [option_eqb_string]. rewrite String.eqb_refl. cbn [fst snd].
  unfold Server.createOrUpdateStreak.
  change (Server.getStreak (snd (Storage.createActivityLog _ _ _ _ _ _ _ st1))
            userId)
    with (Server.getStreak st1 userId).
  rewrite G. cbn [Server.streaks Storage.createActivityLog snd].
  replace (Z.max (Server.ss_currentStreak s) (Server.ss_longestStreak s))
    with (Server.ss_longestStreak s) by lia.
  replace (Server.mkStoredStreak (Server.ss_id s) (Server.ss_userId s)
             (Server.ss_currentStreak s) (Server.ss_longestStreak s)
             (Some (format_date now)))
    with s by (destruct s; cbn in *; congruence).
  apply map_set_same; [ | exact Hin].
  apply Ok1.
Qed.

Lemma postLog_same_day_idempotent_witness :
  Server.streaks
    (Server.postLog "log-b" "streak-b" 1 (mkDate 2024 2 2) "u1" "default-2"
       (format_date (mkDate 2024 2 2)) 15 None
       (Server.postLog "log-a" "streak-a" 0 (mkDate 2024 2 2) "u1" "default-1"
          (format_date (mkDate 2024 2 2)) 30 None Storage.initial))
  = Server.streaks
      (Server.postLog "log-a" "streak-a" 0 (mkDate 2024 2 2) "u1" "default-1"
         (format_date (mkDate 2024 2 2)) 30 None Storage.initial).
Proof.
  exact (postLog_same_day_idempotent "log-a" "log-b" "streak-a" "streak-b" 0 1
           (mkDate 2024 2 2) "u1" "default-1" "default-2" 30 15 None None
           Storage.initial store_ok_initial).
Defined.

(** X21: the store built by the constructor keeps every record under the
    record's own id and at most one streak record for a user, and every
    operation on logs, activity types and streaks keeps it so, whatever
    ids are drawn. *)
Theorem store_invariant :
  store_ok Storage.initial /\
  (forall st, store_ok st ->
     (forall logId streakId nowMs now userId activityTypeId date minutes notes,
        store_ok
          (Server.postLog logId streakId nowMs now userId activityTypeId date
             minutes notes st)) /\
     (forall id, store_ok (snd (Server.deleteLogRoute id st))) /\
     (forall id userId name icon color category isDefault,
        store_ok
          (snd (Storage.createActivityType id userId name icon color category
                  isDefault st))) /\
     (forall id, store_ok (snd (Storage.deleteActivityType id st))) /\
     (forall newId userId c l d,
        store_ok (Server.createOrUpdateStreak newId userId c l d st))).
Proof.
  split; [exact store_ok_initial | ].
  intros st Ok. split; [ | split; [ | split; [ | split]]].
  - intros. now apply store_ok_postLog.
  - intros id. destruct Ok as (Kt & Kl & Ks & Nu).
    unfold Server.deleteLogRoute, Server.deleteActivityLog, Server.map_delete.
    destruct (Server.map_has (Server.activityLogs st) id); cbn [snd];
      unfold store_ok;
      cbn [Server.activityTypes Server.activityLogs Server.streaks];
      (split; [exact Kt | split; [now apply keyed_filter | now split]]).
  - intros id userId name icon color category isDefault.
    destruct Ok as (Kt & Kl & Ks & Nu).
    unfold Storage.createActivityType, store_ok.
    cbn [snd Server.activityTypes Server.activityLogs Server.streaks].
    split; [now apply (keyed_map_set at_id) | split; [exact Kl | now split]].
  - intros id. destruct Ok as (Kt & Kl & Ks & Nu).
    unfold Storage.deleteActivityType, Server.map_delete, store_ok.
    cbn [snd Server.activityTypes Server.activityLogs Server.streaks].
    split; [now apply keyed_filter | split; [exact Kl | now split]].
  - intros newId userId c l d. destruct Ok as (Kt & Kl & Ks & Nu).
    destruct (createOrUpdateStreak_spec newId userId c l d st Ks Nu)
      as (R1 & R2 & R3 & R4 & _).
    cbv zeta in R1, R2, R3, R4. unfold store_ok. rewrite R3, R4. auto.
Qed.

Lemma store_invariant_witness :
  store_ok
    (snd (Server.deleteLogRoute "log-a"
            (Server.postLog "log-a" "streak-a" 0 (mkDate 2024 2 2) "u1"
               "default-1" "2024-02-02" 30 None Storage.initial))).
Proof.
  pose proof (proj1 store_invariant) as H0.
  pose proof (proj1 (proj2 store_invariant _ H0) "log-a"%string
                "streak-a"%string 0 (mkDate 2024 2 2) "u1"%string
                "default-1"%string "2024-02-02"%string 30 None) as H1.
  exact (proj1 (proj2 (proj2 store_invariant _ H1)) "log-a"%string).
Defined.

(** The characters of a formatted date compare as its digits do. *)
Lemma digit_compare (a b : Z) :
  Ascii.compare (digit a) (digit b) = (a mod 10 ?= b mod 10).
Proof.
  unfold Ascii.compare, digit, ascii_of_nat.
  pose proof (Z.mod_pos_bound a 10 ltac:(lia)).
  pose proof (Z.mod_pos_bound b 10 ltac:(lia)).
  rewrite !N_ascii_embedding by lia.
  rewrite <- N2Z.inj_compare. rewrite !nat_N_Z, !Nat2Z.inj_add, !Z2Nat.id by lia.
  change (Z.of_nat 48) with 48.
  destruct (Z.compare_spec (a mod 10) (b mod 10));
    [apply Z.compare_eq_iff | apply Z.compare_lt_iff | apply Z.compare_gt_iff];
    lia.
Qed.

Lemma compare_digit (a b : Z) (s t : string) :
  String.compare (String (digit a) s) (String (digit b) t)
  = match a mod 10 ?= b mod 10 with
    | Eq => String.compare s t
    | ne => ne
    end.
Proof. cbn [String.compare]. now rewrite digit_compare. Qed.

Lemma compare_pad2 (a b : Z) (s t : string) :
  0 <= a < 100 -> 0 <= b < 100 ->
  String.compare (pad2 a ++ s) (pad2 b ++ t)
  = match a ?= b with
    | Eq => String.compare s t
    | ne => ne
    end.
Proof.
  intros Ha Hb. unfold pad2. cbn [String.append]. rewrite !compare_digit.
  destruct (Z.compare_spec ((a / 10) mod 10) ((b / 10) mod 10)) as [E1 | L1 | L1];
    [destruct (Z.compare_spec (a mod 10) (b mod 10)) as [E0 | L0 | L0] | | ];
    destruct (Z.compare_spec a b) as [E | L | L]; try reflexivity;
    exfalso; Z.div_mod_to_equations; lia.
Qed.

Lemma compare_pad4 (a b : Z) (s t : string) :
  0 <= a < 10000 -> 0 <= b < 10000 ->
  String.compare (pad4 a ++ s) (pad4 b ++ t)
  = match a ?= b with
    | Eq => String.compare s t
    | ne => ne
    end.
Proof.
  intros Ha Hb. unfold pad4.
  change (String.compare
            (String (digit (a / 1000)) (String (digit (a / 100)) (pad2 a ++ s)))
            (String (digit (b / 1000)) (String (digit (b / 100)) (pad2 b ++ t)))
          = match a ?= b with Eq => String.compare s t | ne => ne end).
  rewrite !compare_digit.
  unfold pad2. cbn [String.append]. rewrite !compare_digit.
  destruct (Z.compare_spec ((a / 1000) mod 10) ((b / 1000) mod 10));
    [destruct (Z.compare_spec ((a / 100) mod 10) ((b / 100) mod 10));
     [destruct (Z.compare_spec ((a / 10) mod 10) ((b / 10) mod 10));
      [destruct (Z.compare_spec (a mod 10) (b mod 10)) | | ] | | ] | | ];
    destruct (Z.compare_spec a b); try reflexivity;
    exfalso; Z.div_mod_to_equations; lia.
Qed.

Lemma string_app_assoc (s t u : string) :
  ((s ++ t) ++ u = s ++ t ++ u)%string.
Proof. induction s as [ | c s IH]; cbn; [reflexivity | now rewrite IH]. Qed.

Lemma format_date_leb (d1 d2 : Date) :
  civil_date d1 -> civil_date d2 ->
  (String.leb (format_date d1) (format_date d2) = true <-> date_le d1 d2).
Proof.
  destruct d1 as [y1 m1 dd1], d2 as [y2 m2 dd2].
  unfold civil_date, valid_date, date_le. cbn [year month day].
  intros [[Hm1 Hd1] Hy1] [[Hm2 Hd2] Hy2].
  pose proof (days_in_month_bounds y1 m1).
  pose proof (days_in_month_bounds y2 m2).
  unfold String.leb, format_date, format_month. cbn [year month day].
  rewrite !string_app_assoc.
  rewrite compare_pad4 by lia.
  change ("-" ++ pad2 m1 ++ "-" ++ pad2 dd1)%string
    with (String "-" (pad2 m1 ++ String "-" (pad2 dd1 ++ ""))).
  change ("-" ++ pad2 m2 ++ "-" ++ pad2 dd2)%string
    with (String "-" (pad2 m2 ++ String "-" (pad2 dd2 ++ ""))).
  cbn [String.compare].
  change (Ascii.compare "-" "-") with Eq. cbv iota.
  rewrite compare_pad2 by lia.
  cbn [String.compare].
  change (Ascii.compare "-" "-") with Eq. cbv iota.
  rewrite compare_pad2 by lia.
  cbn [String.compare].
  destruct (Z.compare_spec y1 y2);
    [destruct (Z.compare_spec m1 m2);
     [destruct (Z.compare_spec dd1 dd2) | | ] | | ];
    split; intros G; try discriminate G; try reflexivity; try lia.
Qed.

(** X22: [getActivityLogsByDateRange] compares the dates as strings; for
    dates written as yyyy-MM-dd this is the order of the calendar: a log
    dated [d] is returned for the range from [s] to [e] exactly when it is
    a log of the user and [d] is neither before [s] nor after [e]. *)
Theorem date_range_is_calendar_range (st : Server.MemStorage) (userId : string)
    (s e d : Date) (log : ActivityLog) :
  civil_date s -> civil_date e -> civil_date d ->
  log_date log = format_date d ->
  (In log
     (Storage.getActivityLogsByDateRange st userId (format_date s)
        (format_date e))
   <-> In log (Storage.getActivityLogs st userId)
       /\ date_le s d /\ date_le d e).
Proof.
  intros Cs Ce Cd E.
  unfold Storage.getActivityLogsByDateRange, Storage.getActivityLogs.
  rewrite !filter_In, E, !Bool.andb_true_iff.
  rewrite (format_date_leb s d Cs Cd), (format_date_leb d e Cd Ce).
  tauto.
Qed.

Lemma date_range_is_calendar_range_witness :
  In (fst (Storage.createActivityLog "log-a" 0 "u1" "default-1"
             (format_date (mkDate 2024 2 2)) 30 None Storage.initial))
    (Storage.getActivityLogsByDateRange
       (snd (Storage.createActivityLog "log-a" 0 "u1" "default-1"
               (format_date (mkDate 2024 2 2)) 30 None Storage.initial))
       "u1" (format_date (mkDate 2024 1 29)) (format_date (mkDate 2024 2 4))).
Proof.
  assert (Cs : civil_date (mkDate 2024 1 29))
    by (unfold civil_date, valid_date; cbn; lia).
  assert (Ce : civil_date (mkDate 2024 2 4))
    by (unfold civil_date, valid_date; cbn; lia).
  assert (Cd : civil_date (mkDate 2024 2 2))
    by (unfold civil_date, valid_date; cbn; lia).
  apply (proj2 (date_range_is_calendar_range
                  (snd (Storage.createActivityLog "log-a" 0 "u1" "default-1"
                          (format_date (mkDate 2024 2 2)) 30 None
                          Storage.initial))
                  "u1" (mkDate 2024 1 29) (mkDate 2024 2 4) (mkDate 2024 2 2)
                  (fst (Storage.createActivityLog "log-a" 0 "u1" "default-1"
                          (format_date (mkDate 2024 2 2)) 30 None
                          Storage.initial))
                  Cs Ce Cd eq_refl)).
  split; [now left | ].
  unfold date_le; cbn [year month day]. lia.
Defined.

Lemma find_filter_other {A : Type} (key : A -> string) (id k : string)
    (l : list A) :
  find (fun a => String.eqb (key a) k)
    (filter (fun a => negb (String.eqb (key a) id)) l)
  = if String.eqb k id then None else find (fun a => String.eqb (key a) k) l.
Proof.
  induction l as [| a l IH]; cbn [filter find]; [now destruct (String.eqb k id) | ].
  destruct (String.eqb_spec (key a) id) as [E | N]; cbn [negb find].
  - rewrite IH. destruct (String.eqb_spec k id) as [E' | N']; [reflexivity | ].
    destruct (String.eqb_spec (key a) k); [congruence | reflexivity].
  - destruct (String.eqb_spec (key a) k) as [E' | N'].
    + subst k. apply String.eqb_neq in N. now rewrite N.
    + exact IH.
Qed.

Lemma map_defined_filter_out {A B : Type} (f g : A -> option B)
    (q : B -> bool) (l : list A) :
  (forall x, g x = match f x with
                   | Some y => if q y then Some y else None
                   | None => None
                   end) ->
  map_defined g l = filter q (map_defined f l).
Proof.
  intros H. induction l as [| a l IH]; [reflexivity | ].
  cbn [map_defined]. rewrite H. destruct (f a) as [y | ]; [ | exact IH].
  cbn [filter]. destruct (q y); now rewrite IH.
Qed.

Lemma getActivityTypes_deleted (st : Server.MemStorage) (id userId : string) :
  keyed_by at_id (Server.activityTypes st) ->
  Server.getActivityTypes (snd (Storage.deleteActivityType id st)) userId
  = filter (fun a => negb (String.eqb (at_id a) id))
      (Server.getActivityTypes st userId).
Proof.
  intros [_ K]. unfold Server.getActivityTypes, Storage.deleteActivityType.
  cbn [Server.map_delete snd Server.activityTypes].
  rewrite filter_filter_comm. f_equal.
  induction (Server.activityTypes st) as [| [k v] m IH]; [reflexivity | ].
  cbn [filter map fst snd].
  rewrite (K k v (or_introl eq_refl)).
  destruct (String.eqb k id); cbn [negb map snd];
    rewrite IH; try reflexivity;
    intros k' v' Hin; apply K; now right.
Qed.

(** X23: deleting an activity type deletes no log.  In the daily
    statistics of the server the total of the day stays as it was and the
    groups are the former ones without the group of the deleted type, with
    the minutes and percentages they had. *)
Theorem deleteActivityType_orphans_logs (st : Server.MemStorage)
    (id userId date : string) :
  keyed_by at_id (Server.activityTypes st) ->
  let st' := snd (Storage.deleteActivityType id st) in
  Server.activityLogs st' = Server.activityLogs st /\
  ds_totalMinutes (Server.dailyRoute st' userId date)
  = ds_totalMinutes (Server.dailyRoute st userId date) /\
  ds_activities (Server.dailyRoute st' userId date)
  = filter (fun a => negb (String.eqb (at_id (da_activityType a)) id))
      (ds_activities (Server.dailyRoute st userId date)).
Proof.
  intros K. cbv zeta. split; [reflexivity | split; [reflexivity | ]].
  unfold Server.dailyRoute. cbn [ds_activities].
  rewrite (getActivityTypes_deleted st id userId K).
  change (Server.getActivityLogsByDate (snd (Storage.deleteActivityType id st))
            userId date)
    with (Server.getActivityLogsByDate st userId date).
  apply map_defined_filter_out. intros [k m].
  rewrite find_filter_other.
  destruct (find (fun a => String.eqb (at_id a) k)
              (Server.getActivityTypes st userId)) as [a | ] eqn:F.
  - apply find_some in F. destruct F as [_ F]. apply String.eqb_eq in F.
    cbn [da_activityType]. rewrite F.
    now destruct (String.eqb k id).
  - now destruct (String.eqb k id).
Qed.

Lemma deleteActivityType_orphans_logs_witness :
  let st :=
    snd (Storage.createActivityLog "log-b" 1 "u1" "default-2" "2024-02-02" 15
           None
           (snd (Storage.createActivityLog "log-a" 0 "u1" "default-1"
                   "2024-02-02" 30 None Storage.initial))) in
  let before := Server.dailyRoute st "u1" "2024-02-02" in
  let after :=
    Server.dailyRoute (snd (Storage.deleteActivityType "default-1" st)) "u1"
      "2024-02-02" in
  keyed_by at_id (Server.activityTypes st) /\
  ds_totalMinutes before = 45 /\
  map (fun a => (at_id (da_activityType a), da_minutes a))
    (ds_activities before)
  = [("default-1"%string, 30); ("default-2"%string, 15)] /\
  ds_totalMinutes after = 45 /\
  map (fun a => (at_id (da_activityType a), da_minutes a))
    (ds_activities after)
  = [("default-2"%string, 15)].
Proof.
  cbv zeta.
  pose proof (deleteActivityType_orphans_logs
                (snd (Storage.createActivityLog "log-b" 1 "u1" "default-2"
                        "2024-02-02" 15 None
                        (snd (Storage.createActivityLog "log-a" 0 "u1"
                                "default-1" "2024-02-02" 30 None
                                Storage.initial))))
                "default-1" "u1" "2024-02-02" (proj1 store_ok_initial)) as T.
  cbv zeta in T. destruct T as (_ & Tt & Ta).
  split; [exact (proj1 store_ok_initial) | ].
  split; [vm_compute; reflexivity | ].
  split; [vm_compute; reflexivity | ].
  split.
  - rewrite Tt. vm_compute. reflexivity.
  - rewrite Ta. vm_compute. reflexivity.
Defined.

Lemma sum_by_filter_le {A : Type} (f : A -> Z) (p : A -> bool) (l : list A) :
  (forall a, In a l -> 0 <= f a) -> sum_by f (filter p l) <= sum_by f l.
Proof.
  induction l as [| a l IH]; intros H; [cbn; lia | ].
  cbn [filter]. specialize (IH (fun x Hx => H x (or_intror Hx))).
  pose proof (H a (or_introl eq_refl)).
  destruct (p a); rewrite ?sum_by_cons; lia.
Qed.

(** X24: the insights of the server's weekly statistics are at most two
    sentences, so that the cut to three never removes one; the sentence on
    a balanced week is never joined by another one; and when no entry has
    negative minutes and the total is at least the sum of the entries, the
    list is never empty. *)
Theorem generateInsights_rules (activityBreakdown : list WeeklyActivity)
    (totalMinutes : Z) :
  let insights := Storage.generateInsights activityBreakdown totalMinutes in
  (List.length insights <= 2)%nat /\
  (forall s, In s insights ->
     s = leisure_insight \/ s = health_insight \/ s = balanced_insight) /\
  (In balanced_insight insights -> insights = [balanced_insight]) /\
  ((forall a, In a activityBreakdown -> 0 <= wa_minutes a) ->
   sum_by wa_minutes activityBreakdown <= totalMinutes ->
   insights <> []).
Proof.
  cbv zeta. unfold Storage.generateInsights.
  fold leisure_insight health_insight balanced_insight.
  set (healthTotal :=
         sum_by wa_minutes
           (filter
              (fun a => String.eqb (at_category (wa_activityType a)) "health")
              activityBreakdown)).
  destruct (Qlt_bool _ _); destruct (Z.ltb_spec healthTotal 180) as [Hh | Hh];
    cbn [app List.length Nat.eqb andb firstn].
  - repeat split; [lia | intros s [<- | [<- | []]]; auto | | discriminate].
    intros [E | [E | []]]; discriminate E.
  - repeat split; [lia | intros s [<- | []]; auto | | discriminate].
    intros [E | []]; discriminate E.
  - repeat split; [lia | intros s [<- | []]; auto | | discriminate].
    intros [E | []]; discriminate E.
  - destruct (Z.ltb_spec 0 totalMinutes) as [Ht | Ht]; cbn [app firstn List.length].
    + repeat split; [lia | intros s [<- | []]; auto | discriminate].
    + repeat split; [lia | intros s [] | intros [] | ].
      intros Hn Hs _.
      pose proof (sum_by_filter_le wa_minutes
                    (fun a => String.eqb (at_category (wa_activityType a)) "health")
                    activityBreakdown Hn) as Hle.
      fold healthTotal in Hle. lia.
Qed.

Lemma generateInsights_rules_witness :
  sum_by wa_minutes [] <= 0 /\ Storage.generateInsights [] 0 <> [].
Proof.
  assert (Hs : sum_by wa_minutes [] <= 0) by (vm_compute; discriminate).
  split; [exact Hs | ].
  exact (proj2 (proj2 (proj2 (generateInsights_rules [] 0)))
           (fun a (H : In a []) => match H with end) Hs).
Defined.

Lemma server_streakUpdate_agrees_witness :
  regular_day (fixed_zone 0) 1704196800000 /\
  Server.streakUpdate (fixed_zone 0 1704196800000)
    (Some (Server.mkStoredStreak "s1" "u1" 1 1 (Some "2024-01-01"%string)))
  = (currentStreak
       (updateStreak (fixed_zone 0) 1704196800000
          (format_date (fixed_zone 0 1704196800000))
          (mkStreak 1 1 (Some "2024-01-01"%string))),
     longestStreak
       (updateStreak (fixed_zone 0) 1704196800000
          (format_date (fixed_zone 0 1704196800000))
          (mkStreak 1 1 (Some "2024-01-01"%string)))).
Proof.
  split; [apply fixed_zone_regular | ].
  exact (proj1 (server_streakUpdate_agrees (fixed_zone 0) 1704196800000
                  (Server.mkStoredStreak "s1" "u1" 1 1
                     (Some "2024-01-01"%string))
                  (fixed_zone_regular 0 1704196800000)
                  ltac:(discriminate) (Z.le_refl 1))).
Defined.

(** X28: the activity types a user sees are the default ones and the
    user's own.  A type created for a user under an id that is not in use
    comes last in that user's list; the other users see it exactly when
    the request sets [isDefault], and then it comes last in their lists
    too.  Deleting a type asks neither whose it is nor whether it is a
    default one, and afterwards no user sees a type of that id. *)
Theorem activity_type_visibility (id userId name icon color category : string)
    (isDefault : option bool) (st : Server.MemStorage) :
  keyed_by at_id (Server.activityTypes st) ->
  userId <> EmptyString ->
  fresh_key (Server.activityTypes st) id ->
  let created :=
    Storage.createActivityType id (Some userId) name icon color category
      isDefault st in
  at_isDefault (fst created) = (if isDefault is Some true then true else false) /\
  Server.getActivityTypes (snd created) userId
  = Server.getActivityTypes st userId ++ [fst created] /\
  (forall other, other <> userId ->
     Server.getActivityTypes (snd created) other
     = Server.getActivityTypes st other
       ++ (if isDefault is Some true then [fst created] else [])) /\
  (forall a, In a (map snd (Server.activityTypes st)) -> at_isDefault a = true ->
     forall other, In a (Server.getActivityTypes st other)) /\
  (forall gone other a,
     In a (Server.getActivityTypes (snd (Storage.deleteActivityType gone st))
             other) ->
     at_id a <> gone) /\
  Storage.deleteActivityType id (snd created) = (true, st).
Proof.
  intros K Hu F. cbv zeta. unfold Storage.createActivityType. cbn [fst snd].
  assert (En : or_null (Some userId) = Some userId)
    by (destruct userId; [congruence | reflexivity]).
  rewrite En.
  split; [now destruct isDefault as [[|] |] | ].
  split; [ | split; [ | split; [ | split]]].
  - unfold Server.getActivityTypes. cbn [Server.activityTypes].
    rewrite (map_set_fresh _ _ _ F), map_app, filter_app.
    cbn [map filter snd at_isDefault at_userId option_eqb_string].
    rewrite String.eqb_refl, Bool.orb_true_r. reflexivity.
  - intros other N. unfold Server.getActivityTypes. cbn [Server.activityTypes].
    rewrite (map_set_fresh _ _ _ F), map_app, filter_app.
    cbn [map filter snd at_isDefault at_userId option_eqb_string].
    replace (String.eqb userId other) with false
      by (symmetry; apply String.eqb_neq; congruence).
    rewrite Bool.orb_false_r. now destruct isDefault as [[|] |].
  - intros a Ha Hd other. unfold Server.getActivityTypes.
    apply filter_In. split; [exact Ha | now rewrite Hd].
  - intros gone other a Ha. rewrite (getActivityTypes_deleted st gone other K) in Ha.
    apply filter_In in Ha. destruct Ha as [_ Ha].
    now apply Bool.negb_true_iff, String.eqb_neq in Ha.
  - unfold Storage.deleteActivityType, Server.map_delete.
    cbn [Server.activityTypes Server.activityLogs Server.streaks].
    rewrite (map_set_fresh _ _ _ F). f_equal.
    + unfold Server.map_has. rewrite existsb_app. cbn [existsb fst].
      rewrite String.eqb_refl. apply Bool.orb_true_iff. right. reflexivity.
    + rewrite filter_app. cbn [filter fst]. rewrite String.eqb_refl.
      cbn [negb]. rewrite app_nil_r, (delete_fresh _ _ F). now destruct st.
Qed.

Lemma activity_type_visibility_witness :
  fresh_key (Server.activityTypes Storage.initial) "custom-1" /\
  Server.getActivityTypes
    (snd (Storage.createActivityType "custom-1" (Some "u1"%string) "Chess"
            "Crown" "#000000" "leisure" (Some true) Storage.initial)) "u2"
  = Server.getActivityTypes Storage.initial "u2"
    ++ [fst (Storage.createActivityType "custom-1" (Some "u1"%string) "Chess"
               "Crown" "#000000" "leisure" (Some true) Storage.initial)] /\
  Server.getActivityTypes
    (snd (Storage.createActivityType "custom-1" (Some "u1"%string) "Chess"
            "Crown" "#000000" "leisure" None Storage.initial)) "u2"
  = Server.getActivityTypes Storage.initial "u2" ++ [].
Proof.
  assert (F : fresh_key (Server.activityTypes Storage.initial) "custom-1").
  { intros kv H. vm_compute in H.
    repeat (destruct H as [H | H]; [subst kv; discriminate | ]). destruct H. }
  assert (N : "u2"%string <> "u1"%string) by discriminate.
  split; [exact F | split].
  - exact (proj1 (proj2 (proj2
             (activity_type_visibility "custom-1" "u1" "Chess" "Crown"
                "#000000" "leisure" (Some true) Storage.initial
                (proj1 store_ok_initial) ltac:(discriminate) F)))
             "u2"%string N).
  - exact (proj1 (proj2 (proj2
             (activity_type_visibility "custom-1" "u1" "Chess" "Crown"
                "#000000" "leisure" None Storage.initial
                (proj1 store_ok_initial) ltac:(discriminate) F)))
             "u2"%string N).
Defined.
